(** * Joystick subsystem (inputsystem/joystick_sdl.cpp) and voice ring buffer
      (engine/audio/voice_record_sdl.cpp): a shallow embedding.

    The C++ methods of [CInputSystem] become functions on an explicit [State];
    calls into SDL and into the host input system are recorded in an event
    trace carried by the state (newest entry first).  The device layer is an
    explicit snapshot passed to every entry point. *)

From Stdlib Require Import ZArith List Bool Lia.
From Stdlib Require Import Floats.SpecFloat.
From Stdlib Require Import Init.Byte.
From Stdlib Require Strings.String.
Import ListNotations.
Open Scope Z_scope.

(* ------------------------------------------------------------------------- *)
(** ** C scalar types *)

(** C [float] is IEEE-754 binary32: 24 bits of precision, emax 128. *)
Module F32.
Definition prec : Z := 24.
Definition emax : Z := 128.
Definition float : Type := spec_float.

Definition of_int (z : Z) : float := binary_normalize prec emax z 0 false.
Definition add : float -> float -> float := SFadd prec emax.
Definition sub : float -> float -> float := SFsub prec emax.
Definition mul : float -> float -> float := SFmul prec emax.
Definition div : float -> float -> float := SFdiv prec emax.
Definition abs : float -> float := SFabs.
Definition ltb : float -> float -> bool := SFltb.

(** Decimal literal [n / 10^d] rounded to the nearest binary32 value
    (the literals used below have few digits, so the rounded quotient of the
    two exactly represented integers is the correctly rounded literal). *)
Definition lit (n : Z) (pow10 : Z) : float := div (of_int n) (of_int pow10).

(** Conversion [float -> int]: truncation toward zero.  For NaN, infinities
    and values outside [int] C leaves the result undefined; the model
    returns the x86 "integer indefinite" value. *)
Definition INT_MIN : Z := - 2 ^ 31.
Definition INT_MAX : Z := 2 ^ 31 - 1.
Definition to_int (f : float) : Z :=
  match f with
  | S754_zero _ => 0
  | S754_finite s m e =>
      let mag := if 0 <=? e then Z.shiftl (Z.pos m) e
                 else Z.shiftr (Z.pos m) (- e) in
      let v := if s then - mag else mag in
      if (INT_MIN <=? v) && (v <=? INT_MAX) then v else INT_MIN
  | _ => INT_MIN
  end.
End F32.

(** Array update, [a[i] = v]. *)
Definition upd {A : Type} (a : Z -> A) (i : Z) (v : A) : Z -> A :=
  fun j => if j =? i then v else a j.

Definition updb {A : Type} (a : bool -> A) (i : bool) (v : A) : bool -> A :=
  fun j => if Bool.eqb j i then v else a j.

(* ------------------------------------------------------------------------- *)
(** ** SDL3 gamepad enumerations (SDL3/SDL_gamepad.h) *)

Definition SDL_GAMEPAD_BUTTON_SOUTH : Z := 0.
Definition SDL_GAMEPAD_BUTTON_EAST : Z := 1.
Definition SDL_GAMEPAD_BUTTON_WEST : Z := 2.
Definition SDL_GAMEPAD_BUTTON_NORTH : Z := 3.
Definition SDL_GAMEPAD_BUTTON_BACK : Z := 4.
Definition SDL_GAMEPAD_BUTTON_GUIDE : Z := 5.
Definition SDL_GAMEPAD_BUTTON_START : Z := 6.
Definition SDL_GAMEPAD_BUTTON_LEFT_STICK : Z := 7.
Definition SDL_GAMEPAD_BUTTON_RIGHT_STICK : Z := 8.
Definition SDL_GAMEPAD_BUTTON_LEFT_SHOULDER : Z := 9.
Definition SDL_GAMEPAD_BUTTON_RIGHT_SHOULDER : Z := 10.
Definition SDL_GAMEPAD_BUTTON_DPAD_UP : Z := 11.
Definition SDL_GAMEPAD_BUTTON_DPAD_DOWN : Z := 12.
Definition SDL_GAMEPAD_BUTTON_DPAD_LEFT : Z := 13.
Definition SDL_GAMEPAD_BUTTON_DPAD_RIGHT : Z := 14.
(** First SDL button the switch of [ControllerButtonToButtonCode] has no
    case for. *)
Definition SDL_GAMEPAD_BUTTON_MISC1 : Z := 15.

Definition SDL_GAMEPAD_AXIS_LEFTX : Z := 0.
Definition SDL_GAMEPAD_AXIS_LEFTY : Z := 1.
Definition SDL_GAMEPAD_AXIS_RIGHTX : Z := 2.
Definition SDL_GAMEPAD_AXIS_RIGHTY : Z := 3.
Definition SDL_GAMEPAD_AXIS_LEFT_TRIGGER : Z := 4.
Definition SDL_GAMEPAD_AXIS_RIGHT_TRIGGER : Z := 5.

(** The case labels of the switch in [ControllerButtonToButtonCode]. *)
Definition button_table_keys : list Z :=
  [ SDL_GAMEPAD_BUTTON_SOUTH; SDL_GAMEPAD_BUTTON_EAST; SDL_GAMEPAD_BUTTON_WEST;
    SDL_GAMEPAD_BUTTON_NORTH; SDL_GAMEPAD_BUTTON_BACK; SDL_GAMEPAD_BUTTON_START;
    SDL_GAMEPAD_BUTTON_GUIDE; SDL_GAMEPAD_BUTTON_LEFT_STICK;
    SDL_GAMEPAD_BUTTON_RIGHT_STICK; SDL_GAMEPAD_BUTTON_LEFT_SHOULDER;
    SDL_GAMEPAD_BUTTON_RIGHT_SHOULDER; SDL_GAMEPAD_BUTTON_DPAD_UP;
    SDL_GAMEPAD_BUTTON_DPAD_DOWN; SDL_GAMEPAD_BUTTON_DPAD_LEFT;
    SDL_GAMEPAD_BUTTON_DPAD_RIGHT ].

(* ------------------------------------------------------------------------- *)
(** ** Engine enumerations

    [ButtonCode_t], [AnalogCode_t] and the [JOYSTICK_BUTTON]/[JOYSTICK_AXIS]
    macros come from the engine's public headers, which are not part of the
    translated sources; their values are parameters of the development. *)

Class InputEnums : Type := {
  BUTTON_CODE_NONE : Z;
  JOYSTICK_BUTTON : Z -> Z -> Z;
  KEY_XBUTTON_BACK : Z;
  KEY_XBUTTON_START : Z;
  KEY_XBUTTON_STICK1 : Z;
  KEY_XBUTTON_STICK2 : Z;
  KEY_XBUTTON_LEFT_SHOULDER : Z;
  KEY_XBUTTON_RIGHT_SHOULDER : Z;
  KEY_XBUTTON_UP : Z;
  KEY_XBUTTON_DOWN : Z;
  KEY_XBUTTON_LEFT : Z;
  KEY_XBUTTON_RIGHT : Z;
  KEY_XBUTTON_LTRIGGER : Z;
  KEY_XBUTTON_RTRIGGER : Z;
  ANALOG_CODE_INVALID : Z;
  JOYSTICK_AXIS : Z -> Z -> Z;
  JOY_AXIS_X : Z;
  JOY_AXIS_Y : Z;
  JOY_AXIS_Z : Z;
  JOY_AXIS_R : Z;
  JOY_AXIS_U : Z;
  SDL_GAMEPAD_BUTTON_MAX : Z
}.

(** [ConVar::SetValue] belongs to the engine's console-variable class, which
    is not part of the translated sources either.  What matters here is when
    it runs the change callback a variable was declared with, given the value
    stored so far and the new one; that is a parameter too.  The callback
    runs after the new value is stored. *)
Class ConVarImpl : Type := {
  change_callback_runs : Z -> Z -> bool
}.

(** What [JoystickAxisMotion] needs of the header values: the two trigger
    button codes are real codes, and the trigger channel is a real channel. *)
Definition trigger_codes_ok {enums : InputEnums} : Prop :=
  KEY_XBUTTON_LTRIGGER <> BUTTON_CODE_NONE /\
  KEY_XBUTTON_RTRIGGER <> BUTTON_CODE_NONE /\
  JOYSTICK_AXIS 0 JOY_AXIS_Z <> ANALOG_CODE_INVALID.

(* ------------------------------------------------------------------------- *)
(** ** The device layer

    What SDL answers at the time of a call: the attached devices, each with
    the outcome the SDL calls of this file would have on it. *)

Record Device : Type := mkDevice {
  dev_id : Z;                 (* SDL_JoystickID, read as [int] *)
  dev_is_gamepad : bool;      (* SDL_IsGamepad *)
  dev_joystick_opens : bool;  (* SDL_OpenJoystick gives a non-NULL handle *)
  dev_gamepad_opens : bool;   (* SDL_OpenGamepad gives a non-NULL handle *)
  dev_haptic_opens : bool;    (* SDL_OpenHapticFromJoystick is non-NULL *)
  dev_rumble_init : Z;        (* value of SDL_InitHapticRumble *)
  dev_rumble_play : Z         (* value of SDL_PlayHapticRumble *)
}.

Definition DeviceLayer : Type := list Device.

(** Opaque handles: a handle is identified by the joystick it belongs to. *)
Record SDL_Gamepad : Type := mkGamepad { gamepad_joystick : Z }.
Record SDL_Haptic : Type := mkHaptic { haptic_joystick : Z }.

Definition find_device (L : DeviceLayer) (id : Z) : option Device :=
  find (fun d => dev_id d =? id) L.

Definition SDL_GetJoysticks (L : DeviceLayer) : list Z := map dev_id L.

Definition SDL_IsGamepad (L : DeviceLayer) (id : Z) : bool :=
  match find_device L id with
  | Some d => dev_is_gamepad d
  | None => false
  end.

Definition SDL_OpenJoystick (L : DeviceLayer) (id : Z) : bool :=
  match find_device L id with
  | Some d => dev_joystick_opens d
  | None => false
  end.

Definition SDL_OpenGamepad (L : DeviceLayer) (id : Z) : option SDL_Gamepad :=
  match find_device L id with
  | Some d => if dev_gamepad_opens d then Some (mkGamepad id) else None
  | None => None
  end.

(** [SDL_GetJoystickID(SDL_GetGamepadJoystick(gamepad))]. *)
Definition SDL_GetJoystickID (g : SDL_Gamepad) : Z := gamepad_joystick g.

(** [SDL_OpenHapticFromJoystick(SDL_GetGamepadJoystick(gamepad))]. *)
Definition SDL_OpenHapticFromJoystick (L : DeviceLayer) (g : SDL_Gamepad)
  : option SDL_Haptic :=
  match find_device L (gamepad_joystick g) with
  | Some d => if dev_haptic_opens d
              then Some (mkHaptic (gamepad_joystick g)) else None
  | None => None
  end.

Definition SDL_InitHapticRumble (L : DeviceLayer) (h : SDL_Haptic) : Z :=
  match find_device L (haptic_joystick h) with
  | Some d => dev_rumble_init d
  | None => -1
  end.

Definition SDL_PlayHapticRumble (L : DeviceLayer) (h : SDL_Haptic) : Z :=
  match find_device L (haptic_joystick h) with
  | Some d => dev_rumble_play d
  | None => -1
  end.

(** SDL never hands out the id that this file uses for "no joystick". *)
Definition layer_ids_valid (L : DeviceLayer) : bool :=
  forallb (fun d => negb (dev_id d =? -1)) L.

(* ------------------------------------------------------------------------- *)
(** ** Observable calls *)

Inductive Diagnostic : Type :=
| NotRecognized
| CouldNotOpenJoystick (id : Z)
| DetectedSupported (id active : Z)
| AlreadyInitialized (active : Z)
| Initializing (id : Z)
| FailedToOpen (id : Z)
| NoRumble (id : Z)
| IgnoringRemove (id active : Z)
| RemoveForRemoved (id : Z)
| JoystickRemoved (id : Z)
| NotActiveDevice (active id : Z)
| InvalidAxisCode (axis : Z)
| CouldntPlayRumble (strength : F32.float).

Inductive Effect : Type :=
| Warning (d : Diagnostic)
| Msg (d : Diagnostic)
| DevMsg (d : Diagnostic)
| E_OpenJoystick (id : Z) (ok : bool)
| E_CloseJoystick (id : Z)
| E_OpenGamepad (id : Z) (r : option SDL_Gamepad)
| E_CloseGamepad (g : SDL_Gamepad)
| E_OpenHaptic (g : SDL_Gamepad) (r : option SDL_Haptic)
| E_InitHapticRumble (h : SDL_Haptic) (r : Z)
| E_CloseHaptic (h : option SDL_Haptic)
| E_StopHapticRumble (h : SDL_Haptic)
| E_PlayHapticRumble (h : SDL_Haptic) (strength : F32.float) (r : Z)
| E_EnableJoystickInput (nJoystick : Z) (bEnable : bool)
| PostButtonPressedEvent (tick scanCode virtualCode : Z)
| PostButtonReleasedEvent (tick scanCode virtualCode : Z)
| PostEvent_AnalogValueChanged (tick code value : Z).

(* ------------------------------------------------------------------------- *)
(** ** State *)

Record JoystickInfo_t : Type := mkInfo {
  m_pDevice : option SDL_Gamepad;
  m_pHaptic : option SDL_Haptic;
  m_nDeviceId : Z;
  m_nButtonCount : Z;
  m_bRumbleEnabled : bool;
  m_fCurrentRumble : F32.float
}.

Record InputState_t : Type := mkInputState {
  m_pAnalogDelta : Z -> Z;
  m_pAnalogValue : Z -> Z
}.

(** [CInputSystem] members used by this file, the console variables the file
    declares or references, and the trace. *)
Record State : Type := mkState {
  info : JoystickInfo_t;                 (* m_pJoystickInfo[0] *)
  m_nJoystickCount : Z;
  m_bXController : bool;
  m_appXKeys : Z -> Z;                   (* m_appXKeys[0][i].repeats *)
  m_bIsPolling : bool;
  m_InputState : bool -> InputState_t;
  m_nLastSampleTick : Z;
  joy_active : Z;
  joy_axisbutton_threshold : F32.float;
  joy_axis_deadzone : F32.float;
  joystickVar : option bool;             (* ConVarRef "joystick" *)
  xcontrollerVar : option bool;          (* ConVarRef "joy_xcontroller_found" *)
  trace : list Effect
}.

Definition set_info (i : JoystickInfo_t) (s : State) : State :=
  mkState i (m_nJoystickCount s) (m_bXController s) (m_appXKeys s)
    (m_bIsPolling s) (m_InputState s) (m_nLastSampleTick s) (joy_active s)
    (joy_axisbutton_threshold s) (joy_axis_deadzone s) (joystickVar s)
    (xcontrollerVar s) (trace s).

Definition set_m_nJoystickCount (n : Z) (s : State) : State :=
  mkState (info s) n (m_bXController s) (m_appXKeys s)
    (m_bIsPolling s) (m_InputState s) (m_nLastSampleTick s) (joy_active s)
    (joy_axisbutton_threshold s) (joy_axis_deadzone s) (joystickVar s)
    (xcontrollerVar s) (trace s).

Definition set_m_bXController (b : bool) (s : State) : State :=
  mkState (info s) (m_nJoystickCount s) b (m_appXKeys s)
    (m_bIsPolling s) (m_InputState s) (m_nLastSampleTick s) (joy_active s)
    (joy_axisbutton_threshold s) (joy_axis_deadzone s) (joystickVar s)
    (xcontrollerVar s) (trace s).

Definition set_m_appXKeys (k : Z -> Z) (s : State) : State :=
  mkState (info s) (m_nJoystickCount s) (m_bXController s) k
    (m_bIsPolling s) (m_InputState s) (m_nLastSampleTick s) (joy_active s)
    (joy_axisbutton_threshold s) (joy_axis_deadzone s) (joystickVar s)
    (xcontrollerVar s) (trace s).

Definition set_m_InputState (i : bool -> InputState_t) (s : State) : State :=
  mkState (info s) (m_nJoystickCount s) (m_bXController s) (m_appXKeys s)
    (m_bIsPolling s) i (m_nLastSampleTick s) (joy_active s)
    (joy_axisbutton_threshold s) (joy_axis_deadzone s) (joystickVar s)
    (xcontrollerVar s) (trace s).

Definition set_joy_active (v : Z) (s : State) : State :=
  mkState (info s) (m_nJoystickCount s) (m_bXController s) (m_appXKeys s)
    (m_bIsPolling s) (m_InputState s) (m_nLastSampleTick s) v
    (joy_axisbutton_threshold s) (joy_axis_deadzone s) (joystickVar s)
    (xcontrollerVar s) (trace s).

Definition set_joystickVar (v : option bool) (s : State) : State :=
  mkState (info s) (m_nJoystickCount s) (m_bXController s) (m_appXKeys s)
    (m_bIsPolling s) (m_InputState s) (m_nLastSampleTick s) (joy_active s)
    (joy_axisbutton_threshold s) (joy_axis_deadzone s) v
    (xcontrollerVar s) (trace s).

Definition set_xcontrollerVar (v : option bool) (s : State) : State :=
  mkState (info s) (m_nJoystickCount s) (m_bXController s) (m_appXKeys s)
    (m_bIsPolling s) (m_InputState s) (m_nLastSampleTick s) (joy_active s)
    (joy_axisbutton_threshold s) (joy_axis_deadzone s) (joystickVar s)
    v (trace s).

Definition set_trace (t : list Effect) (s : State) : State :=
  mkState (info s) (m_nJoystickCount s) (m_bXController s) (m_appXKeys s)
    (m_bIsPolling s) (m_InputState s) (m_nLastSampleTick s) (joy_active s)
    (joy_axisbutton_threshold s) (joy_axis_deadzone s) (joystickVar s)
    (xcontrollerVar s) t.

(** Record one call; the newest entry is the head of the trace. *)
Definition emit (e : Effect) (s : State) : State := set_trace (e :: trace s) s.

(** The trace in the order the calls were made. *)
Definition history (s : State) : list Effect := rev (trace s).

(* ------------------------------------------------------------------------- *)
(** ** Hotplug: joystick_sdl.cpp, lines 33-60 and 252-388 *)

Section Hotplug.
Context {enums : InputEnums} {convar : ConVarImpl}.

(** [SetJoyXControllerFound] (lines 253-266).  A [ConVarRef] that is not
    valid is [None]. *)
Definition SetJoyXControllerFound (found : bool) (st : State) : State :=
  let st :=
    match xcontrollerVar st with
    | Some _ => set_xcontrollerVar (Some found) st
    | None => st
    end in
  match joystickVar st with
  | Some _ => if found then set_joystickVar (Some true) st else st
  | None => st
  end.

(** [CInputSystem::JoystickHotplugRemoved] (lines 357-388). *)
Definition JoystickHotplugRemoved (joystickId : Z) (st : State) : State :=
  let i := info st in
  if negb (m_nDeviceId i =? joystickId) then
    emit (DevMsg (IgnoringRemove joystickId (m_nDeviceId i))) st
  else
    match m_pDevice i with
    | None =>
        let st := set_info (mkInfo (m_pDevice i) (m_pHaptic i) (-1)
                              (m_nButtonCount i) (m_bRumbleEnabled i)
                              (m_fCurrentRumble i)) st in
        emit (DevMsg (RemoveForRemoved joystickId)) st
    | Some dev =>
        let st := set_m_nJoystickCount 0 st in
        let st := set_m_bXController false st in
        let st := emit (E_EnableJoystickInput 0 false) st in
        let st := SetJoyXControllerFound false st in
        let st := emit (E_CloseHaptic (m_pHaptic i)) st in
        let st := emit (E_CloseGamepad dev) st in
        let st := set_info (mkInfo None None (-1) 0 false
                              (m_fCurrentRumble i)) st in
        emit (Msg (JoystickRemoved joystickId)) st
    end.

(** [joy_active.SetValue(v)]: the value is stored and, when the
    console-variable class decides so, the change callback of line 26 runs
    ([joy_active_changed_f], that is, [SearchForDevice]).  [callback] is that
    callback. *)
Definition joy_active_SetValue (callback : State -> option State)
    (v : Z) (st : State) : option State :=
  let old := joy_active st in
  let st := set_joy_active v st in
  if change_callback_runs old v then callback st else Some st.

(** The loop of [SearchForDevice] (lines 52-59) over [SDL_GetJoysticks]. *)
Fixpoint SearchForDevice_loop (added : Z -> State -> option State)
    (L : DeviceLayer) (pJoysticks : list Z) (st : State) : option State :=
  match pJoysticks with
  | [] => Some st
  | id :: rest =>
      let st := emit (E_OpenJoystick id (SDL_OpenJoystick L id)) st in
      if SDL_OpenJoystick L id then
        match added id st with
        | Some st' => SearchForDevice_loop added L rest st'
        | None => None
        end
      else SearchForDevice_loop added L rest st
  end.

(** [SearchForDevice] (lines 33-60); [added] is
    [pInputSystem->JoystickHotplugAdded], and [g_pInputSystem] is set. *)
Definition SearchForDevice_with (added : Z -> State -> option State)
    (L : DeviceLayer) (st : State) : option State :=
  let newJoystickId := joy_active st in
  if newJoystickId <? 0 then added 0 st
  else SearchForDevice_loop added L (SDL_GetJoysticks L) st.

(** Lines 332-339 of [JoystickHotplugAdded]: the haptic device of the
    gamepad, [None] when it cannot be opened or initialised for rumble. *)
Definition JoystickHotplugAdded_haptic (L : DeviceLayer) (joystickID : Z)
    (gamepad : SDL_Gamepad) (st : State) : option SDL_Haptic * State :=
  let opened := SDL_OpenHapticFromJoystick L gamepad in
  let st := emit (E_OpenHaptic gamepad opened) st in
  match opened with
  | None => (None, emit (Warning (NoRumble joystickID)) st)
  | Some h =>
      let r := SDL_InitHapticRumble L h in
      let st := emit (E_InitHapticRumble h r) st in
      if negb (r =? 0)
      then (None, emit (Warning (NoRumble joystickID)) st)
      else (Some h, st)
  end.

(** Lines 323-354 of [JoystickHotplugAdded]: open the gamepad and its
    haptic device and make the joystick the active one. *)
Definition JoystickHotplugAdded_open
    (SetValue : Z -> State -> option State)
    (L : DeviceLayer) (joystickID : Z) (st : State) : option State :=
  let st := emit (Msg (Initializing joystickID)) st in
  let st := emit (E_OpenGamepad joystickID (SDL_OpenGamepad L joystickID)) st in
  match SDL_OpenGamepad L joystickID with
  | None => Some (emit (Warning (FailedToOpen joystickID)) st)
  | Some gamepad =>
      let haptic := fst (JoystickHotplugAdded_haptic L joystickID gamepad st) in
      let st := snd (JoystickHotplugAdded_haptic L joystickID gamepad st) in
      let st := set_info (mkInfo (Some gamepad) haptic
                            (SDL_GetJoystickID gamepad)
                            SDL_GAMEPAD_BUTTON_MAX false
                            (m_fCurrentRumble (info st))) st in
      let st := SetJoyXControllerFound true st in
      let st := emit (E_EnableJoystickInput 0 true) st in
      let st := set_m_nJoystickCount 1 st in
      let st := set_m_bXController true st in
      SetValue (-1) st
  end.

(** Lines 268-321 of [JoystickHotplugAdded]: recognition, the selection
    policy and the removal of a different active joystick. *)
Definition JoystickHotplugAdded_body
    (SetValue : Z -> State -> option State)
    (L : DeviceLayer) (joystickID : Z) (st : State) : option State :=
  if negb (SDL_IsGamepad L joystickID) then
    Some (emit (Warning NotRecognized) st)
  else
    let st := emit (E_OpenJoystick joystickID (SDL_OpenJoystick L joystickID)) st in
    if negb (SDL_OpenJoystick L joystickID) then
      Some (emit (Warning (CouldNotOpenJoystick joystickID)) st)
    else
      let st := emit (E_CloseJoystick joystickID) st in
      let activeJoystick := joy_active st in
      let current := m_nDeviceId (info st) in
      let rejected_for :=
        if activeJoystick <? 0 then
          if negb (current =? -1) then Some current else None
        else if negb (activeJoystick =? joystickID)
             then Some activeJoystick else None in
      match rejected_for with
      | Some active =>
          Some (emit (Msg (DetectedSupported joystickID active)) st)
      | None =>
          if negb (current =? -1) then
            if current =? joystickID then Some st
            else
              let st := emit (DevMsg (AlreadyInitialized current)) st in
              let st := JoystickHotplugRemoved current st in
              JoystickHotplugAdded_open SetValue L joystickID st
          else JoystickHotplugAdded_open SetValue L joystickID st
      end.

(** [CInputSystem::JoystickHotplugAdded] (lines 268-355).  Resetting
    [joy_active] may re-enter [SearchForDevice], which calls back into this
    function; [fuel] bounds the depth of that recursion, and [None] is a
    call that ran out of it.  Three units are enough in every state and for
    every console-variable class ([JoystickHotplugAdded_unfold] and
    [SetValue_resets_preference] below). *)
Fixpoint JoystickHotplugAdded (fuel : nat) (L : DeviceLayer)
    (joystickID : Z) (st : State) : option State :=
  match fuel with
  | O => None
  | S fuel' =>
      JoystickHotplugAdded_body
        (joy_active_SetValue
           (SearchForDevice_with (JoystickHotplugAdded fuel' L) L))
        L joystickID st
  end.

Definition SearchForDevice (fuel : nat) (L : DeviceLayer) (st : State)
  : option State :=
  SearchForDevice_with (JoystickHotplugAdded fuel L) L st.

(** A call into the hotplug coordinator together with the device layer as
    it is when the call is made. *)
Inductive HotplugCall : Type :=
| CallAdded (L : DeviceLayer) (joystickID : Z)
| CallRemoved (joystickId : Z)
| CallSearch (L : DeviceLayer).

Definition hotplug_call (fuel : nat) (c : HotplugCall) (st : State)
  : option State :=
  match c with
  | CallAdded L id => JoystickHotplugAdded fuel L id st
  | CallRemoved id => Some (JoystickHotplugRemoved id st)
  | CallSearch L => SearchForDevice fuel L st
  end.

Fixpoint hotplug_calls (fuel : nat) (cs : list HotplugCall) (st : State)
  : option State :=
  match cs with
  | [] => Some st
  | c :: rest =>
      match hotplug_call fuel c st with
      | Some st' => hotplug_calls fuel rest st'
      | None => None
      end
  end.

Definition call_layer_valid (c : HotplugCall) : bool :=
  match c with
  | CallAdded L _ => layer_ids_valid L
  | CallRemoved _ => true
  | CallSearch L => layer_ids_valid L
  end.

End Hotplug.

(* ------------------------------------------------------------------------- *)
(** ** Event translation and rumble: joystick_sdl.cpp, lines 390-477, 525-631 *)

Section Translator.
Context {enums : InputEnums} {convar : ConVarImpl}.

(** [ControllerButtonToButtonCode] (lines 571-609). *)
Definition ControllerButtonToButtonCode (button : Z) : Z :=
  if (button =? SDL_GAMEPAD_BUTTON_SOUTH) || (button =? SDL_GAMEPAD_BUTTON_EAST)
     || (button =? SDL_GAMEPAD_BUTTON_WEST) || (button =? SDL_GAMEPAD_BUTTON_NORTH)
  then JOYSTICK_BUTTON 0 button
  else if button =? SDL_GAMEPAD_BUTTON_BACK then KEY_XBUTTON_BACK
  else if button =? SDL_GAMEPAD_BUTTON_START then KEY_XBUTTON_START
  else if button =? SDL_GAMEPAD_BUTTON_GUIDE then KEY_XBUTTON_BACK
  else if button =? SDL_GAMEPAD_BUTTON_LEFT_STICK then KEY_XBUTTON_STICK1
  else if button =? SDL_GAMEPAD_BUTTON_RIGHT_STICK then KEY_XBUTTON_STICK2
  else if button =? SDL_GAMEPAD_BUTTON_LEFT_SHOULDER then KEY_XBUTTON_LEFT_SHOULDER
  else if button =? SDL_GAMEPAD_BUTTON_RIGHT_SHOULDER then KEY_XBUTTON_RIGHT_SHOULDER
  else if button =? SDL_GAMEPAD_BUTTON_DPAD_UP then KEY_XBUTTON_UP
  else if button =? SDL_GAMEPAD_BUTTON_DPAD_DOWN then KEY_XBUTTON_DOWN
  else if button =? SDL_GAMEPAD_BUTTON_DPAD_LEFT then KEY_XBUTTON_LEFT
  else if button =? SDL_GAMEPAD_BUTTON_DPAD_RIGHT then KEY_XBUTTON_RIGHT
  else BUTTON_CODE_NONE.

(** [ControllerAxisToAnalogCode] (lines 611-631). *)
Definition ControllerAxisToAnalogCode (axis : Z) : Z :=
  if axis =? SDL_GAMEPAD_AXIS_LEFTX then JOYSTICK_AXIS 0 JOY_AXIS_X
  else if axis =? SDL_GAMEPAD_AXIS_LEFTY then JOYSTICK_AXIS 0 JOY_AXIS_Y
  else if axis =? SDL_GAMEPAD_AXIS_RIGHTX then JOYSTICK_AXIS 0 JOY_AXIS_U
  else if axis =? SDL_GAMEPAD_AXIS_RIGHTY then JOYSTICK_AXIS 0 JOY_AXIS_R
  else if (axis =? SDL_GAMEPAD_AXIS_RIGHT_TRIGGER)
          || (axis =? SDL_GAMEPAD_AXIS_LEFT_TRIGGER)
  then JOYSTICK_AXIS 0 JOY_AXIS_Z
  else ANALOG_CODE_INVALID.

(** [CInputSystem::JoystickButtonPress] (lines 390-401). *)
Definition JoystickButtonPress (joystickId button : Z) (st : State) : State :=
  if negb (m_nDeviceId (info st) =? joystickId) then
    emit (Warning (NotActiveDevice (m_nDeviceId (info st)) joystickId)) st
  else
    let buttonCode := ControllerButtonToButtonCode button in
    emit (PostButtonPressedEvent (m_nLastSampleTick st) buttonCode buttonCode) st.

(** [CInputSystem::JoystickButtonRelease] (lines 403-413). *)
Definition JoystickButtonRelease (joystickId button : Z) (st : State) : State :=
  if negb (m_nDeviceId (info st) =? joystickId) then st
  else
    let buttonCode := ControllerButtonToButtonCode button in
    emit (PostButtonReleasedEvent (m_nLastSampleTick st) buttonCode buttonCode) st.

(** The [switch] of lines 431-440. *)
Definition trigger_button (axis : Z) : Z :=
  if axis =? SDL_GAMEPAD_AXIS_RIGHT_TRIGGER then KEY_XBUTTON_RTRIGGER
  else if axis =? SDL_GAMEPAD_AXIS_LEFT_TRIGGER then KEY_XBUTTON_LTRIGGER
  else BUTTON_CODE_NONE.

(** Lines 442-462: the button synthesised from a trigger axis. *)
Definition JoystickAxisMotion_trigger (buttonCode value : Z) (st : State)
  : State :=
  if negb (buttonCode =? BUTTON_CODE_NONE) then
    let pressThreshold :=
      F32.to_int (F32.mul (joy_axisbutton_threshold st) (F32.of_int 32767)) in
    let keyIndex := buttonCode - KEY_XBUTTON_LTRIGGER in
    let repeats := m_appXKeys st keyIndex in
    if value >? pressThreshold then
      let st :=
        if repeats <? 1 then
          emit (PostButtonPressedEvent (m_nLastSampleTick st)
                  buttonCode buttonCode) st
        else st in
      set_m_appXKeys (upd (m_appXKeys st) keyIndex (repeats + 1)) st
    else
      let st := emit (PostButtonReleasedEvent (m_nLastSampleTick st)
                        buttonCode buttonCode) st in
      set_m_appXKeys (upd (m_appXKeys st) keyIndex 0) st
  else st.

(** The dead zone of lines 464-468. *)
Definition deadzone (st : State) (value : Z) : Z :=
  let minValue :=
    F32.to_int (F32.mul (joy_axis_deadzone st) (F32.of_int 32767)) in
  if Z.abs value <? minValue then 0 else value.

(** Lines 470-476: the analog channel. *)
Definition JoystickAxisMotion_analog (code value : Z) (st : State) : State :=
  let polling := m_bIsPolling st in
  let state := m_InputState st polling in
  let delta := value - m_pAnalogValue state code in
  let state := mkInputState (upd (m_pAnalogDelta state) code delta)
                            (upd (m_pAnalogValue state) code value) in
  let st := set_m_InputState (updb (m_InputState st) polling state) st in
  if negb (delta =? 0) then
    emit (PostEvent_AnalogValueChanged (m_nLastSampleTick st) code value) st
  else st.

(** [CInputSystem::JoystickAxisMotion] (lines 416-477).  [value] is the
    16-bit sample of the SDL event, so the [int] arithmetic is exact. *)
Definition JoystickAxisMotion (joystickId axis value : Z) (st : State)
  : State :=
  if negb (m_nDeviceId (info st) =? joystickId) then st
  else
    let code := ControllerAxisToAnalogCode axis in
    if code =? ANALOG_CODE_INVALID then
      emit (Warning (InvalidAxisCode axis)) st
    else
      let st := JoystickAxisMotion_trigger (trigger_button axis) value st in
      let value := deadzone st value in
      JoystickAxisMotion_analog code value st.

(** [CInputSystem::SetXDeviceRumble] (lines 525-569).  The device layer
    supplies the value of [SDL_PlayHapticRumble]; [abs] is the [float]
    overload; [userId] is not used by the body. *)
Definition SetXDeviceRumble (L : DeviceLayer)
    (fLeftMotor fRightMotor : F32.float) (userId : Z) (st : State) : State :=
  let i := info st in
  if m_nDeviceId i <? 0 then st
  else
    match m_pHaptic i with
    | None => st
    | Some haptic =>
        let strength := F32.div (F32.add fLeftMotor fRightMotor) (F32.of_int 2) in
        let shouldStop := F32.ltb strength (F32.lit 1 100) in
        let shouldStop :=
          match joystickVar st with
          | Some true => shouldStop
          | _ => true
          end in
        if shouldStop then
          if m_bRumbleEnabled i then
            let st := emit (E_StopHapticRumble haptic) st in
            set_info (mkInfo (m_pDevice i) (m_pHaptic i) (m_nDeviceId i)
                        (m_nButtonCount i) false (F32.of_int 0)) st
          else st
        else if m_bRumbleEnabled i
                && F32.ltb (F32.abs (F32.sub (m_fCurrentRumble i) strength))
                           (F32.lit 1 100) then st
        else
          let st := set_info (mkInfo (m_pDevice i) (m_pHaptic i) (m_nDeviceId i)
                                (m_nButtonCount i) true strength) st in
          let r := SDL_PlayHapticRumble L haptic in
          let st := emit (E_PlayHapticRumble haptic strength r) st in
          if negb (r =? 0) then emit (Warning (CouldntPlayRumble strength)) st
          else st
  end.

(** Events the watcher reacts to (the [switch] of lines 107-117). *)
Inductive SDL_Event : Type :=
| SDL_EVENT_GAMEPAD_AXIS_MOTION (which axis value : Z)
| SDL_EVENT_GAMEPAD_BUTTON_DOWN (which button : Z)
| SDL_EVENT_GAMEPAD_BUTTON_UP (which button : Z)
| SDL_EVENT_GAMEPAD_ADDED (which : Z)
| SDL_EVENT_GAMEPAD_REMOVED (which : Z)
| SDL_EVENT_OTHER.

(** [JoystickSDLWatcher] (lines 95-152), with a non-NULL input system and
    event. *)
Definition JoystickSDLWatcher (fuel : nat) (L : DeviceLayer)
    (event : SDL_Event) (st : State) : option State :=
  match event with
  | SDL_EVENT_GAMEPAD_AXIS_MOTION which axis value =>
      Some (JoystickAxisMotion which axis value st)
  | SDL_EVENT_GAMEPAD_BUTTON_DOWN which button =>
      Some (JoystickButtonPress which button st)
  | SDL_EVENT_GAMEPAD_BUTTON_UP which button =>
      Some (JoystickButtonRelease which button st)
  | SDL_EVENT_GAMEPAD_ADDED which => JoystickHotplugAdded fuel L which st
  | SDL_EVENT_GAMEPAD_REMOVED which =>
      SearchForDevice fuel L (JoystickHotplugRemoved which st)
  | SDL_EVENT_OTHER => Some st
  end.

End Translator.

(* ------------------------------------------------------------------------- *)
(** ** The capture ring buffer: voice_record_sdl.cpp, lines 27-75 *)

Module AudioBuf.

(** [readPtr] and [writePtr] are kept as offsets from [data]. *)
Record t : Type := mk {
  size : Z;
  data : list byte;
  readPtr : Z;
  writePtr : Z
}.

(** Well-formed buffers: an allocation of [size] bytes, not empty, with both
    pointers inside it. *)
Definition wf (b : t) : Prop :=
  0 < size b /\ Z.of_nat (length (data b)) = size b /\
  0 <= readPtr b < size b /\ 0 <= writePtr b < size b.

(** The [n] bytes of the allocation from offset [off] on. *)
Definition bytes_at (b : t) (off n : Z) : list byte :=
  firstn (Z.to_nat n) (skipn (Z.to_nat off) (data b)).

(** [memcpy(data + off, src, length src)] inside the allocation. *)
Definition store (d : list byte) (off : Z) (src : list byte) : list byte :=
  firstn (Z.to_nat off) d ++ src ++ skipn (Z.to_nat off + length src) d.

(** [memcpy(out, data + off, n)]: the bytes copied.  A negative length or a
    source that is not inside the allocation is undefined in C and is [None]
    here. *)
Definition memcpy_from (b : t) (off n : Z) : option (list byte) :=
  if (0 <=? off) && (0 <=? n) && (off + n <=? Z.of_nat (length (data b)))
  then Some (bytes_at b off n) else None.

(** [nAvalible] of [Read] (line 31); [%] is the C remainder, and a division
    by zero, which has no value, when [size] is 0. *)
Definition nAvalible (b : t) : option Z :=
  if size b =? 0 then None
  else Some (Z.rem (size b + (writePtr b - readPtr b)) (size b)).

(** The number of unread bytes line 31 computes, for a size that is not 0. *)
Definition available (b : t) : Z :=
  match nAvalible b with
  | Some n => n
  | None => 0
  end.

(** [AudioBuf::Read] (lines 29-53): the value returned, the bytes copied
    to [out], and the buffer afterwards; [None] where the call does not
    return a value: the division by zero of line 31 and the undefined
    copies. *)
Definition Read (b : t) (len : Z) : option (Z * list byte * t) :=
  match nAvalible b with
  | None => None
  | Some nAvalible =>
      if nAvalible =? 0 then Some (0, [], b)
      else
        let len := if len >? nAvalible then nAvalible else len in
        let diff := size b - readPtr b in
        let out :=
          if len >? diff
          then
            match memcpy_from b (readPtr b) diff,
                  memcpy_from b 0 (len - diff) with
            | Some first, Some second => Some (first ++ second)
            | _, _ => None
            end
          else memcpy_from b (readPtr b) len in
        match out with
        | None => None
        | Some out =>
            let readPtr' := readPtr b + len in
            let readPtr' := if readPtr' >=? size b then readPtr' - size b
                            else readPtr' in
            Some (len, out, mk (size b) (data b) readPtr' (writePtr b))
        end
  end.

(** [AudioBuf::Write] (lines 55-69) of the bytes [input] ([len] is their
    number).  A [memcpy] past the end of the allocation is undefined in C
    and is [None] here. *)
Definition Write (b : t) (input : list byte) : option t :=
  let len := Z.of_nat (length input) in
  let diff := size b - writePtr b in
  let data' :=
    if len >? diff then
      if len - diff <=? size b then
        Some (store (store (data b) (writePtr b)
                       (firstn (Z.to_nat diff) input))
                0 (skipn (Z.to_nat diff) input))
      else None
    else Some (store (data b) (writePtr b) input) in
  match data' with
  | None => None
  | Some d =>
      let writePtr' := writePtr b + len in
      let writePtr' := if writePtr' >=? size b then writePtr' - size b
                       else writePtr' in
      Some (mk (size b) d (readPtr b) writePtr')
  end.

End AudioBuf.

(* ------------------------------------------------------------------------- *)
(** ** Reading the trace *)

(** Gamepad handles open after the calls of a trace (newest first): every
    successful [SDL_OpenGamepad] adds one, every [SDL_CloseGamepad] takes one
    away. *)
Fixpoint live (t : list Effect) : Z :=
  match t with
  | [] => 0
  | E_OpenGamepad _ (Some _) :: t' => live t' + 1
  | E_CloseGamepad _ :: t' => live t' - 1
  | _ :: t' => live t'
  end.

Definition is_open_call (e : Effect) : Prop :=
  match e with
  | E_OpenGamepad _ _ => True
  | _ => False
  end.

(** At every point of the trace at most one handle is open, and every call
    of [SDL_OpenGamepad] is made while none is. *)
Fixpoint single_session (t : list Effect) : Prop :=
  match t with
  | [] => True
  | e :: t' =>
      0 <= live (e :: t') <= 1 /\ (is_open_call e -> live t' = 0) /\
      single_session t'
  end.

(** Entries that neither open nor close a gamepad or haptic handle and post
    nothing to the host: diagnostics and the joystick probe. *)
Definition is_probe_or_diagnostic (e : Effect) : Prop :=
  match e with
  | Warning _ | Msg _ | DevMsg _ | E_OpenJoystick _ _ | E_CloseJoystick _ => True
  | _ => False
  end.

(** Entries made while the haptic device of a new gamepad is set up. *)
Definition is_haptic_setup (e : Effect) : Prop :=
  match e with
  | E_OpenHaptic _ _ | E_InitHapticRumble _ _ | Warning _ => True
  | _ => False
  end.

(** Entries that leave the number of open gamepad handles alone. *)
Definition is_neutral (e : Effect) : Prop :=
  match e with
  | E_OpenGamepad _ _ | E_CloseGamepad _ => False
  | _ => True
  end.

(** Entries other than calls of [SDL_OpenGamepad]. *)
Definition not_open_call (e : Effect) : Prop :=
  match e with
  | E_OpenGamepad _ _ => False
  | _ => True
  end.

(** Entries other than calls of [SDL_OpenGamepad] for joysticks other than
    [D]. *)
Definition opens_only (D : Z) (e : Effect) : Prop :=
  match e with
  | E_OpenGamepad x _ => x = D
  | _ => True
  end.

(** A function standing for [joy_active.SetValue] only ever adds to the
    trace. *)
Definition extends_trace (SV : Z -> State -> option State) : Prop :=
  forall s s', SV (-1) s = Some s' -> exists new, trace s' = new ++ trace s.

(** What the end of a successful [JoystickHotplugAdded] needs of
    [joy_active.SetValue(-1)]: it returns with [joy_active] at -1 and only
    adds to the trace; when a joystick is active, what it adds are probes and
    diagnostics and nothing else changes. *)
Definition resets_preference (SV : Z -> State -> option State) : Prop :=
  forall s, exists s' new,
    SV (-1) s = Some s' /\ trace s' = new ++ trace s /\ joy_active s' = -1 /\
    (m_nDeviceId (info s) <> -1 ->
     s' = set_trace (new ++ trace s) (set_joy_active (-1) s) /\
     Forall is_probe_or_diagnostic new).

(** What the selection policy guarantees once [D] was preferred: the
    preference is still [D], or it was consumed and a joystick is active. *)
Definition preferring (D : Z) (st : State) : Prop :=
  joy_active st = D \/ (joy_active st = -1 /\ m_nDeviceId (info st) <> -1).

Definition attach_calls (attached : list (DeviceLayer * Z)) : list HotplugCall :=
  map (fun a => CallAdded (fst a) (snd a)) attached.

Definition session_closed (st : State) : Prop :=
  m_pDevice (info st) = None /\ m_nDeviceId (info st) = -1.

(** The fields of [m_pJoystickInfo[0]] that [JoystickHotplugRemoved] assigns
    (lines 381-385) hold their empty values. *)
Definition info_reset (i : JoystickInfo_t) : Prop :=
  m_pHaptic i = None /\ m_pDevice i = None /\ m_nButtonCount i = 0 /\
  m_nDeviceId i = -1 /\ m_bRumbleEnabled i = false.

(** The session invariant: the device id is -1 exactly when no handle is
    held, the trace accounts for the handle held, and the trace never had two
    handles open. *)
Definition session_inv (st : State) : Prop :=
  (m_pDevice (info st) = None <-> m_nDeviceId (info st) = -1) /\
  live (trace st) = match m_pDevice (info st) with Some _ => 1 | None => 0 end /\
  single_session (trace st).

(** Host button events of a trace, oldest first. *)
Inductive ButtonEvent : Type :=
| Pressed (code : Z)
| Released (code : Z).

Fixpoint button_events_rev (t : list Effect) : list ButtonEvent :=
  match t with
  | [] => []
  | PostButtonPressedEvent _ c _ :: t' => Pressed c :: button_events_rev t'
  | PostButtonReleasedEvent _ c _ :: t' => Released c :: button_events_rev t'
  | _ :: t' => button_events_rev t'
  end.

Definition button_events (st : State) : list ButtonEvent :=
  rev (button_events_rev (trace st)).

Definition is_pressed (code : Z) (e : ButtonEvent) : bool :=
  match e with Pressed c => c =? code | Released _ => false end.

Definition is_released (code : Z) (e : ButtonEvent) : bool :=
  match e with Released c => c =? code | Pressed _ => false end.

(** Analog events of a trace (channel and value), newest first. *)
Fixpoint analog_events_rev (t : list Effect) : list (Z * Z) :=
  match t with
  | [] => []
  | PostEvent_AnalogValueChanged _ c v :: t' => (c, v) :: analog_events_rev t'
  | _ :: t' => analog_events_rev t'
  end.

(** Number of [SDL_PlayHapticRumble] calls in a trace. *)
Fixpoint play_commands (t : list Effect) : nat :=
  match t with
  | [] => O
  | E_PlayHapticRumble _ _ _ :: t' => S (play_commands t')
  | _ :: t' => play_commands t'
  end.

(** Feed a list of samples of one axis to [JoystickAxisMotion]. *)
Definition axis_samples {enums : InputEnums} (joystickId axis : Z)
    (values : list Z) (st : State) : State :=
  fold_left (fun s v => JoystickAxisMotion joystickId axis v s) values st.

Definition count_pressed (code : Z) (evs : list ButtonEvent) : nat :=
  length (filter (is_pressed code) evs).

Definition count_released (code : Z) (evs : list ButtonEvent) : nat :=
  length (filter (is_released code) evs).

(** "Exactly one pressed and exactly one released event for the button". *)
Definition one_press_one_release (code : Z) (evs : list ButtonEvent) : Prop :=
  count_pressed code evs = 1%nat /\ count_released code evs = 1%nat.

Definition is_trigger_axis (axis : Z) : Prop :=
  axis = SDL_GAMEPAD_AXIS_LEFT_TRIGGER \/ axis = SDL_GAMEPAD_AXIS_RIGHT_TRIGGER.

(** The [InputState_t] the event handlers write to. *)
Definition current_input (st : State) : InputState_t :=
  m_InputState st (m_bIsPolling st).

(** The averaged strength [SetXDeviceRumble] computes. *)
Definition rumble_strength (fLeftMotor fRightMotor : F32.float) : F32.float :=
  F32.div (F32.add fLeftMotor fRightMotor) (F32.of_int 2).

(* ------------------------------------------------------------------------- *)
(** ** A concrete configuration

    The enumeration values of the public SDK headers, a freshly initialised
    input system, and sample devices; used to exercise the theorems. *)

Definition sdk_enums : InputEnums := {|
  BUTTON_CODE_NONE := 0;
  JOYSTICK_BUTTON := fun joystick button => 114 + joystick * 32 + button;
  KEY_XBUTTON_BACK := 120;
  KEY_XBUTTON_START := 121;
  KEY_XBUTTON_STICK1 := 122;
  KEY_XBUTTON_STICK2 := 123;
  KEY_XBUTTON_LEFT_SHOULDER := 118;
  KEY_XBUTTON_RIGHT_SHOULDER := 119;
  KEY_XBUTTON_UP := 146;
  KEY_XBUTTON_DOWN := 148;
  KEY_XBUTTON_LEFT := 149;
  KEY_XBUTTON_RIGHT := 147;
  KEY_XBUTTON_LTRIGGER := 154;
  KEY_XBUTTON_RTRIGGER := 155;
  ANALOG_CODE_INVALID := -1;
  JOYSTICK_AXIS := fun joystick axis => 4 + joystick * 6 + axis;
  JOY_AXIS_X := 0;
  JOY_AXIS_Y := 1;
  JOY_AXIS_Z := 2;
  JOY_AXIS_R := 3;
  JOY_AXIS_U := 4;
  SDL_GAMEPAD_BUTTON_MAX := 26
|}.

(** The console-variable class of the public SDK runs the callback when the
    value changes. *)
Definition sdk_convar : ConVarImpl := {|
  change_callback_runs := fun old new => negb (old =? new)
|}.

Definition closed_info : JoystickInfo_t :=
  mkInfo None None (-1) 0 false (F32.of_int 0).

(** [joy_axisbutton_threshold] 0.3 and [joy_axis_deadzone] 0.2 are the
    defaults of lines 22-23; [pref] is the value of [joy_active]. *)
Definition fresh_state (pref : Z) : State :=
  mkState closed_info 0 false (fun _ => 0) false
    (fun _ => mkInputState (fun _ => 0) (fun _ => 0)) 0 pref
    (F32.lit 3 10) (F32.lit 2 10) (Some false) (Some false) [].

(** A recognised gamepad with working rumble. *)
Definition pad (id : Z) : Device := mkDevice id true true true true 0 0.

(** Joystick [id] is the active device, opened with rumble. *)
Definition active_state (id : Z) : State :=
  set_joystickVar (Some true)
    (set_info (mkInfo (Some (mkGamepad id)) (Some (mkHaptic id)) id 26 false
                 (F32.of_int 0))
       (fresh_state (-1))).

(** Joystick [id] is active and rumbling at strength [c]. *)
Definition rumbling_state (id : Z) (c : F32.float) : State :=
  set_info (mkInfo (Some (mkGamepad id)) (Some (mkHaptic id)) id 26 true c)
    (active_state id).

(** "Exactly one play command, the second call being a no-op on the rumble
    flag and strength", for two consecutive calls of [SetXDeviceRumble]. *)
Definition one_play_second_noop (L : DeviceLayer)
    (l1 r1 l2 r2 : F32.float) (userId : Z) (st : State) : Prop :=
  let st1 := SetXDeviceRumble L l1 r1 userId st in
  let st2 := SetXDeviceRumble L l2 r2 userId st1 in
  play_commands (trace st2) = S (play_commands (trace st)) /\
  m_bRumbleEnabled (info st2) = m_bRumbleEnabled (info st1) /\
  m_fCurrentRumble (info st2) = m_fCurrentRumble (info st1).

(** Two pads attached; pad 1 is connected, pad 2 too, pad 1 is unplugged, the
    search runs, and pad 2 is announced again. *)
Definition sample_calls : list HotplugCall :=
  [ CallAdded [pad 1; pad 2] 1; CallAdded [pad 1; pad 2] 2; CallRemoved 1;
    CallSearch [pad 2]; CallAdded [pad 2] 2 ].

(** Joystick 1 is active and the user asked for joystick 2. *)
Definition switching_state : State := set_joy_active 2 (active_state 1).

(** The state after joystick 2 is announced in [switching_state]. *)
Definition switched_state : State :=
  match JoystickHotplugAdded (enums := sdk_enums) (convar := sdk_convar) 3
          [pad 1; pad 2] 2 switching_state with
  | Some st => st
  | None => switching_state
  end.

(** The state after joystick 2 is announced with [joy_active] at 2 and no
    joystick active. *)
Definition preferred_opened_state : State :=
  match JoystickHotplugAdded (enums := sdk_enums) (convar := sdk_convar) 3
          [pad 2] 2 (fresh_state 2) with
  | Some st => st
  | None => fresh_state 2
  end.

(** A four-byte ring buffer with both pointers at offset 2. *)
Definition sample_buffer : AudioBuf.t :=
  AudioBuf.mk 4 [x00; x00; x00; x00] 2 2.

(** A four-byte ring buffer holding two bytes across the wrap. *)
Definition wrapped_buffer : AudioBuf.t :=
  AudioBuf.mk 4 [x0a; x0b; x0c; x0d] 3 1.

(** A buffer of size 0: what [InitalizeInterfaces] sets up when the format
    it reads has no channels, no rate or fewer than 8 bits, and [malloc(0)]
    gives a pointer. *)
Definition zero_buffer : AudioBuf.t := AudioBuf.mk 0 [] 0 0.

(** "Whenever writePtr equals readPtr it returns 0", for one buffer and one
    requested length. *)
Definition returns_zero_when_empty (b : AudioBuf.t) (len : Z) : Prop :=
  AudioBuf.writePtr b = AudioBuf.readPtr b ->
  exists out b', AudioBuf.Read b len = Some (0, out, b').

(** "Read returns at most min(len, (size + writePtr - readPtr) mod size)
    bytes", for one buffer and one requested length. *)
Definition returns_at_most_min (b : AudioBuf.t) (len : Z) : Prop :=
  exists n out b', AudioBuf.Read b len = Some (n, out, b') /\
    n <= Z.min len ((AudioBuf.size b + AudioBuf.writePtr b - AudioBuf.readPtr b)
                      mod AudioBuf.size b).

(** The trigger samples of the trigger-synthesis example. *)
Definition trigger_samples : list Z := [0; 5000; 20000; 20000; 5000; 0].

(* ------------------------------------------------------------------------- *)
(** ** Entry points of the joystick code

    The calls through which the rest of the engine and SDL reach this file
    once the joysticks are initialised: the event watcher, the change
    callback of [joy_active], and [SetXDeviceRumble]. *)

Inductive InputCall : Type :=
| CallWatcher (L : DeviceLayer) (event : SDL_Event)
| CallSetJoyActive (L : DeviceLayer) (v : Z)
| CallSetXDeviceRumble (L : DeviceLayer) (fLeftMotor fRightMotor : F32.float)
    (userId : Z).

Section EntryPoints.
Context {enums : InputEnums} {convar : ConVarImpl}.

(** [joy_active_changed_f] (lines 65-68). *)
Definition joy_active_changed_f (fuel : nat) (L : DeviceLayer) (st : State)
  : option State :=
  SearchForDevice fuel L st.

(** The console sets [joy_active] to [v]: [ConVar::SetValue] with the
    callback of line 26. *)
Definition joy_active_set (fuel : nat) (L : DeviceLayer) (v : Z) (st : State)
  : option State :=
  joy_active_SetValue (joy_active_changed_f fuel L) v st.

Definition input_call (fuel : nat) (c : InputCall) (st : State)
  : option State :=
  match c with
  | CallWatcher L event => JoystickSDLWatcher fuel L event st
  | CallSetJoyActive L v => joy_active_set fuel L v st
  | CallSetXDeviceRumble L l r userId => Some (SetXDeviceRumble L l r userId st)
  end.

Fixpoint input_calls (fuel : nat) (cs : list InputCall) (st : State)
  : option State :=
  match cs with
  | [] => Some st
  | c :: rest =>
      match input_call fuel c st with
      | Some st' => input_calls fuel rest st'
      | None => None
      end
  end.

End EntryPoints.

Definition input_call_layer_valid (c : InputCall) : bool :=
  match c with
  | CallWatcher L _ => layer_ids_valid L
  | CallSetJoyActive L _ => layer_ids_valid L
  | CallSetXDeviceRumble L _ _ _ => layer_ids_valid L
  end.

(** A joystick that [JoystickHotplugAdded] can make the active one: a
    recognised gamepad whose joystick and gamepad handles open. *)
Definition opens_as_gamepad (L : DeviceLayer) (id : Z) : bool :=
  SDL_IsGamepad L id && SDL_OpenJoystick L id &&
  match SDL_OpenGamepad L id with Some _ => true | None => false end.

(** The first joystick of the enumeration that can be made active, -1 when
    there is none. *)
Definition first_available (L : DeviceLayer) : Z :=
  match find (opens_as_gamepad L) (SDL_GetJoysticks L) with
  | Some id => id
  | None => -1
  end.

(* ------------------------------------------------------------------------- *)
(** ** Start-up and shutdown: joystick_sdl.cpp, lines 70-90 and 154-250 *)

(** Calls into SDL's subsystem layer and the diagnostics of start-up.  They
    are logged apart from the trace of the [State], newest entry first. *)
Inductive SubsystemCall : Type :=
| DevMsg_PassingConfig (controllerConfig : String.string)
| SDL_SetHint_GAMECONTROLLERCONFIG (controllerConfig : String.string)
| SDL_InitSubSystem (r : Z)
| Warning_InitFailed
| SDL_AddEventWatch
| SDL_DelEventWatch
| SDL_QuitSubSystem
| Msg_NoControllerConfiguration (id : Z).

(** The members and console variables start-up and shutdown use besides
    those of [State]. *)
Record InputSystem : Type := mkInputSystem {
  core : State;
  m_bJoystickInitialized : bool;
  joy_gamecontroller_config : String.string;
  subsystem_log : list SubsystemCall
}.

Definition set_core (st : State) (sys : InputSystem) : InputSystem :=
  mkInputSystem st (m_bJoystickInitialized sys) (joy_gamecontroller_config sys)
    (subsystem_log sys).

Definition set_m_bJoystickInitialized (b : bool) (sys : InputSystem)
  : InputSystem :=
  mkInputSystem (core sys) b (joy_gamecontroller_config sys) (subsystem_log sys).

Definition log (c : SubsystemCall) (sys : InputSystem) : InputSystem :=
  mkInputSystem (core sys) (m_bJoystickInitialized sys)
    (joy_gamecontroller_config sys) (c :: subsystem_log sys).

(** What the platform answers during start-up: whether [-nojoy] is on the
    command line, the value of [SDL_InitSubSystem], and the attached
    devices. *)
Record Platform : Type := mkPlatform {
  nojoy : bool;
  init_result : Z;
  devices : DeviceLayer
}.

(** [m_pJoystickInfo[0]] after the [memset] and the loop of lines 166-170. *)
Definition cleared_info : JoystickInfo_t :=
  mkInfo None None (-1) 0 false (S754_zero false).

Section Startup.
Context {enums : InputEnums} {convar : ConVarImpl}.

(** [CInputSystem::ShutdownJoysticks] (lines 235-250). *)
Definition ShutdownJoysticks (sys : InputSystem) : InputSystem :=
  if negb (m_bJoystickInitialized sys) then sys
  else
    let sys := log SDL_DelEventWatch sys in
    let sys :=
      match m_pDevice (info (core sys)) with
      | Some _ =>
          set_core (JoystickHotplugRemoved (m_nDeviceId (info (core sys)))
                      (core sys)) sys
      | None => sys
      end in
    let sys := log SDL_QuitSubSystem sys in
    set_m_bJoystickInitialized false sys.

(** The loop of lines 196-208. *)
Fixpoint InitializeJoysticks_loop (fuel : nat) (L : DeviceLayer)
    (pJoy : list Z) (sys : InputSystem) : option InputSystem :=
  match pJoy with
  | [] => Some sys
  | id :: rest =>
      if SDL_IsGamepad L id then
        match JoystickHotplugAdded fuel L id (core sys) with
        | Some st => InitializeJoysticks_loop fuel L rest (set_core st sys)
        | None => None
        end
      else
        InitializeJoysticks_loop fuel L rest
          (log (Msg_NoControllerConfiguration id) sys)
  end.

(** [CInputSystem::InitializeJoysticks] (lines 157-233). *)
Definition InitializeJoysticks (fuel : nat) (P : Platform)
    (sys : InputSystem) : option InputSystem :=
  let sys := if m_bJoystickInitialized sys then ShutdownJoysticks sys
             else sys in
  let sys := set_core (set_info cleared_info
                         (set_m_nJoystickCount 0 (core sys))) sys in
  if nojoy P then Some sys
  else
    let controllerConfig := joy_gamecontroller_config sys in
    let sys :=
      if (0 <? String.length controllerConfig)%nat then
        log (SDL_SetHint_GAMECONTROLLERCONFIG controllerConfig)
          (log (DevMsg_PassingConfig controllerConfig) sys)
      else sys in
    let sys := log (SDL_InitSubSystem (init_result P)) sys in
    if negb (init_result P =? 0) then Some (log Warning_InitFailed sys)
    else
      let sys := set_m_bJoystickInitialized true sys in
      let sys := log SDL_AddEventWatch sys in
      InitializeJoysticks_loop fuel (devices P) (SDL_GetJoysticks (devices P))
        sys.

(** [joy_gamecontroller_config_changed_f] (lines 73-90), called once the
    new value is stored; [was_init] is [SDL_WasInit(SDL_INIT_GAMEPAD)], and
    [pOldValue] is [None] for a NULL pointer. *)
Definition joy_gamecontroller_config_changed_f (fuel : nat) (P : Platform)
    (was_init : bool) (pOldValue : option String.string) (sys : InputSystem)
  : option InputSystem :=
  if was_init then
    let oldValuePresent :=
      match pOldValue with
      | Some s => (0 <? String.length s)%nat
      | None => false
      end in
    let newValuePresent := (0 <? String.length (joy_gamecontroller_config sys))%nat in
    if negb oldValuePresent && negb newValuePresent then Some sys
    else InitializeJoysticks fuel P (ShutdownJoysticks sys)
  else Some sys.

End Startup.



Section SystemCalls.
Context {enums : InputEnums} {convar : ConVarImpl}.



End SystemCalls.


(* ------------------------------------------------------------------------- *)
(** ** Reading the trace: haptic and joystick handles *)

Definition haptic_eqb (h h' : SDL_Haptic) : bool :=
  haptic_joystick h =? haptic_joystick h'.

(** Whether the haptic handle [h] is open after the calls of a trace:
    [SDL_OpenHapticFromJoystick] returned it and [SDL_CloseHaptic] was not
    called on it since. *)
Fixpoint haptic_open (t : list Effect) (h : SDL_Haptic) : bool :=
  match t with
  | [] => false
  | E_OpenHaptic _ (Some h') :: t' =>
      if haptic_eqb h' h then true else haptic_open t' h
  | E_CloseHaptic (Some h') :: t' =>
      if haptic_eqb h' h then false else haptic_open t' h
  | _ :: t' => haptic_open t' h
  end.

(** Whether the last haptic call of a trace was [SDL_PlayHapticRumble]. *)
Fixpoint playing (t : list Effect) : bool :=
  match t with
  | [] => false
  | E_PlayHapticRumble _ _ _ :: _ => true
  | E_StopHapticRumble _ :: _ => false
  | E_OpenHaptic _ _ :: _ => false
  | E_InitHapticRumble _ _ :: _ => false
  | E_CloseHaptic _ :: _ => false
  | _ :: t' => playing t'
  end.

(** Every rumble command of the trace is sent to a handle that is open when
    it is sent, and every [SDL_StopHapticRumble] follows a play. *)
Fixpoint rumble_safe (t : list Effect) : Prop :=
  match t with
  | [] => True
  | E_PlayHapticRumble h _ _ :: t' => haptic_open t' h = true /\ rumble_safe t'
  | E_StopHapticRumble h :: t' =>
      haptic_open t' h = true /\ playing t' = true /\ rumble_safe t'
  | _ :: t' => rumble_safe t'
  end.

(** Joystick handles open after the calls of a trace: successful
    [SDL_OpenJoystick] calls less [SDL_CloseJoystick] calls. *)
Fixpoint joystick_handles (t : list Effect) : Z :=
  match t with
  | [] => 0
  | E_OpenJoystick _ true :: t' => joystick_handles t' + 1
  | E_CloseJoystick _ :: t' => joystick_handles t' - 1
  | _ :: t' => joystick_handles t'
  end.

(** What the rumble code and the hotplug code keep between them: the haptic
    handle held is open, and the rumble flag is set only after a play
    command. *)
Definition rumble_inv (st : State) : Prop :=
  (forall h, m_pHaptic (info st) = Some h -> haptic_open (trace st) h = true) /\
  (m_bRumbleEnabled (info st) = true -> playing (trace st) = true) /\
  rumble_safe (trace st).

(** Entries that are neither a gamepad open or close nor a haptic call. *)
Definition is_plain (e : Effect) : Prop :=
  match e with
  | E_OpenGamepad _ _ | E_CloseGamepad _ | E_OpenHaptic _ _
  | E_InitHapticRumble _ _ | E_CloseHaptic _ | E_StopHapticRumble _
  | E_PlayHapticRumble _ _ _ => False
  | _ => True
  end.

(** Entries that are not haptic calls. *)
Definition is_not_haptic (e : Effect) : Prop :=
  match e with
  | E_OpenHaptic _ _ | E_InitHapticRumble _ _ | E_CloseHaptic _
  | E_StopHapticRumble _ | E_PlayHapticRumble _ _ _ => False
  | _ => True
  end.

(** What the entry points keep. *)
Definition entry_inv_holds (st : State) : Prop :=
  session_inv st /\ rumble_inv st.


(** [pressThreshold] of line 444 and [minValue] of line 464. *)
Definition press_threshold (st : State) : Z :=
  F32.to_int (F32.mul (joy_axisbutton_threshold st) (F32.of_int 32767)).

Definition dead_zone_min (st : State) : Z :=
  F32.to_int (F32.mul (joy_axis_deadzone st) (F32.of_int 32767)).

(** Number of samples above the threshold that follow a sample at or below
    it ([held] tells whether the button was down before the first one). *)
Fixpoint rising_edges (thr : Z) (held : bool) (values : list Z) : nat :=
  match values with
  | [] => O
  | v :: rest =>
      ((if (v >? thr) && negb held then 1 else 0)
       + rising_edges thr (v >? thr) rest)%nat
  end.

(** In a list of button events, no press of [c] follows a press of [c]
    without a release of [c] in between ([held]: [c] is down at the
    start). *)
Fixpoint no_double_press (c : Z) (held : bool) (evs : list ButtonEvent)
  : bool :=
  match evs with
  | [] => true
  | Pressed c' :: rest =>
      if c' =? c then negb held && no_double_press c true rest
      else no_double_press c held rest
  | Released c' :: rest =>
      if c' =? c then no_double_press c false rest
      else no_double_press c held rest
  end.

(** The case labels of the switch in [ControllerAxisToAnalogCode]. *)
Definition axis_table_keys : list Z :=
  [ SDL_GAMEPAD_AXIS_LEFTX; SDL_GAMEPAD_AXIS_LEFTY; SDL_GAMEPAD_AXIS_RIGHTX;
    SDL_GAMEPAD_AXIS_RIGHTY; SDL_GAMEPAD_AXIS_RIGHT_TRIGGER;
    SDL_GAMEPAD_AXIS_LEFT_TRIGGER ].

(** [shouldStop] of lines 537-542. *)
Definition should_stop (st : State) (fLeftMotor fRightMotor : F32.float)
  : bool :=
  match joystickVar st with
  | Some true => F32.ltb (rumble_strength fLeftMotor fRightMotor) (F32.lit 1 100)
  | _ => true
  end.

(** Entries that are neither [SDL_OpenJoystick] nor [SDL_CloseJoystick]. *)
Definition is_not_joystick_call (e : Effect) : Prop :=
  match e with
  | E_OpenJoystick _ _ | E_CloseJoystick _ => False
  | _ => True
  end.

(** A function on states only adds to the trace, and what it adds leaves as
    many joystick handles open as it found. *)
Definition closes_its_joysticks (f : State -> option State) : Prop :=
  forall s s', f s = Some s' ->
  exists new, trace s' = new ++ trace s /\ joystick_handles new = 0.



(** The message of line 206. *)
Definition is_no_configuration_msg (c : SubsystemCall) : Prop :=
  match c with
  | Msg_NoControllerConfiguration _ => True
  | _ => False
  end.

(** The values the cases of [ControllerButtonToButtonCode] return (lines
    575-605), each listed once: [KEY_XBUTTON_BACK] is returned by two
    cases. *)
Definition button_codes {enums : InputEnums} : list Z :=
  [ JOYSTICK_BUTTON 0 SDL_GAMEPAD_BUTTON_SOUTH;
    JOYSTICK_BUTTON 0 SDL_GAMEPAD_BUTTON_EAST;
    JOYSTICK_BUTTON 0 SDL_GAMEPAD_BUTTON_WEST;
    JOYSTICK_BUTTON 0 SDL_GAMEPAD_BUTTON_NORTH;
    KEY_XBUTTON_BACK; KEY_XBUTTON_START; KEY_XBUTTON_STICK1;
    KEY_XBUTTON_STICK2; KEY_XBUTTON_LEFT_SHOULDER; KEY_XBUTTON_RIGHT_SHOULDER;
    KEY_XBUTTON_UP; KEY_XBUTTON_DOWN; KEY_XBUTTON_LEFT; KEY_XBUTTON_RIGHT ].

(** The calls of lines 176-181 for a controller configuration, newest
    first: none when it is empty. *)
Definition config_hint_calls (controllerConfig : String.string)
  : list SubsystemCall :=
  if (0 <? String.length controllerConfig)%nat
  then [ SDL_SetHint_GAMECONTROLLERCONFIG controllerConfig;
         DevMsg_PassingConfig controllerConfig ]
  else [].

Definition is_set_hint (c : SubsystemCall) : Prop :=
  match c with
  | SDL_SetHint_GAMECONTROLLERCONFIG _ => True
  | _ => False
  end.

(* ------------------------------------------------------------------------- *)
(** ** The ring buffer as a queue *)

(** The unread bytes of a buffer, oldest first: what a [Read] of everything
    available copies out. *)
Definition unread (b : AudioBuf.t) : list byte :=
  match AudioBuf.Read b (AudioBuf.available b) with
  | Some (_, out, _) => out
  | None => []
  end.

(** The byte at offset [i] of an allocation. *)
Definition byte_at (d : list byte) (i : Z) : byte := nth (Z.to_nat i) d x00.

(* ------------------------------------------------------------------------- *)
(** ** The voice recorder: voice_record_sdl.cpp, lines 20-21 and 77-259 *)

Module VoiceRecord_SDL.

Definition RECORDING_BUFFER_SECONDS : Z := 3.
Definition SAMPLE_COUNT : Z := 2048.

(** The fields of [SDL_AudioSpec] the file reads. *)
Record SDL_AudioSpec : Type := mkSpec {
  format : Z;
  channels : Z;
  freq : Z
}.

(** [SDL_AUDIO_BITSIZE(x)] is [(x) & 0xFFu] (SDL3/SDL_audio.h). *)
Definition SDL_AUDIO_BITSIZE (x : Z) : Z := Z.land x 255.

(** Calls into SDL's audio layer, newest first in the record.
    [SDL_OpenAudioDeviceStream] carries the device of the stream it returns
    ([SDL_GetAudioStreamDevice], line 189), 0 when there is none. *)
Inductive AudioCall : Type :=
| SDL_OpenAudioDeviceStream (device : Z)
| SDL_ResumeAudioDevice (device : Z)
| SDL_PauseAudioDevice (device : Z)
| SDL_CloseAudioDevice (device : Z).

(** The members of [VoiceRecord_SDL].  [m_AudioBuffer] is [None] while
    [m_AudioBuffer.data] is NULL; the other members of the buffer are then
    not read.  [m_ReceivedRecordingSpec] is read in lines 194-197 and
    written nowhere in the file: it is whatever the member holds. *)
Record t : Type := mk {
  m_ReceivedRecordingSpec : SDL_AudioSpec;
  m_BytesPerSample : Z;
  m_nSampleRate : Z;
  m_Device : Z;
  m_AudioBuffer : option AudioBuf.t;
  audio_calls : list AudioCall
}.

Definition set_m_BytesPerSample (n : Z) (v : t) : t :=
  mk (m_ReceivedRecordingSpec v) n (m_nSampleRate v) (m_Device v)
    (m_AudioBuffer v) (audio_calls v).

Definition set_m_nSampleRate (n : Z) (v : t) : t :=
  mk (m_ReceivedRecordingSpec v) (m_BytesPerSample v) n (m_Device v)
    (m_AudioBuffer v) (audio_calls v).

Definition set_m_Device (d : Z) (v : t) : t :=
  mk (m_ReceivedRecordingSpec v) (m_BytesPerSample v) (m_nSampleRate v) d
    (m_AudioBuffer v) (audio_calls v).

Definition set_m_AudioBuffer (b : option AudioBuf.t) (v : t) : t :=
  mk (m_ReceivedRecordingSpec v) (m_BytesPerSample v) (m_nSampleRate v)
    (m_Device v) b (audio_calls v).

Definition call (c : AudioCall) (v : t) : t :=
  mk (m_ReceivedRecordingSpec v) (m_BytesPerSample v) (m_nSampleRate v)
    (m_Device v) (m_AudioBuffer v) (c :: audio_calls v).

(** Values of type [int]; signed arithmetic that leaves them is undefined
    and is [None] below. *)
Definition in_int (z : Z) : bool := (F32.INT_MIN <=? z) && (z <=? F32.INT_MAX).

(** Conversion of an [unsigned] product back to [int]. *)
Definition to_int32 (z : Z) : Z := (z + 2 ^ 31) mod 2 ^ 32 - 2 ^ 31.

(** [VoiceRecord_SDL::ReleaseInterfaces] (lines 225-231). *)
Definition ReleaseInterfaces (v : t) : t :=
  let v := if negb (m_Device v =? 0)
           then call (SDL_CloseAudioDevice (m_Device v)) v else v in
  set_m_Device 0 v.

(** [VoiceRecord_SDL::ClearInterfaces] (lines 234-244). *)
Definition ClearInterfaces (v : t) : t :=
  let v := match m_AudioBuffer v with
           | Some _ => set_m_AudioBuffer None v
           | None => v
           end in
  set_m_Device 0 v.

(** [VoiceRecord_SDL::Init] (lines 216-222). *)
Definition Init (sampleRate : Z) (v : t) : bool * t :=
  (true, ReleaseInterfaces (set_m_nSampleRate sampleRate v)).

(** [memset(data, 0, size)] on an allocation. *)
Definition zero_fill (d : list byte) (size : Z) : list byte :=
  repeat x00 (Z.to_nat size) ++ skipn (Z.to_nat size) d.

(** [VoiceRecord_SDL::InitalizeInterfaces] (lines 170-214).  [device] is the
    value of [SDL_GetAudioStreamDevice] for the stream that was opened, 0
    when there is none.  [malloc] is taken to succeed for a positive size;
    a [memset] or a pointer outside the allocation is [None]. *)
Definition InitalizeInterfaces (device : Z) (v : t) : option (bool * t) :=
  let v := call (SDL_OpenAudioDeviceStream device) v in
  let v := set_m_Device device v in
  if negb (device =? 0) then
    let spec := m_ReceivedRecordingSpec v in
    let bps := to_int32 (channels spec * (SDL_AUDIO_BITSIZE (format spec) / 8)) in
    let v := set_m_BytesPerSample bps v in
    let bytesPerSecond := freq spec * bps in
    let size := RECORDING_BUFFER_SECONDS * bytesPerSecond in
    let ofs := SAMPLE_COUNT * bps * 2 in
    if in_int bytesPerSecond && in_int size && in_int (SAMPLE_COUNT * bps)
       && in_int ofs
    then
      let alloc :=
        match m_AudioBuffer v with
        | Some b => Some (AudioBuf.data b)
        | None => if 0 <? size then Some (repeat x00 (Z.to_nat size)) else None
        end in
      match alloc with
      | Some d =>
          if (0 <=? size) && (size <=? Z.of_nat (length d))
             && (0 <=? ofs) && (ofs <=? Z.of_nat (length d))
          then
            Some (true,
                  set_m_AudioBuffer
                    (Some (AudioBuf.mk size (zero_fill d size) 0 ofs)) v)
          else None
      | None => None
      end
    else None
  else Some (false, v).

(** [VoiceRecord_SDL::RecordStart] (lines 145-156). *)
Definition RecordStart (device : Z) (v : t) : option (bool * t) :=
  let started :=
    if m_Device v =? 0 then
      match InitalizeInterfaces device v with
      | Some (_, v') => Some v'
      | None => None
      end
    else Some v in
  match started with
  | Some v =>
      if m_Device v =? 0 then Some (false, v)
      else Some (true, call (SDL_ResumeAudioDevice (m_Device v)) v)
  | None => None
  end.

(** [VoiceRecord_SDL::RecordStop] (lines 159-168). *)
Definition RecordStop (v : t) : t :=
  let v := if negb (m_Device v =? 0)
           then call (SDL_PauseAudioDevice (m_Device v)) v else v in
  ReleaseInterfaces v.

(** [VoiceRecord_SDL::RenderBuffer] (lines 246-249). *)
Definition RenderBuffer (pszBuf : list byte) (v : t) : option t :=
  match m_AudioBuffer v with
  | Some b =>
      match AudioBuf.Write b pszBuf with
      | Some b' => Some (set_m_AudioBuffer (Some b') v)
      | None => None
      end
  | None => None
  end.

(** [VoiceRecord_SDL::GetRecordedData] (lines 251-259): the value returned,
    the bytes copied to [pOut], and the recorder afterwards.  [None] is a
    signed overflow, a [Read] that does not return, or a division by
    zero. *)
Definition GetRecordedData (nSamples : Z) (v : t)
  : option (Z * list byte * t) :=
  match m_AudioBuffer v with
  | None => Some (0, [], v)
  | Some b =>
      if nSamples =? 0 then Some (0, [], v)
      else
        let cbSamples := nSamples * m_BytesPerSample v in
        if negb (in_int cbSamples) then None
        else
          match AudioBuf.Read b cbSamples with
          | None => None
          | Some (n, out, b') =>
              if m_BytesPerSample v =? 0 then None
              else Some (Z.quot n (m_BytesPerSample v), out,
                         set_m_AudioBuffer (Some b') v)
          end
  end.

(** [m_BytesPerSample] and [m_AudioBuffer.size] as lines 194-200 compute
    them, when the products are [int]s. *)
Definition sample_bytes (spec : SDL_AudioSpec) : Z :=
  channels spec * (SDL_AUDIO_BITSIZE (format spec) / 8).

Definition buffer_bytes (spec : SDL_AudioSpec) : Z :=
  RECORDING_BUFFER_SECONDS * (freq spec * sample_bytes spec).

(** Calls that reach a recorder, taken one at a time.  [CallRenderBuffer]
    is the stream callback of lines 109-120, which SDL runs only for a
    device that is open. *)
Inductive RecorderCall : Type :=
| CallInit (sampleRate : Z)
| CallRecordStart (device : Z)
| CallRecordStop
| CallRenderBuffer (pszBuf : list byte)
| CallGetRecordedData (nSamples : Z).

Definition recorder_call (c : RecorderCall) (v : t) : option t :=
  match c with
  | CallInit sampleRate => Some (snd (Init sampleRate v))
  | CallRecordStart device =>
      match RecordStart device v with
      | Some (_, v') => Some v'
      | None => None
      end
  | CallRecordStop => Some (RecordStop v)
  | CallRenderBuffer pszBuf =>
      if m_Device v =? 0 then Some v else RenderBuffer pszBuf v
  | CallGetRecordedData nSamples =>
      match GetRecordedData nSamples v with
      | Some (_, _, v') => Some v'
      | None => None
      end
  end.

Fixpoint recorder_calls (cs : list RecorderCall) (v : t) : option t :=
  match cs with
  | [] => Some v
  | c :: rest =>
      match recorder_call c v with
      | Some v' => recorder_calls rest v'
      | None => None
      end
  end.

(** Calls within the limits of the code: a callback delivers no more than
    the buffer holds, and a reader asks for a number of samples that is not
    negative and whose size in bytes is an [int]. *)
Definition recorder_call_valid (spec : SDL_AudioSpec) (c : RecorderCall)
  : bool :=
  match c with
  | CallRenderBuffer pszBuf => Z.of_nat (length pszBuf) <=? buffer_bytes spec
  | CallGetRecordedData nSamples =>
      (0 <=? nSamples) && (nSamples * sample_bytes spec <=? F32.INT_MAX)
  | _ => true
  end.

(** The device that is open after the calls of a record, 0 when none is. *)
Fixpoint current_device (l : list AudioCall) : Z :=
  match l with
  | [] => 0
  | SDL_OpenAudioDeviceStream device :: _ => device
  | SDL_CloseAudioDevice _ :: _ => 0
  | _ :: l' => current_device l'
  end.

(** A stream is opened only while no device is open, and a device is
    resumed, paused or closed only while it is the open one. *)
Fixpoint device_calls_ok (l : list AudioCall) : Prop :=
  match l with
  | [] => True
  | SDL_OpenAudioDeviceStream _ :: l' =>
      current_device l' = 0 /\ device_calls_ok l'
  | SDL_ResumeAudioDevice device :: l' =>
      device <> 0 /\ current_device l' = device /\ device_calls_ok l'
  | SDL_PauseAudioDevice device :: l' =>
      device <> 0 /\ current_device l' = device /\ device_calls_ok l'
  | SDL_CloseAudioDevice device :: l' =>
      device <> 0 /\ current_device l' = device /\ device_calls_ok l'
  end.

(** What the calls of a recorder keep. *)
Definition recorder_inv (spec : SDL_AudioSpec) (v : t) : Prop :=
  m_ReceivedRecordingSpec v = spec /\
  current_device (audio_calls v) = m_Device v /\
  device_calls_ok (audio_calls v) /\
  (m_Device v <> 0 -> m_AudioBuffer v <> None) /\
  (forall b, m_AudioBuffer v = Some b ->
     AudioBuf.wf b /\ AudioBuf.size b = buffer_bytes spec /\
     m_BytesPerSample v = sample_bytes spec).

End VoiceRecord_SDL.

(* ------------------------------------------------------------------------- *)
(** ** More sample inputs *)

(** Pad 1 is announced, rumbles, has a button pressed; the console asks for
    pad 2; the rumble is stopped; pad 2 is unplugged. *)
Definition sample_input_calls : list InputCall :=
  [ CallWatcher [pad 1; pad 2] (SDL_EVENT_GAMEPAD_ADDED 1);
    CallSetXDeviceRumble [pad 1; pad 2] (F32.lit 1 2) (F32.lit 1 2) 0;
    CallWatcher [pad 1; pad 2]
      (SDL_EVENT_GAMEPAD_BUTTON_DOWN 1 SDL_GAMEPAD_BUTTON_SOUTH);
    CallSetJoyActive [pad 1; pad 2] 2;
    CallSetXDeviceRumble [pad 1; pad 2] (F32.of_int 0) (F32.of_int 0) 0;
    CallWatcher [pad 2] (SDL_EVENT_GAMEPAD_REMOVED 2) ].

(** A recognised gamepad whose haptic device opens but cannot be set up for
    rumble. *)
Definition pad_without_rumble (id : Z) : Device :=
  mkDevice id true true true true (-1) 0.

(** A joystick without a controller configuration. *)
Definition plain_joystick (id : Z) : Device :=
  mkDevice id false true false false (-1) (-1).

Definition sample_platform : Platform :=
  mkPlatform false 0 [plain_joystick 5; pad 7; pad 9].

Definition nojoy_platform : Platform := mkPlatform true 0 [pad 1].

(** The input system before the first [InitializeJoysticks]. *)
Definition fresh_system (config : String.string) : InputSystem :=
  mkInputSystem (fresh_state (-1)) false config [].

(** A one-letter controller configuration. *)
Definition sample_config : String.string := String.string_of_list_byte [x61].


(** An eight-byte ring buffer holding three bytes across the wrap. *)
Definition odd_buffer : AudioBuf.t :=
  AudioBuf.mk 8 [x01; x02; x03; x04; x05; x06; x07; x08] 6 1.

(** A recorder of two-byte samples over [odd_buffer]. *)
Definition odd_recorder : VoiceRecord_SDL.t :=
  VoiceRecord_SDL.mk (VoiceRecord_SDL.mkSpec 32784 1 44100) 2 44100 1
    (Some odd_buffer) [].

(** A recorder that was never started; the format received is signed
    16-bit mono at 44100 samples a second. *)
Definition new_recorder : VoiceRecord_SDL.t :=
  VoiceRecord_SDL.mk (VoiceRecord_SDL.mkSpec 32784 1 44100) 0 44100 0 None [].

(** A recorder is started, fed by the callback, read, stopped, started
    again and given a new sample rate. *)
Definition sample_recorder_calls : list VoiceRecord_SDL.RecorderCall :=
  [ VoiceRecord_SDL.CallGetRecordedData 10;
    VoiceRecord_SDL.CallRecordStart 2;
    VoiceRecord_SDL.CallRenderBuffer [x01; x02; x03; x04];
    VoiceRecord_SDL.CallGetRecordedData 4097;
    VoiceRecord_SDL.CallRecordStop;
    VoiceRecord_SDL.CallRenderBuffer [x05];
    VoiceRecord_SDL.CallRecordStart 0;
    VoiceRecord_SDL.CallRecordStart 3;
    VoiceRecord_SDL.CallInit 11025 ].

(* ------------------------------------------------------------------------- *)
(** ** Basic facts *)

Ltac break_match :=
  match goal with
  | |- context [match ?c with _ => _ end] =>
      lazymatch c with
      | context [match _ with _ => _ end] => fail
      | _ => destruct c eqn:?
      end
  end.

(* Lists built with [++] and [::], brought to one shape. *)
Ltac app_norm := repeat (progress (rewrite <- ?app_assoc; cbn [app])).

Ltac bool_hyps :=
  repeat match goal with
  | H : (_ =? _) = true |- _ => apply Z.eqb_eq in H
  | H : (_ =? _) = false |- _ => apply Z.eqb_neq in H
  | H : (_ <? _) = true |- _ => apply Z.ltb_lt in H
  | H : (_ <? _) = false |- _ => apply Z.ltb_ge in H
  | H : (_ >? _) = true |- _ => apply Z.gtb_gt in H
  | H : (_ >? _) = false |- _ => rewrite Z.gtb_ltb in H
  | H : (_ <=? _) = true |- _ => apply Z.leb_le in H
  | H : (_ <=? _) = false |- _ => apply Z.leb_gt in H
  | H : (_ >=? _) = true |- _ => rewrite Z.geb_leb in H
  | H : (_ >=? _) = false |- _ => rewrite Z.geb_leb in H
  | H : negb _ = true |- _ => apply negb_true_iff in H
  | H : negb _ = false |- _ => apply negb_false_iff in H
  end.

Lemma find_device_id (L : DeviceLayer) (id : Z) (d : Device) :
  find_device L id = Some d -> dev_id d = id /\ In d L.
Proof.
  unfold find_device. intros H. apply find_some in H. destruct H as [Hin Heq].
  split; [now apply Z.eqb_eq | exact Hin].
Qed.

Lemma layer_valid_find (L : DeviceLayer) (id : Z) (d : Device) :
  layer_ids_valid L = true -> find_device L id = Some d -> id <> -1.
Proof.
  unfold layer_ids_valid. intros Hv Hf.
  destruct (find_device_id _ _ _ Hf) as [Hid Hin].
  rewrite forallb_forall in Hv. specialize (Hv d Hin).
  apply negb_true_iff, Z.eqb_neq in Hv. congruence.
Qed.

Lemma SDL_OpenGamepad_id (L : DeviceLayer) (id : Z) (g : SDL_Gamepad) :
  SDL_OpenGamepad L id = Some g -> SDL_GetJoystickID g = id.
Proof.
  unfold SDL_OpenGamepad. repeat break_match; intros H; inversion H; reflexivity.
Qed.

Lemma SDL_OpenGamepad_valid (L : DeviceLayer) (id : Z) (g : SDL_Gamepad) :
  layer_ids_valid L = true -> SDL_OpenGamepad L id = Some g -> id <> -1.
Proof.
  unfold SDL_OpenGamepad. intros Hv. destruct (find_device L id) eqn:Hf.
  - intros _. eapply layer_valid_find; eauto.
  - discriminate.
Qed.

Section HotplugFacts.
Context {enums : InputEnums} {convar : ConVarImpl}.

(** [SetJoyXControllerFound] touches the two console variables only. *)
Lemma SetJoyXControllerFound_info (b : bool) (st : State) :
  info (SetJoyXControllerFound b st) = info st.
Proof.
  unfold SetJoyXControllerFound.
  destruct (xcontrollerVar st); cbn; destruct (joystickVar st); destruct b;
    reflexivity.
Qed.

Lemma SetJoyXControllerFound_trace (b : bool) (st : State) :
  trace (SetJoyXControllerFound b st) = trace st.
Proof.
  unfold SetJoyXControllerFound.
  destruct (xcontrollerVar st); cbn; destruct (joystickVar st); destruct b;
    reflexivity.
Qed.

Lemma SetJoyXControllerFound_joy_active (b : bool) (st : State) :
  joy_active (SetJoyXControllerFound b st) = joy_active st.
Proof.
  unfold SetJoyXControllerFound.
  destruct (xcontrollerVar st); cbn; destruct (joystickVar st); destruct b;
    reflexivity.
Qed.

Lemma JoystickHotplugAdded_haptic_fields L id g st :
  let st' := snd (JoystickHotplugAdded_haptic L id g st) in
  info st' = info st /\ joy_active st' = joy_active st /\
  exists mid, trace st' = mid ++ trace st /\ Forall is_haptic_setup mid.
Proof.
  unfold JoystickHotplugAdded_haptic.
  destruct (SDL_OpenHapticFromJoystick L g) as [h|]; cbn.
  - destruct (negb (SDL_InitHapticRumble L h =? 0)); cbn; repeat split.
    + exists [Warning (NoRumble id);
              E_InitHapticRumble h (SDL_InitHapticRumble L h);
              E_OpenHaptic g (Some h)].
      split; [reflexivity | repeat constructor].
    + exists [E_InitHapticRumble h (SDL_InitHapticRumble L h);
              E_OpenHaptic g (Some h)].
      split; [reflexivity | repeat constructor].
  - repeat split. exists [Warning (NoRumble id); E_OpenHaptic g None].
    split; [reflexivity | repeat constructor].
Qed.

(** The three ways [JoystickHotplugRemoved] can go. *)
Lemma JoystickHotplugRemoved_cases (id : Z) (st : State) :
  let st' := JoystickHotplugRemoved id st in
  joy_active st' = joy_active st /\
  ((m_nDeviceId (info st) <> id /\
    st' = emit (DevMsg (IgnoringRemove id (m_nDeviceId (info st)))) st) \/
   (m_nDeviceId (info st) = id /\ m_pDevice (info st) = None /\
    m_pDevice (info st') = None /\ m_nDeviceId (info st') = -1 /\
    trace st' = DevMsg (RemoveForRemoved id) :: trace st) \/
   (exists g, m_nDeviceId (info st) = id /\ m_pDevice (info st) = Some g /\
    info st' = mkInfo None None (-1) 0 false (m_fCurrentRumble (info st)) /\
    trace st' = Msg (JoystickRemoved id) :: E_CloseGamepad g
                :: E_CloseHaptic (m_pHaptic (info st))
                :: E_EnableJoystickInput 0 false :: trace st)).
Proof.
  unfold JoystickHotplugRemoved.
  destruct (m_nDeviceId (info st) =? id) eqn:E; cbn [negb].
  - apply Z.eqb_eq in E. destruct (m_pDevice (info st)) as [g|] eqn:D.
    + split.
      * cbn. now rewrite SetJoyXControllerFound_joy_active.
      * right; right. exists g. cbn.
        rewrite SetJoyXControllerFound_trace. cbn. auto.
    + split; [reflexivity|]. right; left. cbn. auto.
  - apply Z.eqb_neq in E. split; [reflexivity|]. left. auto.
Qed.

(** The two ways the opening phase can go. *)
Lemma JoystickHotplugAdded_open_cases SV (L : DeviceLayer) (id : Z) (st : State) :
  (SDL_OpenGamepad L id = None /\
   JoystickHotplugAdded_open SV L id st =
     Some (set_trace (Warning (FailedToOpen id) :: E_OpenGamepad id None
                      :: Msg (Initializing id) :: trace st) st)) \/
  (exists g st2 mid,
      SDL_OpenGamepad L id = Some g /\
      JoystickHotplugAdded_open SV L id st = SV (-1) st2 /\
      m_pDevice (info st2) = Some g /\ m_nDeviceId (info st2) = id /\
      joy_active st2 = joy_active st /\
      trace st2 = E_EnableJoystickInput 0 true
                  :: mid ++ E_OpenGamepad id (Some g)
                  :: Msg (Initializing id) :: trace st /\
      Forall is_haptic_setup mid).
Proof.
  unfold JoystickHotplugAdded_open.
  destruct (SDL_OpenGamepad L id) as [g|] eqn:Hg.
  - right.
    set (s1 := emit (E_OpenGamepad id (Some g)) (emit (Msg (Initializing id)) st)).
    destruct (JoystickHotplugAdded_haptic_fields L id g s1)
      as (Hi & Hj & mid & Ht & Hmid).
    eexists g, _, mid. split; [reflexivity|]. split; [reflexivity|].
    cbn. rewrite SetJoyXControllerFound_info, SetJoyXControllerFound_trace,
           SetJoyXControllerFound_joy_active. cbn.
    rewrite Ht, Hj. cbn.
    repeat split; auto. eapply SDL_OpenGamepad_id; eauto.
  - left. split; reflexivity.
Qed.

(** The ways [JoystickHotplugAdded] can go before it opens anything:
    it returns after diagnostics only, or it goes on to open the gamepad,
    after removing the active joystick when there is a different one. *)
Lemma JoystickHotplugAdded_body_cases SV (L : DeviceLayer) (id : Z) (st : State) :
  (exists new, Forall is_probe_or_diagnostic new /\
      JoystickHotplugAdded_body SV L id st =
        Some (set_trace (new ++ trace st) st)) \/
  (SDL_IsGamepad L id = true /\ SDL_OpenJoystick L id = true /\
   let st0 := emit (E_CloseJoystick id) (emit (E_OpenJoystick id true) st) in
   let cur := m_nDeviceId (info st) in
   (((joy_active st < 0 \/ joy_active st = id) /\ cur = -1 /\
     JoystickHotplugAdded_body SV L id st =
       JoystickHotplugAdded_open SV L id st0) \/
    (joy_active st = id /\ 0 <= id /\ cur <> -1 /\ cur <> id /\
     JoystickHotplugAdded_body SV L id st =
       JoystickHotplugAdded_open SV L id
         (JoystickHotplugRemoved cur
            (emit (DevMsg (AlreadyInitialized cur)) st0))))).
Proof.
  unfold JoystickHotplugAdded_body.
  destruct (SDL_IsGamepad L id) eqn:Hg; cbn [negb].
  2:{ left. exists [Warning NotRecognized]. split; [repeat constructor|reflexivity]. }
  destruct (SDL_OpenJoystick L id) eqn:Ho; cbn [negb].
  2:{ left. exists [Warning (CouldNotOpenJoystick id); E_OpenJoystick id false].
      split; [repeat constructor|reflexivity]. }
  cbn [joy_active info emit set_trace].
  destruct (joy_active st <? 0) eqn:Hneg;
    destruct (m_nDeviceId (info st) =? -1) eqn:Hcur; cbn [negb]; bool_hyps.
  - right. do 2 (split; [reflexivity|]). left. repeat split; auto.
  - left. eexists [Msg _; E_CloseJoystick id; E_OpenJoystick id true].
    split; [repeat constructor|reflexivity].
  - destruct (joy_active st =? id) eqn:Hid; cbn [negb]; bool_hyps.
    + right. do 2 (split; [reflexivity|]). left. repeat split; auto.
    + left. eexists [Msg _; E_CloseJoystick id; E_OpenJoystick id true].
      split; [repeat constructor|reflexivity].
  - destruct (joy_active st =? id) eqn:Hid; cbn [negb]; bool_hyps.
    + destruct (m_nDeviceId (info st) =? id) eqn:Hsame; bool_hyps.
      * left. exists [E_CloseJoystick id; E_OpenJoystick id true].
        split; [repeat constructor|reflexivity].
      * right. do 2 (split; [reflexivity|]). right. repeat split; auto; lia.
    + left. eexists [Msg _; E_CloseJoystick id; E_OpenJoystick id true].
      split; [repeat constructor|reflexivity].
Qed.

Lemma set_trace_same (s : State) : set_trace ([] ++ trace s) s = s.
Proof. destruct s; reflexivity. Qed.

Lemma JoystickHotplugAdded_S (n : nat) (L : DeviceLayer) (id : Z) (st : State) :
  JoystickHotplugAdded (S n) L id st =
    JoystickHotplugAdded_body
      (joy_active_SetValue (SearchForDevice_with (JoystickHotplugAdded n L) L))
      L id st.
Proof. reflexivity. Qed.

(** While a joystick is active and [joy_active] is -1, an attach
    notification only probes and logs, whatever [SetValue] would do. *)
Lemma attach_rejected_when_active SV (L : DeviceLayer) (id : Z) (st : State) :
  joy_active st = -1 -> m_nDeviceId (info st) <> -1 ->
  exists new, Forall is_probe_or_diagnostic new /\
    JoystickHotplugAdded_body SV L id st = Some (set_trace (new ++ trace st) st).
Proof.
  intros Hp Hcur.
  destruct (JoystickHotplugAdded_body_cases SV L id st)
    as [H | (_ & _ & [(_ & Hc & _) | (Hj & Hid & _)])].
  - exact H.
  - cbv zeta in Hc. contradiction.
  - lia.
Qed.

(** So one unit of fuel is enough there ... *)
Lemma JoystickHotplugAdded_when_active (n : nat) (L : DeviceLayer) (id : Z)
    (st : State) :
  joy_active st = -1 -> m_nDeviceId (info st) <> -1 ->
  exists new, Forall is_probe_or_diagnostic new /\
    JoystickHotplugAdded (S n) L id st = Some (set_trace (new ++ trace st) st).
Proof.
  intros. rewrite JoystickHotplugAdded_S. now apply attach_rejected_when_active.
Qed.

(** ... and resetting [joy_active] while a joystick is active adds
    diagnostics at most, callback or not. *)
Lemma SetValue_when_active (n : nat) (L : DeviceLayer) (s : State) :
  m_nDeviceId (info s) <> -1 ->
  exists new, Forall is_probe_or_diagnostic new /\
    joy_active_SetValue (SearchForDevice_with (JoystickHotplugAdded (S n) L) L)
      (-1) s
    = Some (set_trace (new ++ trace s) (set_joy_active (-1) s)).
Proof.
  intros Hcur. unfold joy_active_SetValue.
  destruct (change_callback_runs (joy_active s) (-1)).
  - unfold SearchForDevice_with. cbn [joy_active set_joy_active].
    change (-1 <? 0) with true. cbv iota.
    destruct (JoystickHotplugAdded_when_active n L 0 (set_joy_active (-1) s))
      as (new & Hnew & E); [reflexivity | exact Hcur |].
    exists new. split; [exact Hnew | exact E].
  - exists []. split; [constructor|].
    change (trace s) with (trace (set_joy_active (-1) s)).
    now rewrite set_trace_same.
Qed.

(** With [joy_active] at -1, a call for a joystick id other than -1 returns
    with two units of fuel and leaves [joy_active] at -1. *)
Lemma JoystickHotplugAdded_pref_none (n : nat) (L : DeviceLayer) (id : Z)
    (st : State) :
  joy_active st = -1 -> id <> -1 ->
  exists st' new, JoystickHotplugAdded (S (S n)) L id st = Some st' /\
                  trace st' = new ++ trace st /\ joy_active st' = -1.
Proof.
  intros Hp Hid. rewrite JoystickHotplugAdded_S.
  set (SV := joy_active_SetValue
               (SearchForDevice_with (JoystickHotplugAdded (S n) L) L)).
  destruct (JoystickHotplugAdded_body_cases SV L id st)
    as [(new & _ & E) | (_ & _ & [(_ & _ & E) | (Hj & H0 & _)])];
    [ | | lia ]; rewrite E; clear E.
  - eexists _, new. split; [reflexivity|]. split; [reflexivity | exact Hp].
  - destruct (JoystickHotplugAdded_open_cases SV L id
                (emit (E_CloseJoystick id) (emit (E_OpenJoystick id true) st)))
      as [[_ E] | (g & st2 & mid & _ & E & _ & Hi & Hj & Ht & _)]; rewrite E.
    + eexists _, [_; _; _; _; _]. split; [reflexivity|].
      split; [reflexivity | exact Hp].
    + destruct (SetValue_when_active n L st2) as (new & _ & E2); [lia|].
      subst SV. rewrite E2.
      eexists _, (new ++ E_EnableJoystickInput 0 true
                      :: mid ++ [E_OpenGamepad id (Some g); Msg (Initializing id);
                                 E_CloseJoystick id; E_OpenJoystick id true]).
      split; [reflexivity|]. split; [|reflexivity].
      cbn [trace set_trace]. rewrite Ht. cbn [trace emit set_trace].
      app_norm. reflexivity.
Qed.

(** Hence resetting [joy_active] at the end of a successful open behaves as
    [resets_preference] says, given two units of fuel for the callback. *)
Lemma SetValue_resets_preference (n : nat) (L : DeviceLayer) :
  resets_preference
    (joy_active_SetValue
       (SearchForDevice_with (JoystickHotplugAdded (S (S n)) L) L)).
Proof.
  intros s.
  destruct (Z.eq_dec (m_nDeviceId (info s)) (-1)) as [Hcur | Hcur].
  - unfold joy_active_SetValue.
    destruct (change_callback_runs (joy_active s) (-1)).
    + unfold SearchForDevice_with. cbn [joy_active set_joy_active].
      change (-1 <? 0) with true. cbv iota.
      destruct (JoystickHotplugAdded_pref_none n L 0 (set_joy_active (-1) s))
        as (s' & new & E & Ht & Hj); [reflexivity | lia |].
      exists s', new. split; [exact E|]. split; [exact Ht|]. split; [exact Hj|].
      intros H. contradiction.
    + exists (set_joy_active (-1) s), []. repeat split. contradiction.
  - destruct (SetValue_when_active (S n) L s Hcur) as (new & Hnew & E).
    eexists _, new. split; [exact E|]. split; [reflexivity|].
    split; [reflexivity|]. intros _. split; [reflexivity | exact Hnew].
Qed.

Lemma resets_preference_extends SV : resets_preference SV -> extends_trace SV.
Proof.
  intros H s s' E. destruct (H s) as (s'' & new & E' & Ht & _).
  rewrite E in E'. inversion E'; subst. eauto.
Qed.

(** Three units of fuel are enough in every state. *)
Lemma JoystickHotplugAdded_unfold (n : nat) (L : DeviceLayer) (id : Z)
    (st : State) :
  JoystickHotplugAdded (S (S (S n))) L id st =
    JoystickHotplugAdded_body
      (joy_active_SetValue
         (SearchForDevice_with (JoystickHotplugAdded (S (S n)) L) L))
      L id st.
Proof. apply JoystickHotplugAdded_S. Qed.

End HotplugFacts.

(* ------------------------------------------------------------------------- *)
(** ** One session at a time *)

Lemma probe_is_neutral (l : list Effect) :
  Forall is_probe_or_diagnostic l -> Forall is_neutral l.
Proof. apply Forall_impl. intros []; cbn; tauto. Qed.

Lemma haptic_setup_is_neutral (l : list Effect) :
  Forall is_haptic_setup l -> Forall is_neutral l.
Proof. apply Forall_impl. intros []; cbn; tauto. Qed.

Lemma live_neutral (new t : list Effect) :
  Forall is_neutral new -> live (new ++ t) = live t.
Proof.
  induction 1 as [|e new He _ IH]; [reflexivity|].
  destruct e; cbn in *; try tauto; exact IH.
Qed.

Lemma single_session_live (t : list Effect) :
  single_session t -> 0 <= live t <= 1.
Proof. destruct t; cbn; [lia | tauto]. Qed.

Lemma single_session_neutral (new t : list Effect) :
  Forall is_neutral new -> single_session t -> single_session (new ++ t).
Proof.
  intros Hn Ht. induction Hn as [|e new He Hn IH]; [exact Ht|].
  change ((e :: new) ++ t) with (e :: (new ++ t)).
  cbn [single_session]. split; [|split; [|exact IH]].
  - change (e :: new ++ t) with ((e :: new) ++ t).
    rewrite live_neutral by (constructor; assumption).
    now apply single_session_live.
  - destruct e; cbn in *; tauto.
Qed.

Lemma session_inv_neutral (st st' : State) (new : list Effect) :
  session_inv st -> info st' = info st -> trace st' = new ++ trace st ->
  Forall is_neutral new -> session_inv st'.
Proof.
  unfold session_inv. intros (Hc & Hl & Hs) Hi Ht Hn. rewrite Hi, Ht.
  rewrite live_neutral by assumption.
  repeat split; try tauto. now apply single_session_neutral.
Qed.

Section SessionInvariant.
Context {enums : InputEnums} {convar : ConVarImpl}.

Lemma session_inv_removed (id : Z) (st : State) :
  session_inv st -> session_inv (JoystickHotplugRemoved id st).
Proof.
  intros Hinv.
  destruct (JoystickHotplugRemoved_cases id st)
    as (_ & [(_ & E) | [(_ & Hd & Hd' & Hi' & Ht) | (g & _ & Hd & Hi & Ht)]]).
  - rewrite E. eapply session_inv_neutral with (new := [_]); eauto.
    + reflexivity.
    + repeat constructor.
  - destruct Hinv as (Hc & Hl & Hs). unfold session_inv.
    rewrite Hd', Hi', Ht. rewrite Hd in Hl. cbn. repeat split; auto; lia.
  - destruct Hinv as (Hc & Hl & Hs). unfold session_inv.
    rewrite Hi, Ht. rewrite Hd in Hl. cbn. rewrite Hl.
    pose proof (single_session_live _ Hs).
    repeat split; auto; try lia; try tauto.
Qed.

Lemma session_inv_open SV (L : DeviceLayer) (id : Z) (st : State) :
  resets_preference SV ->
  layer_ids_valid L = true -> session_inv st -> m_nDeviceId (info st) = -1 ->
  exists st', JoystickHotplugAdded_open SV L id st = Some st' /\ session_inv st'.
Proof.
  intros HSV Hv Hinv Hcur.
  assert (Hnone : m_pDevice (info st) = None) by (apply Hinv; exact Hcur).
  destruct (JoystickHotplugAdded_open_cases SV L id st)
    as [[Hn E] | (g & st2 & mid & Hg & E & Hd & Hi & Hj & Ht & Hmid)];
    rewrite E; clear E.
  - eexists; split; [reflexivity|].
    destruct Hinv as (Hc & Hl & Hs). unfold session_inv. cbn.
    rewrite Hnone in *. repeat split; auto; try tauto; lia.
  - assert (Hid : id <> -1) by (eapply SDL_OpenGamepad_valid; eauto).
    assert (Hinv2 : session_inv st2).
    { destruct Hinv as (Hc & Hl & Hs). rewrite Hnone in Hl.
      unfold session_inv. rewrite Hd, Hi, Ht.
      change (E_EnableJoystickInput 0 true
              :: mid ++ E_OpenGamepad id (Some g) :: Msg (Initializing id) :: trace st)
        with ((E_EnableJoystickInput 0 true :: mid)
              ++ E_OpenGamepad id (Some g) :: Msg (Initializing id) :: trace st).
      assert (Hneu : Forall is_neutral (E_EnableJoystickInput 0 true :: mid)).
      { constructor; [exact I | now apply haptic_setup_is_neutral]. }
      rewrite live_neutral by exact Hneu.
      split; [split; [discriminate | contradiction]|].
      split; [cbn; lia|].
      apply single_session_neutral; [exact Hneu|].
      cbn. repeat split; auto; lia. }
    destruct (HSV st2) as (s' & new & E & _ & _ & Hact).
    destruct Hact as [Hs' Hnew]; [lia|].
    rewrite E. exists s'. split; [reflexivity|].
    eapply session_inv_neutral with (st := st2) (new := new); eauto.
    + rewrite Hs'. reflexivity.
    + rewrite Hs'. reflexivity.
    + now apply probe_is_neutral.
Qed.

Lemma session_inv_added (n : nat) (L : DeviceLayer) (id : Z) (st : State) :
  layer_ids_valid L = true -> session_inv st ->
  exists st', JoystickHotplugAdded (S (S (S n))) L id st = Some st'
              /\ session_inv st'.
Proof.
  intros Hv Hinv. rewrite JoystickHotplugAdded_unfold.
  pose proof (SetValue_resets_preference n L) as HSV.
  set (SV := joy_active_SetValue
               (SearchForDevice_with (JoystickHotplugAdded (S (S n)) L) L)) in *.
  destruct (JoystickHotplugAdded_body_cases SV L id st)
    as [(new & Hnew & E) | (_ & _ & [(_ & Hc & E) | (_ & _ & Hc & _ & E)])];
    rewrite E; clear E.
  - eexists; split; [reflexivity|].
    eapply session_inv_neutral with (new := new); eauto.
    now apply probe_is_neutral.
  - apply session_inv_open; auto.
    eapply session_inv_neutral with (new := [_; _]); eauto;
      [reflexivity | repeat constructor].
  - apply session_inv_open; auto.
    + apply session_inv_removed.
      eapply session_inv_neutral with (new := [_; _; _]); eauto;
        [reflexivity | repeat constructor].
    + match goal with
      | |- m_nDeviceId (info (JoystickHotplugRemoved ?i ?s)) = -1 =>
          destruct (JoystickHotplugRemoved_cases i s)
            as (_ & [(Hne & _) | [(_ & _ & _ & Hi & _) | (g & _ & _ & Hi & _)]])
      end.
      * cbn in Hne. contradiction.
      * exact Hi.
      * rewrite Hi. reflexivity.
Qed.

Lemma session_inv_search_loop (added : Z -> State -> option State)
    (L : DeviceLayer) (ids : list Z) :
  (forall id st, session_inv st ->
     exists st', added id st = Some st' /\ session_inv st') ->
  forall st, session_inv st ->
  exists st', SearchForDevice_loop added L ids st = Some st' /\ session_inv st'.
Proof.
  intros Hadd. induction ids as [|id ids IH]; intros st Hinv;
    cbn [SearchForDevice_loop].
  - eauto.
  - set (st1 := emit (E_OpenJoystick id (SDL_OpenJoystick L id)) st).
    assert (H1 : session_inv st1).
    { eapply session_inv_neutral with (new := [_]); eauto;
        [reflexivity | repeat constructor]. }
    destruct (SDL_OpenJoystick L id).
    + destruct (Hadd id st1 H1) as (st2 & E & H2).
      rewrite E. apply IH. exact H2.
    + apply IH. exact H1.
Qed.

Lemma session_inv_search (n : nat) (L : DeviceLayer) (st : State) :
  layer_ids_valid L = true -> session_inv st ->
  exists st', SearchForDevice (S (S (S n))) L st = Some st' /\ session_inv st'.
Proof.
  intros Hv Hinv. unfold SearchForDevice, SearchForDevice_with.
  destruct (joy_active st <? 0).
  - now apply session_inv_added.
  - apply session_inv_search_loop; [|exact Hinv].
    intros id s Hs. now apply session_inv_added.
Qed.

Lemma session_inv_calls (n : nat) (cs : list HotplugCall) :
  forallb call_layer_valid cs = true -> forall st, session_inv st ->
  exists st', hotplug_calls (S (S (S n))) cs st = Some st' /\ session_inv st'.
Proof.
  induction cs as [|c cs IH]; intros Hv st Hinv.
  - cbn. eauto.
  - cbn [forallb] in Hv. apply andb_true_iff in Hv. destruct Hv as [Hc Hcs].
    cbn [hotplug_calls].
    assert (H1 : exists st1, hotplug_call (S (S (S n))) c st = Some st1
                             /\ session_inv st1).
    { destruct c as [L id | id | L]; cbn [hotplug_call call_layer_valid] in *.
      - now apply session_inv_added.
      - eexists; split; [reflexivity|]. now apply session_inv_removed.
      - now apply session_inv_search. }
    destruct H1 as (st1 & E & H1). rewrite E. now apply IH.
Qed.

Lemma JoystickHotplugRemoved_extends (id : Z) (st : State) :
  exists r, trace (JoystickHotplugRemoved id st) = r ++ trace st.
Proof.
  destruct (JoystickHotplugRemoved_cases id st)
    as (_ & [(_ & E) | [(_ & _ & _ & _ & E) | (g & _ & _ & _ & E)]]);
    rewrite E.
  - exists [DevMsg (IgnoringRemove id (m_nDeviceId (info st)))]. reflexivity.
  - exists [DevMsg (RemoveForRemoved id)]. reflexivity.
  - eexists [_; _; _; _]. reflexivity.
Qed.

Lemma JoystickHotplugAdded_open_extends SV (L : DeviceLayer) (id : Z)
    (st st' : State) :
  extends_trace SV -> JoystickHotplugAdded_open SV L id st = Some st' ->
  exists post, trace st' = post ++ E_OpenGamepad id (SDL_OpenGamepad L id)
                           :: Msg (Initializing id) :: trace st.
Proof.
  intros HSV.
  destruct (JoystickHotplugAdded_open_cases SV L id st)
    as [[Hn E] | (g & st2 & mid & Hg & E & _ & _ & _ & Ht & _)];
    rewrite E; intros H.
  - inversion H; subst. rewrite Hn. exists [Warning (FailedToOpen id)].
    reflexivity.
  - destruct (HSV _ _ H) as (new & Hnew). rewrite Hnew, Ht, Hg.
    exists (new ++ E_EnableJoystickInput 0 true :: mid).
    rewrite <- app_assoc. reflexivity.
Qed.

Lemma JoystickHotplugAdded_body_extends SV (L : DeviceLayer) (id : Z)
    (st st' : State) :
  extends_trace SV -> JoystickHotplugAdded_body SV L id st = Some st' ->
  exists new, trace st' = new ++ trace st.
Proof.
  intros HSV.
  destruct (JoystickHotplugAdded_body_cases SV L id st)
    as [(new & _ & E) | (_ & _ & [(_ & _ & E) | (_ & _ & _ & _ & E)])];
    rewrite E; clear E; intros H.
  - inversion H. exists new. reflexivity.
  - destruct (JoystickHotplugAdded_open_extends _ _ _ _ _ HSV H) as (post & E).
    rewrite E. cbn.
    exists (post ++ [E_OpenGamepad id (SDL_OpenGamepad L id);
                     Msg (Initializing id); E_CloseJoystick id;
                     E_OpenJoystick id true]).
    rewrite <- app_assoc. reflexivity.
  - destruct (JoystickHotplugAdded_open_extends _ _ _ _ _ HSV H) as (post & E).
    rewrite E.
    match goal with
    | |- context [trace (JoystickHotplugRemoved ?c ?s)] =>
        destruct (JoystickHotplugRemoved_extends c s) as (r & Er); rewrite Er
    end.
    cbn.
    exists (post ++ [E_OpenGamepad id (SDL_OpenGamepad L id);
                     Msg (Initializing id)] ++ r
                 ++ [DevMsg (AlreadyInitialized (m_nDeviceId (info st)));
                     E_CloseJoystick id; E_OpenJoystick id true]).
    rewrite <- !app_assoc. reflexivity.
Qed.

(** Replacing the active joystick: the old handle and its haptic device
    are closed before [SDL_OpenGamepad] is called. *)
Lemma replace_closes_first (n : nat) (L : DeviceLayer) (id : Z)
    (st st' : State) (g : SDL_Gamepad) (new : list Effect) :
  m_pDevice (info st) = Some g -> m_nDeviceId (info st) <> -1 ->
  JoystickHotplugAdded (S (S (S n))) L id st = Some st' ->
  trace st' = new ++ trace st -> Exists is_open_call new ->
  (exists post,
     rev new =
       [ E_OpenJoystick id true; E_CloseJoystick id;
         DevMsg (AlreadyInitialized (m_nDeviceId (info st)));
         E_EnableJoystickInput 0 false;
         E_CloseHaptic (m_pHaptic (info st)); E_CloseGamepad g;
         Msg (JoystickRemoved (m_nDeviceId (info st)));
         Msg (Initializing id); E_OpenGamepad id (SDL_OpenGamepad L id) ]
       ++ post) /\
  (SDL_OpenGamepad L id = None -> info_reset (info st')).
Proof.
  intros Hd Hcur. rewrite JoystickHotplugAdded_unfold.
  pose proof (SetValue_resets_preference n L) as HSV.
  set (SV := joy_active_SetValue
               (SearchForDevice_with (JoystickHotplugAdded (S (S n)) L) L)) in *.
  destruct (JoystickHotplugAdded_body_cases SV L id st)
    as [(new0 & Hnew0 & E) | (_ & _ & [(_ & Hc & _) | (_ & _ & _ & _ & E)])].
  - rewrite E. intros H Ht Hex. inversion H; subst st'. cbn in Ht.
    apply app_inv_tail in Ht. subst new0. exfalso.
    apply Exists_exists in Hex. destruct Hex as (e & Hin & He).
    rewrite Forall_forall in Hnew0. specialize (Hnew0 e Hin).
    destruct e; cbn in *; tauto.
  - cbv zeta in Hc. contradiction.
  - rewrite E. clear E. cbv zeta.
    set (cur := m_nDeviceId (info st)).
    set (s0 := emit (DevMsg (AlreadyInitialized cur))
                 (emit (E_CloseJoystick id) (emit (E_OpenJoystick id true) st))).
    destruct (JoystickHotplugRemoved_cases cur s0)
      as (_ & [(Hne & _) | [(_ & Hnone & _) | (g' & _ & Hg' & Hi & Hr)]]).
    + cbn in Hne. contradiction.
    + cbn in Hnone. congruence.
    + cbn in Hg'. assert (g' = g) by congruence. subst g'.
      intros H Ht _. split.
      * destruct (JoystickHotplugAdded_open_extends _ _ _ _ _
                    (resets_preference_extends SV HSV) H) as (post & Ep).
        rewrite Hr in Ep. cbn in Ep. rewrite Ep in Ht.
        change (post ++ E_OpenGamepad id (SDL_OpenGamepad L id)
                :: Msg (Initializing id) :: Msg (JoystickRemoved cur)
                :: E_CloseGamepad g :: E_CloseHaptic (m_pHaptic (info st))
                :: E_EnableJoystickInput 0 false :: DevMsg (AlreadyInitialized cur)
                :: E_CloseJoystick id :: E_OpenJoystick id true :: trace st)
          with (post ++ [E_OpenGamepad id (SDL_OpenGamepad L id);
                         Msg (Initializing id); Msg (JoystickRemoved cur);
                         E_CloseGamepad g; E_CloseHaptic (m_pHaptic (info st));
                         E_EnableJoystickInput 0 false;
                         DevMsg (AlreadyInitialized cur);
                         E_CloseJoystick id; E_OpenJoystick id true]
                     ++ trace st) in Ht.
        rewrite app_assoc in Ht. apply app_inv_tail in Ht. subst new.
        rewrite rev_app_distr. exists (rev post). reflexivity.
      * intros Hnone.
        destruct (JoystickHotplugAdded_open_cases SV L id
                    (JoystickHotplugRemoved cur s0))
          as [[_ E] | (g2 & _ & _ & Hg2 & _)]; [|congruence].
        rewrite E in H. inversion H; subst st'. cbn. rewrite Hi.
        cbn. repeat split.
Qed.

End SessionInvariant.

(** C1.  Over every sequence of calls of [JoystickHotplugAdded],
    [JoystickHotplugRemoved] and [SearchForDevice], started with no joystick
    active and with device layers that never hand out the id -1, the calls
    return (three units of fuel or more, any console-variable class), and at
    every point of the resulting trace at most one gamepad
    handle is open, every [SDL_OpenGamepad] being called while none is.
    Moreover, when a call of [JoystickHotplugAdded] made while a joystick is
    active opens a gamepad, the trace of that call first closes the haptic
    device and the handle of the active joystick; the device, haptic, id,
    button count and rumble flag are then reset, as can be seen when the new
    open fails. *)
Theorem C1_one_session_at_a_time {enums : InputEnums} {convar : ConVarImpl} :
  (forall (n : nat) (cs : list HotplugCall) (st : State),
      session_closed st -> trace st = [] ->
      forallb call_layer_valid cs = true ->
      exists st', hotplug_calls (S (S (S n))) cs st = Some st' /\
                  single_session (trace st') /\
                  (m_pDevice (info st') = None <-> m_nDeviceId (info st') = -1)) /\
  (forall (n : nat) (L : DeviceLayer) (id : Z) (st st' : State)
          (g : SDL_Gamepad) (new : list Effect),
      m_pDevice (info st) = Some g -> m_nDeviceId (info st) <> -1 ->
      JoystickHotplugAdded (S (S (S n))) L id st = Some st' ->
      trace st' = new ++ trace st -> Exists is_open_call new ->
      (exists post,
         rev new =
           [ E_OpenJoystick id true; E_CloseJoystick id;
             DevMsg (AlreadyInitialized (m_nDeviceId (info st)));
             E_EnableJoystickInput 0 false;
             E_CloseHaptic (m_pHaptic (info st)); E_CloseGamepad g;
             Msg (JoystickRemoved (m_nDeviceId (info st)));
             Msg (Initializing id); E_OpenGamepad id (SDL_OpenGamepad L id) ]
           ++ post) /\
      (SDL_OpenGamepad L id = None -> info_reset (info st'))).
Proof.
  split.
  - intros n cs st [Hd Hi] Ht Hv.
    assert (Hinv : session_inv st).
    { unfold session_inv. rewrite Hd, Hi, Ht. cbn. tauto. }
    destruct (session_inv_calls n cs Hv st Hinv) as (st' & E & Hc & _ & Hs).
    exists st'. auto.
  - intros. eapply replace_closes_first; eauto.
Qed.

(** C7.  When the notification names the active joystick, the first
    [JoystickHotplugRemoved] closes the haptic device and the gamepad once and
    resets the fields it assigns; delivering the same notification again adds
    one diagnostic to the trace and changes nothing else.  A notification for
    any id other than the current one leaves the whole state as it is, apart
    from the diagnostic (the trace is shown newest entry first). *)
Theorem C7_remove_idempotent :
  (forall (id : Z) (st : State) (g : SDL_Gamepad),
      m_nDeviceId (info st) = id -> m_pDevice (info st) = Some g ->
      let st1 := JoystickHotplugRemoved id st in
      let st2 := JoystickHotplugRemoved id st1 in
      trace st1 = Msg (JoystickRemoved id) :: E_CloseGamepad g
                  :: E_CloseHaptic (m_pHaptic (info st))
                  :: E_EnableJoystickInput 0 false :: trace st /\
      info_reset (info st1) /\
      exists d, st2 = emit (DevMsg d) st1) /\
  (forall (id : Z) (st : State),
      m_nDeviceId (info st) <> id ->
      JoystickHotplugRemoved id st =
        emit (DevMsg (IgnoringRemove id (m_nDeviceId (info st)))) st).
Proof.
  split.
  - intros id st g Hid Hd st1 st2.
    destruct (JoystickHotplugRemoved_cases id st)
      as (_ & [(Hne & _) | [(_ & Hnone & _) | (g' & _ & Hg' & Hi & Ht)]]);
      try congruence.
    assert (g' = g) by congruence. subst g'. fold st1 in Hi, Ht.
    split; [exact Ht|]. split; [rewrite Hi; cbn; repeat split|].
    subst st2. unfold JoystickHotplugRemoved at 1. rewrite Hi.
    cbn [m_nDeviceId m_pDevice m_pHaptic m_nButtonCount m_bRumbleEnabled
         m_fCurrentRumble].
    destruct (-1 =? id); cbn [negb].
    + eexists. rewrite <- Hi. destruct st1 as [[] ]; reflexivity.
    + eexists. reflexivity.
  - intros id st Hne. unfold JoystickHotplugRemoved.
    apply Z.eqb_neq in Hne. rewrite Hne. reflexivity.
Qed.

(* ------------------------------------------------------------------------- *)
(** ** The selection preference *)

Lemma probe_not_open (l : list Effect) :
  Forall is_probe_or_diagnostic l -> Forall not_open_call l.
Proof. apply Forall_impl. intros []; cbn; tauto. Qed.

Lemma haptic_setup_not_open (l : list Effect) :
  Forall is_haptic_setup l -> Forall not_open_call l.
Proof. apply Forall_impl. intros []; cbn; tauto. Qed.

Lemma not_open_opens_only (D : Z) (l : list Effect) :
  Forall not_open_call l -> Forall (opens_only D) l.
Proof. apply Forall_impl. intros []; cbn; tauto. Qed.

Section PreferenceFacts.
Context {enums : InputEnums} {convar : ConVarImpl}.

Lemma JoystickHotplugRemoved_trace (id : Z) (st : State) :
  exists r, trace (JoystickHotplugRemoved id st) = r ++ trace st /\
            Forall not_open_call r.
Proof.
  destruct (JoystickHotplugRemoved_cases id st)
    as (_ & [(_ & E) | [(_ & _ & _ & _ & E) | (g & _ & _ & _ & E)]]);
    rewrite E.
  - exists [DevMsg (IgnoringRemove id (m_nDeviceId (info st)))].
    split; [reflexivity | repeat constructor].
  - exists [DevMsg (RemoveForRemoved id)].
    split; [reflexivity | repeat constructor].
  - eexists [_; _; _; _]. split; [reflexivity | repeat constructor].
Qed.

(** The opening phase, summarised: it returns; a failed open leaves
    [joy_active] alone, a successful one resets it to -1. *)
Lemma JoystickHotplugAdded_open_summary SV (L : DeviceLayer) (id : Z)
    (st : State) :
  resets_preference SV ->
  exists st' post,
    JoystickHotplugAdded_open SV L id st = Some st' /\
    trace st' = post ++ trace st /\
    ((SDL_OpenGamepad L id = None /\ Forall (opens_only id) post /\
      ~ (exists x g, In (E_OpenGamepad x (Some g)) post) /\
      joy_active st' = joy_active st /\ info st' = info st) \/
     (exists g, SDL_OpenGamepad L id = Some g /\ joy_active st' = -1 /\
        (id <> -1 -> m_nDeviceId (info st') = id /\
                     Forall (opens_only id) post))).
Proof.
  intros HSV.
  destruct (JoystickHotplugAdded_open_cases SV L id st)
    as [[Hn E] | (g & st2 & mid & Hg & E & Hd & Hi & Hj & Ht & Hmid)];
    rewrite E; clear E.
  - eexists _, [_; _; _]. split; [reflexivity|]. split; [reflexivity|].
    left. split; [exact Hn|]. split; [repeat constructor|].
    split; [|split; reflexivity].
    intros (x & g & Hin). cbn in Hin.
    destruct Hin as [H|[H|[H|[]]]]; discriminate.
  - assert (Hpost : Forall (opens_only id)
                      (E_EnableJoystickInput 0 true
                       :: mid ++ [E_OpenGamepad id (Some g); Msg (Initializing id)])).
    { constructor; [exact I|]. apply Forall_app. split.
      - now apply not_open_opens_only, haptic_setup_not_open.
      - repeat constructor. }
    assert (Ht2 : trace st2 =
                  (E_EnableJoystickInput 0 true
                   :: mid ++ [E_OpenGamepad id (Some g); Msg (Initializing id)])
                  ++ trace st).
    { rewrite Ht. app_norm. reflexivity. }
    destruct (HSV st2) as (s' & new & E & Hnew & Hj' & Hact). rewrite E.
    exists s', (new ++ E_EnableJoystickInput 0 true
                :: mid ++ [E_OpenGamepad id (Some g); Msg (Initializing id)]).
    split; [reflexivity|]. split.
    { rewrite Hnew, Ht2. rewrite app_assoc. reflexivity. }
    right. exists g. split; [exact Hg|]. split; [exact Hj'|].
    intros Hid. destruct Hact as [Hs' Hprobe]; [lia|]. split.
    + rewrite Hs'. exact Hi.
    + apply Forall_app. split; [|exact Hpost].
      now apply not_open_opens_only, probe_not_open.
Qed.

(** [JoystickHotplugAdded], summarised. *)
Lemma JoystickHotplugAdded_summary (n : nat) (L : DeviceLayer) (id : Z)
    (st : State) :
  exists st' new,
    JoystickHotplugAdded (S (S (S n))) L id st = Some st' /\
    trace st' = new ++ trace st /\
    ((Forall is_probe_or_diagnostic new /\ st' = set_trace (new ++ trace st) st) \/
     ((joy_active st < 0 \/ joy_active st = id) /\
      ((SDL_OpenGamepad L id = None /\ Forall (opens_only id) new /\
        ~ (exists x g, In (E_OpenGamepad x (Some g)) new) /\
        joy_active st' = joy_active st) \/
       (exists g, SDL_OpenGamepad L id = Some g /\ joy_active st' = -1 /\
          (id <> -1 -> m_nDeviceId (info st') = id /\
                       Forall (opens_only id) new))))).
Proof.
  rewrite JoystickHotplugAdded_unfold.
  pose proof (SetValue_resets_preference n L) as HSV.
  set (SV := joy_active_SetValue
               (SearchForDevice_with (JoystickHotplugAdded (S (S n)) L) L)) in *.
  destruct (JoystickHotplugAdded_body_cases SV L id st)
    as [(new & Hnew & E) | (_ & _ & [(Hpol & _ & E) | (Hpol & _ & _ & _ & E)])];
    rewrite E; clear E.
  - exists (set_trace (new ++ trace st) st), new.
    split; [reflexivity|]. split; [reflexivity|]. left. auto.
  - match goal with
    | |- exists _ _, JoystickHotplugAdded_open _ L id ?s = _ /\ _ =>
        destruct (JoystickHotplugAdded_open_summary SV L id s HSV)
          as (st' & post & E & Ht & Hsum)
    end.
    exists st', (post ++ [E_CloseJoystick id; E_OpenJoystick id true]).
    split; [exact E|]. split.
    { rewrite Ht. cbn. rewrite <- app_assoc. reflexivity. }
    right. split; [exact Hpol|].
    destruct Hsum as [(Hn & Hop & Hno & Hj & _) | (g & Hg & Hj & Hrest)].
    + left. split; [exact Hn|]. split.
      { apply Forall_app. split; [exact Hop | repeat constructor]. }
      split; [|exact Hj].
      intros (x & g & Hin). apply in_app_or in Hin. destruct Hin as [Hin|Hin].
      * apply Hno. eauto.
      * cbn in Hin. destruct Hin as [H|[H|[]]]; discriminate.
    + right. exists g. split; [exact Hg|]. split; [exact Hj|].
      intros Hid. destruct (Hrest Hid) as [Hd Hop]. split; [exact Hd|].
      apply Forall_app. split; [exact Hop | repeat constructor].
  - match goal with
    | |- exists _ _, JoystickHotplugAdded_open _ L id
                       (JoystickHotplugRemoved ?c ?s) = _ /\ _ =>
        destruct (JoystickHotplugAdded_open_summary SV L id
                    (JoystickHotplugRemoved c s) HSV)
          as (st' & post & E & Ht & Hsum);
        destruct (JoystickHotplugRemoved_trace c s) as (r & Hr & Hrn);
        pose proof (proj1 (JoystickHotplugRemoved_cases c s)) as Hrj
    end.
    cbv zeta in Hrj. cbn [joy_active emit set_trace] in Hrj.
    set (tail3 := [DevMsg (AlreadyInitialized (m_nDeviceId (info st)));
                   E_CloseJoystick id; E_OpenJoystick id true]).
    exists st', (post ++ r ++ tail3).
    split; [exact E|]. split.
    { rewrite Ht, Hr. cbn. rewrite <- !app_assoc. reflexivity. }
    assert (Htail : Forall not_open_call (r ++ tail3)).
    { apply Forall_app. split; [exact Hrn | repeat constructor]. }
    right. split; [right; exact Hpol|].
    destruct Hsum as [(Hn & Hop & Hno & Hj & _) | (g & Hg & Hj & Hrest)].
    + left. split; [exact Hn|]. split.
      { apply Forall_app. split; [exact Hop|].
        now apply not_open_opens_only. }
      split; [|congruence].
      intros (x & g & Hin). apply in_app_or in Hin. destruct Hin as [Hin|Hin].
      * apply Hno. eauto.
      * rewrite Forall_forall in Htail. apply (Htail _ Hin).
    + right. exists g. split; [exact Hg|]. split; [exact Hj|].
      intros Hid. destruct (Hrest Hid) as [Hd Hop]. split; [exact Hd|].
      apply Forall_app. split; [exact Hop|]. now apply not_open_opens_only.
Qed.

End PreferenceFacts.

Section PreferenceTheorems.
Context {enums : InputEnums} {convar : ConVarImpl}.

Lemma preferring_other_id (D : Z) (n : nat) (L : DeviceLayer) (id : Z)
    (st : State) :
  0 <= D -> preferring D st -> id <> D ->
  exists new, Forall is_probe_or_diagnostic new /\
    JoystickHotplugAdded (S (S (S n))) L id st =
      Some (set_trace (new ++ trace st) st).
Proof.
  intros HD [Hp | [Hp Hcur]] Hne.
  - rewrite JoystickHotplugAdded_unfold.
    match goal with
    | |- context [JoystickHotplugAdded_body ?SV L id st] =>
        destruct (JoystickHotplugAdded_body_cases SV L id st)
          as [H | (_ & _ & [(Hpol & _) | (Hj & _)])]
    end.
    + exact H.
    + lia.
    + congruence.
  - now apply JoystickHotplugAdded_when_active.
Qed.

Lemma preferring_step (D : Z) (n : nat) (L : DeviceLayer) (id : Z) (st : State) :
  0 <= D -> preferring D st ->
  exists st' new,
    JoystickHotplugAdded (S (S (S n))) L id st = Some st' /\
    trace st' = new ++ trace st /\ Forall (opens_only D) new /\
    preferring D st'.
Proof.
  intros HD [Hp | [Hp Hcur]].
  - destruct (JoystickHotplugAdded_summary n L id st)
      as (st' & new & E & Ht & [[Hnew Hst] | [Hpol Hopen]]);
      exists st', new; (split; [exact E|]); (split; [exact Ht|]).
    + split; [now apply not_open_opens_only, probe_not_open|].
      left. rewrite Hst. exact Hp.
    + assert (id = D) by lia. subst id.
      destruct Hopen as [(_ & Hop & _ & Hj) | (g & _ & Hj & Hrest)].
      * split; [exact Hop|]. left. congruence.
      * destruct Hrest as [Hd Hop]; [lia|]. split; [exact Hop|].
        right. split; [exact Hj | lia].
  - destruct (JoystickHotplugAdded_when_active (S (S n)) L id st Hp Hcur)
      as (new & Hnew & E).
    rewrite E. eexists _, new. split; [reflexivity|].
    split; [reflexivity|].
    split; [now apply not_open_opens_only, probe_not_open|].
    right. cbn. auto.
Qed.

Lemma preferring_attach_calls (D : Z) (n : nat)
    (attached : list (DeviceLayer * Z)) :
  0 <= D -> forall st, preferring D st ->
  exists st' new,
    hotplug_calls (S (S (S n))) (attach_calls attached) st = Some st' /\
    trace st' = new ++ trace st /\ Forall (opens_only D) new /\
    preferring D st'.
Proof.
  intros HD. induction attached as [|[L id] rest IH]; intros st Hp.
  - exists st, []. repeat split; [constructor | exact Hp].
  - cbn [attach_calls map hotplug_calls hotplug_call fst snd].
    destruct (preferring_step D n L id st HD Hp) as (st1 & new1 & E & Ht & Ho & Hp1).
    rewrite E. destruct (IH st1 Hp1) as (st' & new & E' & Ht' & Ho' & Hp').
    exists st', (new ++ new1). split; [exact E'|]. split; [|split].
    + rewrite Ht', Ht. apply app_assoc.
    + apply Forall_app. auto.
    + exact Hp'.
Qed.

Lemma joy_active_stays_reset (n : nat) (cs : list HotplugCall) :
  forall st, joy_active st = -1 ->
  exists st', hotplug_calls (S (S (S n))) cs st = Some st' /\ joy_active st' = -1.
Proof.
  assert (Hadd : forall L id st, joy_active st = -1 ->
            exists st', JoystickHotplugAdded (S (S (S n))) L id st = Some st'
                        /\ joy_active st' = -1).
  { intros L id st Hp.
    destruct (JoystickHotplugAdded_summary n L id st)
      as (st' & new & E & _ & [[_ Hst] | [_ [(_ & _ & _ & Hj) | (g & _ & Hj & _)]]]);
      exists st'; (split; [exact E|]).
    - rewrite Hst. exact Hp.
    - congruence.
    - exact Hj. }
  induction cs as [|c cs IH]; intros st Hp; cbn [hotplug_calls].
  - eauto.
  - assert (H1 : exists st1, hotplug_call (S (S (S n))) c st = Some st1
                             /\ joy_active st1 = -1).
    { destruct c as [L id | id | L]; cbn [hotplug_call].
      - now apply Hadd.
      - eexists; split; [reflexivity|].
        rewrite (proj1 (JoystickHotplugRemoved_cases id st)). exact Hp.
      - unfold SearchForDevice, SearchForDevice_with. rewrite Hp.
        change (-1 <? 0) with true. cbv iota. now apply Hadd. }
    destruct H1 as (st1 & E & H1). rewrite E. now apply IH.
Qed.

End PreferenceTheorems.

(** C5.  Let the preference [joy_active] be a joystick id [D] (ids are not
    negative).  As long as it is, and also once opening [D] has consumed it
    ([preferring]), an attach notification for any other id returns with the
    state as it was, apart from the joystick probe and diagnostics added to
    the trace.  Over every sequence of attach notifications, every call of
    [SDL_OpenGamepad] that is made is for [D], and the state stays one of
    those two. *)
Theorem C5_preferred_device_only {enums : InputEnums} {convar : ConVarImpl}
    (D : Z) :
  0 <= D ->
  (forall (n : nat) (L : DeviceLayer) (id : Z) (st : State),
      preferring D st -> id <> D ->
      exists new, Forall is_probe_or_diagnostic new /\
        JoystickHotplugAdded (S (S (S n))) L id st =
          Some (set_trace (new ++ trace st) st)) /\
  (forall (n : nat) (attached : list (DeviceLayer * Z)) (st : State),
      joy_active st = D ->
      exists st' new,
        hotplug_calls (S (S (S n))) (attach_calls attached) st = Some st' /\
        trace st' = new ++ trace st /\ Forall (opens_only D) new /\
        preferring D st').
Proof.
  intros HD. split.
  - intros n L id st Hp Hne. now apply (preferring_other_id D).
  - intros n attached st Hp. apply preferring_attach_calls; [exact HD|].
    left. exact Hp.
Qed.

(** C8.  Whenever a call of [JoystickHotplugAdded] opens a gamepad
    successfully, [joy_active] is -1 when the call returns, whatever it was
    before.  From a state with [joy_active] at -1, every sequence of hotplug
    calls returns with [joy_active] still at -1, and an attach notification
    received while a joystick is active only probes and logs: the
    first-available policy. *)
Theorem C8_preference_consumed {enums : InputEnums} {convar : ConVarImpl} :
  (forall (n : nat) (L : DeviceLayer) (id : Z) (st st' : State)
          (new : list Effect) (x : Z) (g : SDL_Gamepad),
      JoystickHotplugAdded (S (S (S n))) L id st = Some st' ->
      trace st' = new ++ trace st -> In (E_OpenGamepad x (Some g)) new ->
      joy_active st' = -1) /\
  (forall (n : nat) (cs : list HotplugCall) (st : State),
      joy_active st = -1 ->
      exists st', hotplug_calls (S (S (S n))) cs st = Some st' /\
                  joy_active st' = -1) /\
  (forall (n : nat) (L : DeviceLayer) (id : Z) (st : State),
      joy_active st = -1 -> m_nDeviceId (info st) <> -1 ->
      exists new, Forall is_probe_or_diagnostic new /\
        JoystickHotplugAdded (S (S (S n))) L id st =
          Some (set_trace (new ++ trace st) st)).
Proof.
  split; [|split].
  - intros n L id st st' new x g E Ht Hin.
    destruct (JoystickHotplugAdded_summary n L id st)
      as (st'' & new' & E' & Ht' & Hsum).
    rewrite E in E'. inversion E'; subst st''. rewrite Ht in Ht'.
    apply app_inv_tail in Ht'. subst new'.
    destruct Hsum as [[Hnew _] | [_ [(_ & _ & Hno & _) | (g' & _ & Hj & _)]]].
    + rewrite Forall_forall in Hnew. specialize (Hnew _ Hin). contradiction.
    + exfalso. apply Hno. eauto.
    + exact Hj.
  - intros n cs st Hp. now apply joy_active_stays_reset.
  - intros n L id st Hp Hcur. now apply JoystickHotplugAdded_when_active.
Qed.

(* ------------------------------------------------------------------------- *)
(** ** Button and axis translation *)

Section TranslatorFacts.
Context {enums : InputEnums}.

Lemma unmapped_button (button : Z) :
  ~ In button button_table_keys ->
  ControllerButtonToButtonCode button = BUTTON_CODE_NONE.
Proof.
  intros Hn. unfold ControllerButtonToButtonCode.
  repeat match goal with
  | |- context [button =? ?k] =>
      let E := fresh "E" in
      destruct (button =? k) eqn:E;
      [ apply Z.eqb_eq in E; exfalso; apply Hn; rewrite E;
        unfold button_table_keys; cbn; tauto | ]
  end.
  reflexivity.
Qed.

Lemma trigger_axis_code (axis : Z) :
  is_trigger_axis axis ->
  ControllerAxisToAnalogCode axis = JOYSTICK_AXIS 0 JOY_AXIS_Z.
Proof. intros [-> | ->]; reflexivity. Qed.

Lemma trigger_axis_button (axis : Z) :
  is_trigger_axis axis ->
  trigger_button axis = KEY_XBUTTON_LTRIGGER \/
  trigger_button axis = KEY_XBUTTON_RTRIGGER.
Proof. intros [-> | ->]; cbn; auto. Qed.

(** The synthesised button leaves the analog state and the settings alone. *)
Lemma JoystickAxisMotion_trigger_fields (code value : Z) (st : State) :
  let st' := JoystickAxisMotion_trigger code value st in
  info st' = info st /\ m_bIsPolling st' = m_bIsPolling st /\
  m_InputState st' = m_InputState st /\
  joy_axis_deadzone st' = joy_axis_deadzone st /\
  joy_axisbutton_threshold st' = joy_axisbutton_threshold st /\
  m_nLastSampleTick st' = m_nLastSampleTick st /\
  analog_events_rev (trace st') = analog_events_rev (trace st).
Proof.
  unfold JoystickAxisMotion_trigger. repeat break_match; cbn; repeat split; auto.
Qed.

(** What an accepted sample does to its analog channel. *)
Lemma JoystickAxisMotion_channel (id axis value : Z) (st : State) :
  m_nDeviceId (info st) = id ->
  ControllerAxisToAnalogCode axis <> ANALOG_CODE_INVALID ->
  let code := ControllerAxisToAnalogCode axis in
  let st' := JoystickAxisMotion id axis value st in
  m_nDeviceId (info st') = id /\ m_bIsPolling st' = m_bIsPolling st /\
  joy_axis_deadzone st' = joy_axis_deadzone st /\
  m_pAnalogValue (current_input st') code = deadzone st value /\
  m_pAnalogDelta (current_input st') code =
    deadzone st value - m_pAnalogValue (current_input st) code /\
  analog_events_rev (trace st') =
    (if deadzone st value - m_pAnalogValue (current_input st) code =? 0
     then [] else [(code, deadzone st value)])
    ++ analog_events_rev (trace st).
Proof.
  intros Hid Hcode. cbv zeta. unfold JoystickAxisMotion.
  apply Z.eqb_eq in Hid. rewrite Hid. apply Z.eqb_neq in Hcode. rewrite Hcode.
  cbn [negb].
  destruct (JoystickAxisMotion_trigger_fields (trigger_button axis) value st)
    as (Hi & Hp & Hs & Hz & _ & _ & Ha).
  set (st1 := JoystickAxisMotion_trigger (trigger_button axis) value st) in *.
  assert (Hdz : deadzone st1 value = deadzone st value).
  { unfold deadzone. rewrite Hz. reflexivity. }
  rewrite Hdz. unfold JoystickAxisMotion_analog, current_input.
  rewrite Hp, Hs.
  destruct (deadzone st value
            - m_pAnalogValue (m_InputState st (m_bIsPolling st))
                (ControllerAxisToAnalogCode axis) =? 0);
    cbn; rewrite ?Hi, ?Hp, ?Ha; unfold updb, upd;
    rewrite Bool.eqb_reflx; cbn; rewrite Z.eqb_refl;
    apply Z.eqb_eq in Hid; repeat split; auto.
Qed.

End TranslatorFacts.

(** C3 (first half holds, second half does not).  For a raw button with no
    case in the switch of [ControllerButtonToButtonCode] the result is
    [BUTTON_CODE_NONE]; [JoystickButtonPress] and [JoystickButtonRelease] for
    the active joystick then post that very code to the host, without a
    check. *)
Theorem C3_unmapped_button_is_posted {enums : InputEnums}
    (id button : Z) (st : State) :
  m_nDeviceId (info st) = id -> ~ In button button_table_keys ->
  ControllerButtonToButtonCode button = BUTTON_CODE_NONE /\
  JoystickButtonPress id button st =
    emit (PostButtonPressedEvent (m_nLastSampleTick st)
            BUTTON_CODE_NONE BUTTON_CODE_NONE) st /\
  JoystickButtonRelease id button st =
    emit (PostButtonReleasedEvent (m_nLastSampleTick st)
            BUTTON_CODE_NONE BUTTON_CODE_NONE) st.
Proof.
  intros Hid Hn. pose proof (unmapped_button button Hn) as Hc.
  unfold JoystickButtonPress, JoystickButtonRelease.
  apply Z.eqb_eq in Hid. rewrite Hid, Hc. cbn. auto.
Qed.

(** C4 (the code does not do this).  With [joy_active] negative, which is
    what every successful open leaves behind, [SearchForDevice] offers
    joystick id 0 to [JoystickHotplugAdded] and nothing else; when 0 is not
    a recognised gamepad, the watcher's handling of a removal is the removal
    followed by one warning, whatever else is attached. *)
Theorem C4_search_offers_only_joystick_zero {enums : InputEnums}
    {convar : ConVarImpl} (n : nat) (L : DeviceLayer) (id : Z) (st : State) :
  joy_active st < 0 -> SDL_IsGamepad L 0 = false ->
  SearchForDevice (S n) L st = JoystickHotplugAdded (S n) L 0 st /\
  JoystickSDLWatcher (S n) L (SDL_EVENT_GAMEPAD_REMOVED id) st =
    Some (emit (Warning NotRecognized) (JoystickHotplugRemoved id st)).
Proof.
  intros Hp H0.
  assert (Hs : forall s, joy_active s < 0 ->
            SearchForDevice (S n) L s = JoystickHotplugAdded (S n) L 0 s).
  { intros s Hs. unfold SearchForDevice, SearchForDevice_with.
    apply Z.ltb_lt in Hs. rewrite Hs. reflexivity. }
  split; [now apply Hs|].
  cbn [JoystickSDLWatcher]. rewrite Hs.
  - cbn [JoystickHotplugAdded]. unfold JoystickHotplugAdded_body.
    rewrite H0. reflexivity.
  - rewrite (proj1 (JoystickHotplugRemoved_cases id st)). exact Hp.
Qed.

(** C9.  Both trigger axes translate to the channel [JOYSTICK_AXIS(0,
    JOY_AXIS_Z)].  For two consecutive samples of the active joystick on
    trigger axes [a1] and [a2] (the same or different triggers), the second
    sample overwrites the value the first one stored in that channel, the
    delta it stores is the difference between the two samples (after the
    dead zone), the first taken from [a1] and the second from [a2], and it
    posts an analog event exactly when that difference is not 0 (the trace
    is newest first). *)
Theorem C9_triggers_share_channel {enums : InputEnums}
    (id a1 a2 v1 v2 : Z) (st : State) :
  JOYSTICK_AXIS 0 JOY_AXIS_Z <> ANALOG_CODE_INVALID ->
  m_nDeviceId (info st) = id -> is_trigger_axis a1 -> is_trigger_axis a2 ->
  let z := JOYSTICK_AXIS 0 JOY_AXIS_Z in
  let st1 := JoystickAxisMotion id a1 v1 st in
  let st2 := JoystickAxisMotion id a2 v2 st1 in
  ControllerAxisToAnalogCode SDL_GAMEPAD_AXIS_LEFT_TRIGGER = z /\
  ControllerAxisToAnalogCode SDL_GAMEPAD_AXIS_RIGHT_TRIGGER = z /\
  m_pAnalogValue (current_input st1) z = deadzone st v1 /\
  m_pAnalogValue (current_input st2) z = deadzone st v2 /\
  m_pAnalogDelta (current_input st2) z = deadzone st v2 - deadzone st v1 /\
  analog_events_rev (trace st2) =
    (if deadzone st v2 - deadzone st v1 =? 0 then []
     else [(z, deadzone st v2)]) ++ analog_events_rev (trace st1).
Proof.
  intros Hz Hid H1 H2. cbv zeta.
  pose proof (trigger_axis_code a1 H1) as C1.
  pose proof (trigger_axis_code a2 H2) as C2.
  destruct (JoystickAxisMotion_channel id a1 v1 st Hid)
    as (Hid1 & Hp1 & Hd1 & Hv1 & _ & _); [rewrite C1; exact Hz|].
  destruct (JoystickAxisMotion_channel id a2 v2 _ Hid1)
    as (_ & _ & _ & Hv2 & Hdelta & Hev); [rewrite C2; exact Hz|].
  rewrite C1 in *. rewrite C2 in *.
  assert (Hdz : forall v, deadzone (JoystickAxisMotion id a1 v1 st) v
                          = deadzone st v).
  { intros v. unfold deadzone. rewrite Hd1. reflexivity. }
  rewrite Hdz in Hv2, Hdelta, Hev. rewrite Hv1 in Hdelta, Hev.
  repeat split; auto.
Qed.

(* ------------------------------------------------------------------------- *)
(** ** Trigger synthesis *)

Lemma press_threshold_default :
  F32.to_int (F32.mul (F32.lit 3 10) (F32.of_int 32767)) = 9830.
Proof. vm_compute. reflexivity. Qed.

Section TriggerFacts.
Context {enums : InputEnums}.

Lemma JoystickAxisMotion_analog_fields (code value : Z) (st : State) :
  let st' := JoystickAxisMotion_analog code value st in
  info st' = info st /\ m_appXKeys st' = m_appXKeys st /\
  joy_axisbutton_threshold st' = joy_axisbutton_threshold st /\
  button_events_rev (trace st') = button_events_rev (trace st).
Proof.
  unfold JoystickAxisMotion_analog. break_match; cbn; auto.
Qed.

(** One trigger sample with the threshold ratio at 0.3. *)
Lemma trigger_step (id axis v : Z) (st : State) :
  trigger_codes_ok -> m_nDeviceId (info st) = id ->
  joy_axisbutton_threshold st = F32.lit 3 10 -> is_trigger_axis axis ->
  let c := trigger_button axis in
  let k := c - KEY_XBUTTON_LTRIGGER in
  let st' := JoystickAxisMotion id axis v st in
  m_nDeviceId (info st') = id /\
  joy_axisbutton_threshold st' = F32.lit 3 10 /\
  m_appXKeys st' k = (if v >? 9830 then m_appXKeys st k + 1 else 0) /\
  button_events_rev (trace st') =
    (if v >? 9830
     then (if m_appXKeys st k <? 1 then [Pressed c] else [])
     else [Released c]) ++ button_events_rev (trace st).
Proof.
  intros (HL & HR & HZ) Hid Hthr Hax. cbv zeta. unfold JoystickAxisMotion.
  pose proof Hid as Hid'. apply Z.eqb_eq in Hid'. rewrite Hid'. cbn [negb].
  rewrite (trigger_axis_code axis Hax).
  apply Z.eqb_neq in HZ. rewrite HZ.
  match goal with
  | |- context [JoystickAxisMotion_analog ?code ?val ?s] =>
      destruct (JoystickAxisMotion_analog_fields code val s)
        as (Hi & Hk & Ht & Hb); rewrite Hi, Hk, Ht, Hb; clear Hi Hk Ht Hb
  end.
  assert (Hc : (trigger_button axis =? BUTTON_CODE_NONE) = false).
  { apply Z.eqb_neq. destruct (trigger_axis_button axis Hax) as [-> | ->]; auto. }
  unfold JoystickAxisMotion_trigger. rewrite Hc. cbn [negb].
  rewrite Hthr, press_threshold_default.
  destruct (v >? 9830).
  - destruct (m_appXKeys st (trigger_button axis - KEY_XBUTTON_LTRIGGER) <? 1);
      cbn; unfold upd; rewrite Z.eqb_refl; auto.
  - cbn. unfold upd. rewrite Z.eqb_refl. auto.
Qed.

End TriggerFacts.

(** C2, as the code has it.  With the threshold ratio at 0.3, the samples
    [0, 5000, 20000, 20000, 5000, 0] on a trigger axis of the active joystick
    add these events for the synthesised button, in this order: released,
    released, pressed, released, released.  The press is posted at the
    5000 to 20000 transition and once only; a release is posted at every
    sample at or below the threshold, so there are four releases. *)
Theorem C2_trigger_sequence {enums : InputEnums} (id axis : Z) (st : State) :
  trigger_codes_ok -> m_nDeviceId (info st) = id ->
  joy_axisbutton_threshold st = F32.lit 3 10 -> is_trigger_axis axis ->
  let c := trigger_button axis in
  let new := [Released c; Released c; Pressed c; Released c; Released c] in
  button_events (axis_samples id axis trigger_samples st)
    = button_events st ++ new /\
  count_pressed c new = 1%nat /\ count_released c new = 4%nat.
Proof.
  intros Hok Hid Hthr Hax. cbv zeta. split.
  - unfold axis_samples, trigger_samples. cbn [fold_left].
    destruct (trigger_step id axis 0 st Hok Hid Hthr Hax) as (I1 & T1 & K1 & B1).
    set (s1 := JoystickAxisMotion id axis 0 st) in *.
    destruct (trigger_step id axis 5000 s1 Hok I1 T1 Hax) as (I2 & T2 & K2 & B2).
    set (s2 := JoystickAxisMotion id axis 5000 s1) in *.
    destruct (trigger_step id axis 20000 s2 Hok I2 T2 Hax) as (I3 & T3 & K3 & B3).
    set (s3 := JoystickAxisMotion id axis 20000 s2) in *.
    destruct (trigger_step id axis 20000 s3 Hok I3 T3 Hax) as (I4 & T4 & K4 & B4).
    set (s4 := JoystickAxisMotion id axis 20000 s3) in *.
    destruct (trigger_step id axis 5000 s4 Hok I4 T4 Hax) as (I5 & T5 & K5 & B5).
    set (s5 := JoystickAxisMotion id axis 5000 s4) in *.
    destruct (trigger_step id axis 0 s5 Hok I5 T5 Hax) as (_ & _ & _ & B6).
    change (0 >? 9830) with false in *. change (5000 >? 9830) with false in *.
    change (20000 >? 9830) with true in *. cbv iota in *.
    rewrite K2 in B3, K3. change (0 <? 1) with true in B3. cbv iota in B3.
    rewrite K3 in B4. change (0 + 1 <? 1) with false in B4. cbv iota in B4.
    unfold button_events.
    rewrite B6, B5, B4, B3, B2, B1. cbn [app rev].
    rewrite <- !app_assoc. reflexivity.
  - unfold count_pressed, count_released. cbn. rewrite Z.eqb_refl. cbn. auto.
Qed.

(* ------------------------------------------------------------------------- *)
(** ** Rumble *)

(** C6, as the code has it.  A joystick is active with a haptic device and
    the "joystick" setting is on.  If the first of two consecutive calls
    plays (its averaged strength is not below 0.01 and is not within 0.01 of
    a strength already playing), and the averaged strength of the second is
    not below 0.01 either and within 0.01 of the first, then the two calls
    issue exactly one play command: the second call returns the state
    unchanged. *)
Theorem C6_rumble_suppression (L : DeviceLayer) (l1 r1 l2 r2 : F32.float)
    (userId : Z) (st : State) (h : SDL_Haptic) :
  0 <= m_nDeviceId (info st) -> m_pHaptic (info st) = Some h ->
  joystickVar st = Some true ->
  let s1 := rumble_strength l1 r1 in
  let s2 := rumble_strength l2 r2 in
  F32.ltb s1 (F32.lit 1 100) = false ->
  F32.ltb s2 (F32.lit 1 100) = false ->
  m_bRumbleEnabled (info st)
  && F32.ltb (F32.abs (F32.sub (m_fCurrentRumble (info st)) s1)) (F32.lit 1 100)
  = false ->
  F32.ltb (F32.abs (F32.sub s1 s2)) (F32.lit 1 100) = true ->
  let st1 := SetXDeviceRumble L l1 r1 userId st in
  let st2 := SetXDeviceRumble L l2 r2 userId st1 in
  play_commands (trace st1) = S (play_commands (trace st)) /\
  m_bRumbleEnabled (info st1) = true /\ m_fCurrentRumble (info st1) = s1 /\
  st2 = st1 /\ one_play_second_noop L l1 r1 l2 r2 userId st.
Proof.
  intros Hid Hh Hj s1 s2 H1 H2 Hfirst Hclose.
  assert (Hneg : (m_nDeviceId (info st) <? 0) = false) by (apply Z.ltb_ge; lia).
  assert (E1 : SetXDeviceRumble L l1 r1 userId st =
               let st := set_info (mkInfo (m_pDevice (info st)) (m_pHaptic (info st))
                                     (m_nDeviceId (info st)) (m_nButtonCount (info st))
                                     true s1) st in
               let r := SDL_PlayHapticRumble L h in
               let st := emit (E_PlayHapticRumble h s1 r) st in
               if negb (r =? 0) then emit (Warning (CouldntPlayRumble s1)) st
               else st).
  { unfold SetXDeviceRumble. rewrite Hneg, Hh, Hj.
    fold (rumble_strength l1 r1). fold s1. rewrite H1, Hfirst. reflexivity. }
  assert (P1 : play_commands (trace (SetXDeviceRumble L l1 r1 userId st))
               = S (play_commands (trace st))).
  { rewrite E1. cbv zeta. destruct (negb (SDL_PlayHapticRumble L h =? 0));
      reflexivity. }
  assert (I1 : info (SetXDeviceRumble L l1 r1 userId st)
               = mkInfo (m_pDevice (info st)) (Some h) (m_nDeviceId (info st))
                   (m_nButtonCount (info st)) true s1).
  { rewrite E1. cbv zeta. rewrite Hh.
    destruct (negb (SDL_PlayHapticRumble L h =? 0)); reflexivity. }
  assert (J1 : joystickVar (SetXDeviceRumble L l1 r1 userId st) = Some true).
  { rewrite E1. cbv zeta.
    destruct (negb (SDL_PlayHapticRumble L h =? 0)); exact Hj. }
  assert (E2 : SetXDeviceRumble L l2 r2 userId (SetXDeviceRumble L l1 r1 userId st)
               = SetXDeviceRumble L l1 r1 userId st).
  { unfold SetXDeviceRumble at 1. rewrite I1, J1.
    cbn [m_nDeviceId m_pHaptic m_bRumbleEnabled m_fCurrentRumble].
    rewrite Hneg. fold (rumble_strength l2 r2). fold s2.
    rewrite H2, Hclose. reflexivity. }
  cbv zeta. unfold one_play_second_noop. cbv zeta. rewrite E2, I1.
  repeat split; auto.
Qed.

(* ------------------------------------------------------------------------- *)
(** ** The ring buffer *)

Lemma nAvalible_wf (b : AudioBuf.t) :
  AudioBuf.wf b ->
  AudioBuf.nAvalible b = Some (AudioBuf.available b) /\
  AudioBuf.available b =
    (AudioBuf.size b + AudioBuf.writePtr b - AudioBuf.readPtr b)
      mod AudioBuf.size b /\
  0 <= AudioBuf.available b < AudioBuf.size b.
Proof.
  intros (Hs & _ & Hr & Hw). unfold AudioBuf.available, AudioBuf.nAvalible.
  assert (E : (AudioBuf.size b =? 0) = false) by (apply Z.eqb_neq; lia).
  rewrite E. split; [reflexivity|].
  rewrite Z.rem_mod_nonneg by lia.
  replace (AudioBuf.size b + (AudioBuf.writePtr b - AudioBuf.readPtr b))
    with (AudioBuf.size b + AudioBuf.writePtr b - AudioBuf.readPtr b) by lia.
  split; [reflexivity|]. apply Z.mod_pos_bound. lia.
Qed.

Lemma memcpy_from_length (b : AudioBuf.t) (off n : Z) (out : list byte) :
  AudioBuf.memcpy_from b off n = Some out ->
  0 <= n /\ Z.of_nat (length out) = n.
Proof.
  unfold AudioBuf.memcpy_from.
  destruct ((0 <=? off) && (0 <=? n)
            && (off + n <=? Z.of_nat (length (AudioBuf.data b)))) eqn:E;
    [|discriminate].
  intros H. injection H as <-. bool_hyps. split; [lia|].
  unfold AudioBuf.bytes_at. rewrite length_firstn, length_skipn. lia.
Qed.

Lemma memcpy_from_inside (b : AudioBuf.t) (off n : Z) :
  0 <= off -> 0 <= n -> off + n <= Z.of_nat (length (AudioBuf.data b)) ->
  AudioBuf.memcpy_from b off n = Some (AudioBuf.bytes_at b off n).
Proof.
  intros Ho Hn Hb. unfold AudioBuf.memcpy_from.
  assert (E : (0 <=? off) && (0 <=? n)
              && (off + n <=? Z.of_nat (length (AudioBuf.data b))) = true).
  { repeat (apply andb_true_iff; split); apply Z.leb_le; lia. }
  now rewrite E.
Qed.

(** What [Read] returns on a well-formed buffer for a length that is not
    negative. *)
Lemma Read_returns (b : AudioBuf.t) (len : Z) :
  AudioBuf.wf b -> 0 <= len ->
  let n := Z.min len (AudioBuf.available b) in
  AudioBuf.Read b len =
    Some (n,
          (if n >? AudioBuf.size b - AudioBuf.readPtr b
           then AudioBuf.bytes_at b (AudioBuf.readPtr b)
                  (AudioBuf.size b - AudioBuf.readPtr b)
                ++ AudioBuf.bytes_at b 0
                     (n - (AudioBuf.size b - AudioBuf.readPtr b))
           else AudioBuf.bytes_at b (AudioBuf.readPtr b) n),
          AudioBuf.mk (AudioBuf.size b) (AudioBuf.data b)
            (if AudioBuf.readPtr b + n >=? AudioBuf.size b
             then AudioBuf.readPtr b + n - AudioBuf.size b
             else AudioBuf.readPtr b + n)
            (AudioBuf.writePtr b)).
Proof.
  intros Hwf Hlen. cbv zeta.
  destruct (nAvalible_wf b Hwf) as (En & _ & Hav).
  destruct Hwf as (Hs & Hd & Hr & Hw).
  unfold AudioBuf.Read. rewrite En.
  destruct (AudioBuf.available b =? 0) eqn:E0.
  - apply Z.eqb_eq in E0. rewrite E0, Z.min_r by lia.
    assert (G : (0 >? AudioBuf.size b - AudioBuf.readPtr b) = false)
      by (rewrite Z.gtb_ltb; apply Z.ltb_ge; lia).
    rewrite G.
    assert (G' : (AudioBuf.readPtr b + 0 >=? AudioBuf.size b) = false)
      by (rewrite Z.geb_leb; apply Z.leb_gt; lia).
    rewrite G', Z.add_0_r. unfold AudioBuf.bytes_at. cbn [Z.to_nat firstn].
    now destruct b.
  - apply Z.eqb_neq in E0.
    assert (En' : (if len >? AudioBuf.available b then AudioBuf.available b
                   else len) = Z.min len (AudioBuf.available b)).
    { destruct (len >? AudioBuf.available b) eqn:G; rewrite Z.gtb_ltb in G;
        bool_hyps; lia. }
    rewrite En'. set (n := Z.min len (AudioBuf.available b)).
    assert (Hn : 0 <= n < AudioBuf.size b) by (subst n; lia).
    destruct (n >? AudioBuf.size b - AudioBuf.readPtr b) eqn:G;
      rewrite Z.gtb_ltb in G; bool_hyps.
    + rewrite !memcpy_from_inside by lia. reflexivity.
    + rewrite memcpy_from_inside by lia. reflexivity.
Qed.

(** C10, as the code has it.  Whenever [Read] returns, the value returned is
    the number of bytes copied out, and for a requested length that is not
    negative it is at most the smaller of that length and
    [(size + writePtr - readPtr) % size].  When [writePtr] equals [readPtr]
    and [size] is not 0 it returns 0, copies nothing and leaves the buffer
    as it is, whatever the length.  That is also the state after [size]
    bytes were written to an empty buffer: the write pointer wraps onto the
    read pointer and [Read] yields nothing.  On well-formed buffers the C
    remainder is the mathematical one and [Read] returns, for every length
    that is not negative, exactly the smaller of the two.  For a [size] of
    0 line 31 divides by zero and [Read] returns nothing at all. *)
Theorem C10_read_bounded :
  (forall (b : AudioBuf.t) (len n : Z) (out : list byte) (b' : AudioBuf.t),
      AudioBuf.Read b len = Some (n, out, b') ->
      Z.of_nat (length out) = n /\
      (0 <= len -> n <= Z.min len (AudioBuf.available b))) /\
  (forall (b : AudioBuf.t) (len : Z),
      AudioBuf.size b <> 0 -> AudioBuf.writePtr b = AudioBuf.readPtr b ->
      AudioBuf.Read b len = Some (0, [], b)) /\
  (forall (b : AudioBuf.t) (input : list byte),
      AudioBuf.wf b -> AudioBuf.writePtr b = AudioBuf.readPtr b ->
      Z.of_nat (length input) = AudioBuf.size b ->
      exists b', AudioBuf.Write b input = Some b' /\
                 AudioBuf.writePtr b' = AudioBuf.readPtr b' /\
                 AudioBuf.readPtr b' = AudioBuf.readPtr b /\
                 forall len, AudioBuf.Read b' len = Some (0, [], b')) /\
  (forall b : AudioBuf.t,
      AudioBuf.wf b ->
      AudioBuf.available b =
        (AudioBuf.size b + AudioBuf.writePtr b - AudioBuf.readPtr b)
          mod AudioBuf.size b) /\
  (forall (b : AudioBuf.t) (len : Z),
      AudioBuf.wf b -> 0 <= len ->
      exists out b',
        AudioBuf.Read b len = Some (Z.min len (AudioBuf.available b), out, b')) /\
  (forall (b : AudioBuf.t) (len : Z),
      AudioBuf.size b = 0 -> AudioBuf.Read b len = None).
Proof.
  assert (Hempty : forall b len,
             AudioBuf.size b <> 0 ->
             AudioBuf.writePtr b = AudioBuf.readPtr b ->
             AudioBuf.Read b len = Some (0, [], b)).
  { intros b len Hz Heq. unfold AudioBuf.Read, AudioBuf.nAvalible.
    apply Z.eqb_neq in Hz. rewrite Hz. apply Z.eqb_neq in Hz.
    rewrite Heq, Z.sub_diag, Z.add_0_r, Z.rem_same by exact Hz.
    reflexivity. }
  split; [|split; [exact Hempty|split; [|split; [|split]]]].
  - intros b len n out b' H. unfold AudioBuf.Read in H.
    unfold AudioBuf.available.
    destruct (AudioBuf.nAvalible b) as [a|]; [|discriminate].
    destruct (a =? 0) eqn:E.
    + injection H as <- <- <-. apply Z.eqb_eq in E. subst a.
      split; [reflexivity | lia].
    + set (l := if len >? a then a else len) in H.
      assert (Hl : l <= Z.min len a).
      { subst l. destruct (len >? a) eqn:G; rewrite Z.gtb_ltb in G;
          bool_hyps; lia. }
      destruct (l >? AudioBuf.size b - AudioBuf.readPtr b).
      * destruct (AudioBuf.memcpy_from b (AudioBuf.readPtr b)
                    (AudioBuf.size b - AudioBuf.readPtr b)) as [o1|] eqn:E1;
          [|discriminate].
        destruct (AudioBuf.memcpy_from b 0
                    (l - (AudioBuf.size b - AudioBuf.readPtr b))) as [o2|] eqn:E2;
          [|discriminate].
        injection H as <- <- <-.
        apply memcpy_from_length in E1, E2. rewrite length_app.
        split; lia.
      * destruct (AudioBuf.memcpy_from b (AudioBuf.readPtr b) l) as [o|] eqn:E1;
          [|discriminate].
        injection H as <- <- <-. apply memcpy_from_length in E1.
        split; lia.
  - intros b input (Hs & _ & Hr & Hw) Heq Hlen.
    unfold AudioBuf.Write. rewrite Hlen.
    destruct (AudioBuf.size b >? AudioBuf.size b - AudioBuf.writePtr b) eqn:G.
    + assert (Hfit : (AudioBuf.size b - (AudioBuf.size b - AudioBuf.writePtr b)
                      <=? AudioBuf.size b) = true) by (apply Z.leb_le; lia).
      rewrite Hfit.
      assert (Hge : (AudioBuf.writePtr b + AudioBuf.size b >=? AudioBuf.size b)
                    = true) by (rewrite Z.geb_leb; apply Z.leb_le; lia).
      rewrite Hge. eexists. split; [reflexivity|]. cbn.
      split; [lia|]. split; [reflexivity|].
      intros len. apply Hempty; cbn; lia.
    + assert (Hge : (AudioBuf.writePtr b + AudioBuf.size b >=? AudioBuf.size b)
                    = true) by (rewrite Z.geb_leb; apply Z.leb_le; lia).
      rewrite Hge. eexists. split; [reflexivity|]. cbn.
      split; [lia|]. split; [reflexivity|].
      intros len. apply Hempty; cbn; lia.
  - intros b Hwf. apply (nAvalible_wf b Hwf).
  - intros b len Hwf Hlen. eexists _, _. apply (Read_returns b len Hwf Hlen).
  - intros b len Hz. unfold AudioBuf.Read, AudioBuf.nAvalible.
    apply Z.eqb_eq in Hz. now rewrite Hz.
Qed.

(* ------------------------------------------------------------------------- *)
(** ** The theorems at concrete inputs

    Each lemma instantiates one theorem above with the SDK's enumeration
    values and console-variable class, sample devices and sample states, and
    lists the instances of its hypotheses next to its conclusion. *)

Lemma C1_witness :
  (session_closed (fresh_state (-1)) /\
   forallb call_layer_valid sample_calls = true) /\
  (exists st', hotplug_calls (enums := sdk_enums) (convar := sdk_convar) 3
                 sample_calls (fresh_state (-1))
               = Some st' /\
               single_session (trace st') /\
               (m_pDevice (info st') = None <-> m_nDeviceId (info st') = -1)) /\
  (exists post,
     history switched_state =
       [ E_OpenJoystick 2 true; E_CloseJoystick 2;
         DevMsg (AlreadyInitialized 1); E_EnableJoystickInput 0 false;
         E_CloseHaptic (Some (mkHaptic 1)); E_CloseGamepad (mkGamepad 1);
         Msg (JoystickRemoved 1); Msg (Initializing 2);
         E_OpenGamepad 2 (Some (mkGamepad 2)) ] ++ post).
Proof.
  split; [split; [split; reflexivity | reflexivity]|]. split.
  - apply (proj1 (C1_one_session_at_a_time (enums := sdk_enums)
                    (convar := sdk_convar)) 0%nat);
      [split; reflexivity | reflexivity | reflexivity].
  - pose proof (proj2 (C1_one_session_at_a_time (enums := sdk_enums)
                         (convar := sdk_convar)) 0%nat
                  [pad 1; pad 2] 2 switching_state switched_state (mkGamepad 1)
                  (trace switched_state)) as H.
    destruct H as [[post Hpost] _].
    + reflexivity.
    + cbn. lia.
    + vm_compute. reflexivity.
    + symmetry. apply app_nil_r.
    + vm_compute.
      repeat first [ apply Exists_cons_hd; exact I | apply Exists_cons_tl ].
    + exists post. exact Hpost.
Defined.

Lemma C5_witness :
  0 <= 2 /\
  (exists new, Forall is_probe_or_diagnostic new /\
     JoystickHotplugAdded (enums := sdk_enums) (convar := sdk_convar) 3
       [pad 1; pad 2] 1 (fresh_state 2)
     = Some (set_trace (new ++ trace (fresh_state 2)) (fresh_state 2))) /\
  (exists st' new,
     hotplug_calls (enums := sdk_enums) (convar := sdk_convar) 3
       (attach_calls [([pad 1], 1); ([pad 1; pad 2], 2); ([pad 1; pad 2; pad 3], 3)])
       (fresh_state 2) = Some st' /\
     trace st' = new ++ trace (fresh_state 2) /\ Forall (opens_only 2) new /\
     preferring 2 st').
Proof.
  split; [lia|]. split.
  - apply (proj1 (C5_preferred_device_only (enums := sdk_enums)
                    (convar := sdk_convar) 2 ltac:(lia)) 0%nat);
      [left; reflexivity | lia].
  - apply (proj2 (C5_preferred_device_only (enums := sdk_enums)
                    (convar := sdk_convar) 2 ltac:(lia)) 0%nat).
    reflexivity.
Defined.

Lemma C7_witness :
  (m_nDeviceId (info (active_state 1)) = 1 /\
   m_pDevice (info (active_state 1)) = Some (mkGamepad 1)) /\
  trace (JoystickHotplugRemoved 1 (active_state 1)) =
    Msg (JoystickRemoved 1) :: E_CloseGamepad (mkGamepad 1)
    :: E_CloseHaptic (m_pHaptic (info (active_state 1)))
    :: E_EnableJoystickInput 0 false :: trace (active_state 1) /\
  info_reset (info (JoystickHotplugRemoved 1 (active_state 1))) /\
  exists d, JoystickHotplugRemoved 1 (JoystickHotplugRemoved 1 (active_state 1))
            = emit (DevMsg d) (JoystickHotplugRemoved 1 (active_state 1)).
Proof.
  split; [split; reflexivity|].
  apply (proj1 C7_remove_idempotent 1 (active_state 1) (mkGamepad 1));
    reflexivity.
Defined.

Lemma C8_witness :
  JoystickHotplugAdded (enums := sdk_enums) (convar := sdk_convar) 3 [pad 2] 2
    (fresh_state 2) = Some preferred_opened_state /\
  In (E_OpenGamepad 2 (Some (mkGamepad 2))) (trace preferred_opened_state) /\
  joy_active (fresh_state 2) = 2 /\
  joy_active preferred_opened_state = -1.
Proof.
  assert (Hin : In (E_OpenGamepad 2 (Some (mkGamepad 2)))
                  (trace preferred_opened_state)).
  { vm_compute. tauto. }
  assert (Hrun : JoystickHotplugAdded (enums := sdk_enums) (convar := sdk_convar)
                   3 [pad 2] 2 (fresh_state 2)
                 = Some preferred_opened_state).
  { vm_compute. reflexivity. }
  split; [exact Hrun|]. split; [exact Hin|]. split; [reflexivity|].
  apply (proj1 (C8_preference_consumed (enums := sdk_enums)
                  (convar := sdk_convar)) 0%nat [pad 2] 2
           (fresh_state 2) preferred_opened_state
           (trace preferred_opened_state) 2 (mkGamepad 2)).
  - exact Hrun.
  - symmetry. apply app_nil_r.
  - exact Hin.
Defined.

Lemma C3_witness :
  (m_nDeviceId (info (active_state 1)) = 1 /\
   ~ In SDL_GAMEPAD_BUTTON_MISC1 button_table_keys) /\
  ControllerButtonToButtonCode (enums := sdk_enums) SDL_GAMEPAD_BUTTON_MISC1 = 0 /\
  JoystickButtonPress (enums := sdk_enums) 1 SDL_GAMEPAD_BUTTON_MISC1 (active_state 1)
    = emit (PostButtonPressedEvent 0 0 0) (active_state 1) /\
  JoystickButtonRelease (enums := sdk_enums) 1 SDL_GAMEPAD_BUTTON_MISC1 (active_state 1)
    = emit (PostButtonReleasedEvent 0 0 0) (active_state 1).
Proof.
  assert (Hn : ~ In SDL_GAMEPAD_BUTTON_MISC1 button_table_keys).
  { cbv. intuition discriminate. }
  split; [split; [reflexivity | exact Hn]|].
  apply (C3_unmapped_button_is_posted (enums := sdk_enums) 1
           SDL_GAMEPAD_BUTTON_MISC1 (active_state 1)); [reflexivity | exact Hn].
Defined.

Lemma C4_witness :
  (joy_active (active_state 1) < 0 /\ SDL_IsGamepad [pad 2] 0 = false /\
   SDL_IsGamepad [pad 2] 2 = true) /\
  SearchForDevice (enums := sdk_enums) (convar := sdk_convar) 3 [pad 2]
      (active_state 1)
    = JoystickHotplugAdded (enums := sdk_enums) (convar := sdk_convar) 3 [pad 2] 0
        (active_state 1) /\
  JoystickSDLWatcher (enums := sdk_enums) (convar := sdk_convar) 3 [pad 2]
      (SDL_EVENT_GAMEPAD_REMOVED 1) (active_state 1)
    = Some (emit (Warning NotRecognized)
              (JoystickHotplugRemoved 1 (active_state 1))).
Proof.
  split; [split; [cbn; lia | split; reflexivity]|].
  apply (C4_search_offers_only_joystick_zero (enums := sdk_enums)
           (convar := sdk_convar) 2 [pad 2] 1
           (active_state 1)); [cbn; lia | reflexivity].
Defined.
Lemma C9_witness :
  (JOYSTICK_AXIS (InputEnums := sdk_enums) 0 (JOY_AXIS_Z (InputEnums := sdk_enums))
     <> ANALOG_CODE_INVALID (InputEnums := sdk_enums) /\
   m_nDeviceId (info (active_state 1)) = 1) /\
  ControllerAxisToAnalogCode (enums := sdk_enums) SDL_GAMEPAD_AXIS_LEFT_TRIGGER = 6 /\
  ControllerAxisToAnalogCode (enums := sdk_enums) SDL_GAMEPAD_AXIS_RIGHT_TRIGGER = 6 /\
  m_pAnalogValue
    (current_input
       (JoystickAxisMotion (enums := sdk_enums) 1 SDL_GAMEPAD_AXIS_LEFT_TRIGGER 20000
          (active_state 1))) 6 = 20000 /\
  m_pAnalogValue
    (current_input
       (JoystickAxisMotion (enums := sdk_enums) 1 SDL_GAMEPAD_AXIS_RIGHT_TRIGGER 8000
          (JoystickAxisMotion (enums := sdk_enums) 1 SDL_GAMEPAD_AXIS_LEFT_TRIGGER
             20000 (active_state 1)))) 6 = 8000 /\
  m_pAnalogDelta
    (current_input
       (JoystickAxisMotion (enums := sdk_enums) 1 SDL_GAMEPAD_AXIS_RIGHT_TRIGGER 8000
          (JoystickAxisMotion (enums := sdk_enums) 1 SDL_GAMEPAD_AXIS_LEFT_TRIGGER
             20000 (active_state 1)))) 6 = 8000 - 20000 /\
  analog_events_rev
    (trace
       (JoystickAxisMotion (enums := sdk_enums) 1 SDL_GAMEPAD_AXIS_RIGHT_TRIGGER 8000
          (JoystickAxisMotion (enums := sdk_enums) 1 SDL_GAMEPAD_AXIS_LEFT_TRIGGER
             20000 (active_state 1))))
  = [(6, 8000)]
    ++ analog_events_rev
         (trace
            (JoystickAxisMotion (enums := sdk_enums) 1
               SDL_GAMEPAD_AXIS_LEFT_TRIGGER 20000 (active_state 1))).
Proof.
  assert (Hz : JOYSTICK_AXIS (InputEnums := sdk_enums) 0
                 (JOY_AXIS_Z (InputEnums := sdk_enums))
               <> ANALOG_CODE_INVALID (InputEnums := sdk_enums)).
  { cbn. lia. }
  split; [split; [exact Hz | reflexivity]|].
  pose proof (C9_triggers_share_channel (enums := sdk_enums) 1
                SDL_GAMEPAD_AXIS_LEFT_TRIGGER SDL_GAMEPAD_AXIS_RIGHT_TRIGGER
                20000 8000 (active_state 1) Hz eq_refl
                (or_introl eq_refl) (or_intror eq_refl)) as H.
  cbv zeta in H.
  assert (D1 : deadzone (active_state 1) 20000 = 20000) by (vm_compute; reflexivity).
  assert (D2 : deadzone (active_state 1) 8000 = 8000) by (vm_compute; reflexivity).
  rewrite D1, D2 in H. exact H.
Defined.

Lemma C2_witness :
  (trigger_codes_ok (enums := sdk_enums) /\
   m_nDeviceId (info (active_state 1)) = 1 /\
   joy_axisbutton_threshold (active_state 1) = F32.lit 3 10 /\
   is_trigger_axis SDL_GAMEPAD_AXIS_LEFT_TRIGGER) /\
  button_events
    (axis_samples (enums := sdk_enums) 1 SDL_GAMEPAD_AXIS_LEFT_TRIGGER
       trigger_samples (active_state 1))
  = button_events (active_state 1)
    ++ [Released 154; Released 154; Pressed 154; Released 154; Released 154] /\
  count_pressed 154
    [Released 154; Released 154; Pressed 154; Released 154; Released 154] = 1%nat /\
  count_released 154
    [Released 154; Released 154; Pressed 154; Released 154; Released 154] = 4%nat.
Proof.
  assert (Hok : trigger_codes_ok (enums := sdk_enums)).
  { unfold trigger_codes_ok. cbn. lia. }
  split; [split; [exact Hok | split; [reflexivity | split; [reflexivity | left; reflexivity]]]|].
  exact (C2_trigger_sequence (enums := sdk_enums) 1 SDL_GAMEPAD_AXIS_LEFT_TRIGGER
           (active_state 1) Hok eq_refl eq_refl (or_introl eq_refl)).
Defined.

(** The sequence of C2 on the left trigger of active joystick 1: four
    releases are posted, so "exactly one pressed and exactly one released"
    does not hold. *)
Lemma C2_counterexample :
  count_released 154
    (button_events
       (axis_samples (enums := sdk_enums) 1 SDL_GAMEPAD_AXIS_LEFT_TRIGGER
          trigger_samples (active_state 1))) = 4%nat /\
  ~ one_press_one_release 154
      (button_events
         (axis_samples (enums := sdk_enums) 1 SDL_GAMEPAD_AXIS_LEFT_TRIGGER
            trigger_samples (active_state 1))).
Proof.
  assert (H : count_released 154
                (button_events
                   (axis_samples (enums := sdk_enums) 1 SDL_GAMEPAD_AXIS_LEFT_TRIGGER
                      trigger_samples (active_state 1))) = 4%nat).
  { vm_compute. reflexivity. }
  split; [exact H|]. intros [_ H1]. rewrite H in H1. discriminate.
Qed.

Lemma C6_witness :
  (0 <= m_nDeviceId (info (active_state 1)) /\
   m_pHaptic (info (active_state 1)) = Some (mkHaptic 1) /\
   joystickVar (active_state 1) = Some true /\
   F32.ltb (F32.abs (F32.sub (rumble_strength (F32.lit 5 10) (F32.lit 5 10))
                             (rumble_strength (F32.lit 505 1000) (F32.lit 505 1000))))
           (F32.lit 1 100) = true) /\
  SetXDeviceRumble [pad 1] (F32.lit 505 1000) (F32.lit 505 1000) 0
    (SetXDeviceRumble [pad 1] (F32.lit 5 10) (F32.lit 5 10) 0 (active_state 1))
  = SetXDeviceRumble [pad 1] (F32.lit 5 10) (F32.lit 5 10) 0 (active_state 1) /\
  one_play_second_noop [pad 1] (F32.lit 5 10) (F32.lit 5 10)
    (F32.lit 505 1000) (F32.lit 505 1000) 0 (active_state 1).
Proof.
  assert (Hc : F32.ltb (F32.abs (F32.sub (rumble_strength (F32.lit 5 10) (F32.lit 5 10))
                             (rumble_strength (F32.lit 505 1000) (F32.lit 505 1000))))
           (F32.lit 1 100) = true) by (vm_compute; reflexivity).
  split; [split; [cbn; lia | split; [reflexivity | split; [reflexivity | exact Hc]]]|].
  pose proof (C6_rumble_suppression [pad 1] (F32.lit 5 10) (F32.lit 5 10)
                (F32.lit 505 1000) (F32.lit 505 1000) 0 (active_state 1)
                (mkHaptic 1)) as H.
  cbv zeta in H.
  destruct H as (_ & _ & _ & H2 & H3).
  - cbn. lia.
  - reflexivity.
  - reflexivity.
  - vm_compute. reflexivity.
  - vm_compute. reflexivity.
  - vm_compute. reflexivity.
  - exact Hc.
  - split; [exact H2 | exact H3].
Defined.

(** Joystick 1 rumbles at 0.5 with the "joystick" setting on.  Strengths
    0.005 and then 0.0125 differ by less than 0.01, yet the first call stops
    the rumble (0.005 is below 0.01) and the second starts it again: the
    second call changes the rumble flag. *)
Lemma C6_counterexample :
  (m_pDevice (info (rumbling_state 1 (F32.lit 5 10))) = Some (mkGamepad 1) /\
   m_pHaptic (info (rumbling_state 1 (F32.lit 5 10))) = Some (mkHaptic 1) /\
   m_bRumbleEnabled (info (rumbling_state 1 (F32.lit 5 10))) = true /\
   joystickVar (rumbling_state 1 (F32.lit 5 10)) = Some true /\
   F32.ltb (F32.abs (F32.sub (rumble_strength (F32.lit 5 1000) (F32.lit 5 1000))
                             (rumble_strength (F32.lit 125 10000) (F32.lit 125 10000))))
           (F32.lit 1 100) = true) /\
  ~ one_play_second_noop [pad 1] (F32.lit 5 1000) (F32.lit 5 1000)
      (F32.lit 125 10000) (F32.lit 125 10000) 0 (rumbling_state 1 (F32.lit 5 10)).
Proof.
  split.
  - repeat split; vm_compute; reflexivity.
  - unfold one_play_second_noop. intros (_ & H & _).
    vm_compute in H. discriminate.
Qed.

Lemma C10_witness :
  (0 <= 3 /\ AudioBuf.wf sample_buffer /\ AudioBuf.wf wrapped_buffer /\
   AudioBuf.size sample_buffer <> 0 /\
   AudioBuf.writePtr sample_buffer = AudioBuf.readPtr sample_buffer /\
   AudioBuf.Read wrapped_buffer 3
   = Some (2, [x0d; x0a], AudioBuf.mk 4 [x0a; x0b; x0c; x0d] 1 1)) /\
  (Z.of_nat (length [x0d; x0a]) = 2 /\
   (0 <= 3 -> 2 <= Z.min 3 (AudioBuf.available wrapped_buffer))) /\
  AudioBuf.Read sample_buffer 3 = Some (0, [], sample_buffer) /\
  (exists b', AudioBuf.Write sample_buffer [x01; x02; x03; x04] = Some b' /\
              AudioBuf.writePtr b' = AudioBuf.readPtr b' /\
              AudioBuf.readPtr b' = AudioBuf.readPtr sample_buffer /\
              forall len, AudioBuf.Read b' len = Some (0, [], b')) /\
  AudioBuf.available sample_buffer =
    (AudioBuf.size sample_buffer + AudioBuf.writePtr sample_buffer
     - AudioBuf.readPtr sample_buffer) mod AudioBuf.size sample_buffer /\
  (exists out b',
     AudioBuf.Read wrapped_buffer 3
     = Some (Z.min 3 (AudioBuf.available wrapped_buffer), out, b')) /\
  AudioBuf.Read zero_buffer 3 = None.
Proof.
  assert (Hwf : AudioBuf.wf sample_buffer).
  { unfold AudioBuf.wf. cbn. lia. }
  assert (Hwf' : AudioBuf.wf wrapped_buffer).
  { unfold AudioBuf.wf. cbn. lia. }
  assert (Hnz : AudioBuf.size sample_buffer <> 0) by (cbn; lia).
  assert (Hr : AudioBuf.Read wrapped_buffer 3
               = Some (2, [x0d; x0a], AudioBuf.mk 4 [x0a; x0b; x0c; x0d] 1 1))
    by reflexivity.
  assert (H3 : 0 <= 3) by lia.
  split; [repeat split; auto; try apply Hwf; apply Hwf'|].
  destruct C10_read_bounded as (H1 & H2 & H4 & H5 & H6 & H7).
  split; [exact (H1 _ _ _ _ _ Hr)|].
  split; [exact (H2 sample_buffer 3 Hnz eq_refl)|].
  split; [exact (H4 sample_buffer [x01; x02; x03; x04] Hwf eq_refl eq_refl)|].
  split; [exact (H5 sample_buffer Hwf)|].
  split; [exact (H6 wrapped_buffer 3 Hwf' H3)|].
  exact (H7 zero_buffer 3 eq_refl).
Defined.

(** The buffer of size 0 has its write pointer on its read pointer, yet
    [Read] returns nothing: line 31 divides by zero.  And on an empty
    buffer of size 4 a requested length of -1 gives 0, which is more than
    the smaller of -1 and 0. *)
Lemma C10_counterexample :
  (AudioBuf.writePtr zero_buffer = AudioBuf.readPtr zero_buffer /\
   AudioBuf.Read zero_buffer 1 = None /\
   AudioBuf.Read sample_buffer (-1) = Some (0, [], sample_buffer)) /\
  ~ returns_zero_when_empty zero_buffer 1 /\
  ~ returns_at_most_min zero_buffer 1 /\
  ~ returns_at_most_min sample_buffer (-1).
Proof.
  split; [repeat split|]. split; [|split].
  - intros H. destruct (H eq_refl) as (out & b' & E). discriminate E.
  - intros (n & out & b' & E & _). discriminate E.
  - intros (n & out & b' & E & H). injection E as <- _ _.
    vm_compute in H. apply H. reflexivity.
Qed.

(* ------------------------------------------------------------------------- *)
(** ** Haptic handles and rumble commands in the trace *)

Lemma plain_is_neutral (l : list Effect) :
  Forall is_plain l -> Forall is_neutral l.
Proof. apply Forall_impl. intros []; cbn; tauto. Qed.

Lemma plain_is_not_haptic (l : list Effect) :
  Forall is_plain l -> Forall is_not_haptic l.
Proof. apply Forall_impl. intros []; cbn; tauto. Qed.

Lemma probe_is_plain (l : list Effect) :
  Forall is_probe_or_diagnostic l -> Forall is_plain l.
Proof. apply Forall_impl. intros []; cbn; tauto. Qed.

Lemma haptic_open_quiet (new t : list Effect) (h : SDL_Haptic) :
  Forall is_not_haptic new -> haptic_open (new ++ t) h = haptic_open t h.
Proof.
  induction 1 as [|e new He _ IH]; [reflexivity|].
  destruct e; cbn in *; try tauto; exact IH.
Qed.

Lemma playing_quiet (new t : list Effect) :
  Forall is_not_haptic new -> playing (new ++ t) = playing t.
Proof.
  induction 1 as [|e new He _ IH]; [reflexivity|].
  destruct e; cbn in *; try tauto; exact IH.
Qed.

Lemma rumble_safe_quiet (new t : list Effect) :
  Forall is_not_haptic new -> rumble_safe t -> rumble_safe (new ++ t).
Proof.
  intros Hn Ht. induction Hn as [|e new He _ IH]; [exact Ht|].
  destruct e; cbn in *; try tauto; exact IH.
Qed.

Lemma rumble_inv_quiet (st st' : State) (new : list Effect) :
  rumble_inv st -> m_pHaptic (info st') = m_pHaptic (info st) ->
  m_bRumbleEnabled (info st') = m_bRumbleEnabled (info st) ->
  trace st' = new ++ trace st -> Forall is_not_haptic new -> rumble_inv st'.
Proof.
  unfold rumble_inv. intros (Hh & Hp & Hs) Eh Er Et Hn.
  rewrite Eh, Er, Et. split; [|split].
  - intros h E. rewrite haptic_open_quiet by exact Hn. now apply Hh.
  - intros E. rewrite playing_quiet by exact Hn. now apply Hp.
  - now apply rumble_safe_quiet.
Qed.

Lemma haptic_eqb_refl (h : SDL_Haptic) : haptic_eqb h h = true.
Proof. apply Z.eqb_refl. Qed.

Section RumbleInvariant.
Context {enums : InputEnums} {convar : ConVarImpl}.

Lemma rumble_inv_removed (id : Z) (st : State) :
  rumble_inv st -> rumble_inv (JoystickHotplugRemoved id st).
Proof.
  intros Hinv. unfold JoystickHotplugRemoved.
  destruct (negb (m_nDeviceId (info st) =? id)).
  - eapply rumble_inv_quiet with (new := [_]); [eassumption | reflexivity ..|].
    repeat constructor.
  - destruct (m_pDevice (info st)) as [g|].
    + destruct Hinv as (Hh & Hp & Hs). unfold rumble_inv. cbn.
      rewrite SetJoyXControllerFound_trace. cbn.
      split; [discriminate|]. split; [discriminate|]. exact Hs.
    + eapply rumble_inv_quiet with (new := [_]); [eassumption | reflexivity ..|].
      repeat constructor.
Qed.

(** The opening phase, for the rumble invariant: it needs nothing of the
    state it starts from but a safe trace. *)
Lemma rumble_inv_open SV (L : DeviceLayer) (id : Z) (st : State) :
  resets_preference SV -> layer_ids_valid L = true -> rumble_inv st ->
  exists st', JoystickHotplugAdded_open SV L id st = Some st' /\ rumble_inv st'.
Proof.
  intros HSV Hv Hinv. unfold JoystickHotplugAdded_open.
  destruct (SDL_OpenGamepad L id) as [g|] eqn:Hg.
  2:{ eexists. split; [reflexivity|].
      eapply rumble_inv_quiet with (new := [_; _; _]); [eassumption | reflexivity ..|].
      repeat constructor. }
  assert (Hid : id <> -1) by (eapply SDL_OpenGamepad_valid; eauto).
  assert (Hgid : SDL_GetJoystickID g = id) by (eapply SDL_OpenGamepad_id; eauto).
  set (s1 := emit (E_OpenGamepad id (Some g)) (emit (Msg (Initializing id)) st)).
  assert (H1 : rumble_safe (trace s1)) by (cbn; apply Hinv).
  match goal with
  | |- exists st', SV (-1) ?s = Some st' /\ _ => set (st2 := s)
  end.
  assert (H2 : rumble_inv st2 /\ m_nDeviceId (info st2) = id).
  { subst st2. unfold JoystickHotplugAdded_haptic.
    destruct (SDL_OpenHapticFromJoystick L g) as [h|]; cbn [fst snd].
    - destruct (negb (SDL_InitHapticRumble L h =? 0)); cbn [fst snd];
        unfold rumble_inv; cbn; rewrite SetJoyXControllerFound_info,
          SetJoyXControllerFound_trace; cbn;
        (split; [|exact Hgid]).
      + split; [discriminate|]. split; [discriminate | exact H1].
      + split; [|split; [discriminate | exact H1]].
        intros h' E. inversion E; subst h'. now rewrite haptic_eqb_refl.
    - unfold rumble_inv; cbn. rewrite SetJoyXControllerFound_info,
        SetJoyXControllerFound_trace. cbn. split; [|exact Hgid].
      split; [discriminate|]. split; [discriminate | exact H1]. }
  destruct H2 as [H2 Hi2].
  destruct (HSV st2) as (s' & new & E & _ & _ & Hact).
  destruct Hact as [Hs' Hnew]; [lia|].
  exists s'. split; [exact E|].
  eapply rumble_inv_quiet with (st := st2) (new := new); eauto.
  - rewrite Hs'. reflexivity.
  - rewrite Hs'. reflexivity.
  - rewrite Hs'. reflexivity.
  - now apply plain_is_not_haptic, probe_is_plain.
Qed.

Lemma rumble_inv_added (n : nat) (L : DeviceLayer) (id : Z) (st : State) :
  layer_ids_valid L = true -> rumble_inv st ->
  exists st', JoystickHotplugAdded (S (S (S n))) L id st = Some st'
              /\ rumble_inv st'.
Proof.
  intros Hv Hinv. rewrite JoystickHotplugAdded_unfold.
  pose proof (SetValue_resets_preference n L) as HSV.
  set (SV := joy_active_SetValue
               (SearchForDevice_with (JoystickHotplugAdded (S (S n)) L) L)) in *.
  destruct (JoystickHotplugAdded_body_cases SV L id st)
    as [(new & Hnew & E) | (_ & _ & [(_ & Hc & E) | (_ & _ & Hc & _ & E)])];
    rewrite E; clear E.
  - eexists; split; [reflexivity|].
    eapply rumble_inv_quiet with (new := new); [eassumption | reflexivity ..|].
    now apply plain_is_not_haptic, probe_is_plain.
  - apply rumble_inv_open; [exact HSV | exact Hv |].
    eapply rumble_inv_quiet with (new := [_; _]); [eassumption | reflexivity ..|].
    repeat constructor.
  - apply rumble_inv_open; [exact HSV | exact Hv |]. apply rumble_inv_removed.
    eapply rumble_inv_quiet with (new := [_; _; _]); [eassumption | reflexivity ..|].
    repeat constructor.
Qed.

Lemma rumble_inv_search_loop (added : Z -> State -> option State)
    (L : DeviceLayer) (ids : list Z) :
  (forall id st, rumble_inv st ->
     exists st', added id st = Some st' /\ rumble_inv st') ->
  forall st, rumble_inv st ->
  exists st', SearchForDevice_loop added L ids st = Some st' /\ rumble_inv st'.
Proof.
  intros Hadd. induction ids as [|id ids IH]; intros st Hinv;
    cbn [SearchForDevice_loop].
  - eauto.
  - set (st1 := emit (E_OpenJoystick id (SDL_OpenJoystick L id)) st).
    assert (H1 : rumble_inv st1).
    { eapply rumble_inv_quiet with (new := [_]); [eassumption | reflexivity ..|].
      repeat constructor. }
    destruct (SDL_OpenJoystick L id).
    + destruct (Hadd id st1 H1) as (st2 & E & H2).
      rewrite E. apply IH. exact H2.
    + apply IH. exact H1.
Qed.

Lemma rumble_inv_search (n : nat) (L : DeviceLayer) (st : State) :
  layer_ids_valid L = true -> rumble_inv st ->
  exists st', SearchForDevice (S (S (S n))) L st = Some st' /\ rumble_inv st'.
Proof.
  intros Hv Hinv. unfold SearchForDevice, SearchForDevice_with.
  destruct (joy_active st <? 0).
  - now apply rumble_inv_added.
  - apply rumble_inv_search_loop; [|exact Hinv].
    intros id s Hs. now apply rumble_inv_added.
Qed.

End RumbleInvariant.

(* ------------------------------------------------------------------------- *)
(** ** Input events and rumble calls *)

Section InputFacts.
Context {enums : InputEnums} {convar : ConVarImpl}.

(** The three input handlers leave the session alone; what they add to the
    trace are host events and warnings. *)
Lemma JoystickButtonPress_plain (id button : Z) (st : State) :
  let st' := JoystickButtonPress id button st in
  info st' = info st /\ joy_active st' = joy_active st /\
  exists new, trace st' = new ++ trace st /\ Forall is_plain new.
Proof.
  unfold JoystickButtonPress.
  destruct (negb (m_nDeviceId (info st) =? id)); cbn;
    (split; [reflexivity|]); (split; [reflexivity|]);
    eexists [_]; (split; [reflexivity | repeat constructor]).
Qed.

Lemma JoystickButtonRelease_plain (id button : Z) (st : State) :
  let st' := JoystickButtonRelease id button st in
  info st' = info st /\ joy_active st' = joy_active st /\
  exists new, trace st' = new ++ trace st /\ Forall is_plain new.
Proof.
  unfold JoystickButtonRelease.
  destruct (negb (m_nDeviceId (info st) =? id)); cbn;
    (split; [reflexivity|]); (split; [reflexivity|]).
  - exists []. split; [reflexivity | constructor].
  - eexists [_]. split; [reflexivity | repeat constructor].
Qed.

Lemma JoystickAxisMotion_plain (id axis value : Z) (st : State) :
  let st' := JoystickAxisMotion id axis value st in
  info st' = info st /\ joy_active st' = joy_active st /\
  exists new, trace st' = new ++ trace st /\ Forall is_plain new.
Proof.
  unfold JoystickAxisMotion.
  destruct (negb (m_nDeviceId (info st) =? id)).
  { do 2 (split; [reflexivity|]). exists []. split; [reflexivity | constructor]. }
  destruct (ControllerAxisToAnalogCode axis =? ANALOG_CODE_INVALID).
  { do 2 (split; [reflexivity|]). eexists [_].
    split; [reflexivity | repeat constructor]. }
  unfold JoystickAxisMotion_analog, JoystickAxisMotion_trigger.
  destruct (negb (trigger_button axis =? BUTTON_CODE_NONE)).
  - destruct (value >? _).
    + destruct (m_appXKeys st _ <? 1);
        match goal with
        | |- context [if negb (?d =? 0) then _ else _] => destruct (negb (d =? 0))
        end; cbn; do 2 (split; [reflexivity|]);
        first [ exists []; split; [reflexivity | constructor]
              | eexists [_]; split; [reflexivity | repeat constructor]
              | eexists [_; _]; split; [reflexivity | repeat constructor] ].
    + match goal with
      | |- context [if negb (?d =? 0) then _ else _] => destruct (negb (d =? 0))
      end; cbn; do 2 (split; [reflexivity|]);
        first [ eexists [_]; split; [reflexivity | repeat constructor]
              | eexists [_; _]; split; [reflexivity | repeat constructor] ].
  - match goal with
    | |- context [if negb (?d =? 0) then _ else _] => destruct (negb (d =? 0))
    end; cbn; do 2 (split; [reflexivity|]);
      first [ exists []; split; [reflexivity | constructor]
            | eexists [_]; split; [reflexivity | repeat constructor] ].
Qed.

(** The ways [SetXDeviceRumble] can go. *)
Lemma SetXDeviceRumble_cases (L : DeviceLayer) (l r : F32.float) (userId : Z)
    (st : State) :
  let st' := SetXDeviceRumble L l r userId st in
  m_pDevice (info st') = m_pDevice (info st) /\
  m_pHaptic (info st') = m_pHaptic (info st) /\
  m_nDeviceId (info st') = m_nDeviceId (info st) /\
  joy_active st' = joy_active st /\
  (st' = st \/
   (exists h, m_pHaptic (info st) = Some h /\
      m_bRumbleEnabled (info st) = true /\
      m_bRumbleEnabled (info st') = false /\
      trace st' = E_StopHapticRumble h :: trace st) \/
   (exists h w, m_pHaptic (info st) = Some h /\
      m_bRumbleEnabled (info st') = true /\
      m_fCurrentRumble (info st') = rumble_strength l r /\
      Forall is_plain w /\
      trace st' = w ++ E_PlayHapticRumble h (rumble_strength l r)
                         (SDL_PlayHapticRumble L h) :: trace st)).
Proof.
  unfold SetXDeviceRumble. fold (rumble_strength l r).
  destruct (m_nDeviceId (info st) <? 0); [repeat split; auto|].
  destruct (m_pHaptic (info st)) as [h|] eqn:Hh; [|repeat split; auto].
  match goal with
  | |- context [if ?c then (if m_bRumbleEnabled _ then _ else _) else _] =>
      destruct c
  end.
  - destruct (m_bRumbleEnabled (info st)) eqn:Hr; [|repeat split; auto].
    cbn. rewrite ?Hh. repeat split; auto. right; left. exists h. auto.
  - match goal with
    | |- context [if ?c then st else _] => destruct c
    end; [repeat split; auto|].
    destruct (negb (SDL_PlayHapticRumble L h =? 0)); cbn; rewrite ?Hh;
      repeat split; auto; right; right.
    + exists h, [Warning (CouldntPlayRumble (rumble_strength l r))].
      repeat split; auto. repeat constructor.
    + exists h, []. repeat split; auto.
Qed.

Lemma rumble_inv_rumble (L : DeviceLayer) (l r : F32.float) (userId : Z)
    (st : State) :
  rumble_inv st -> rumble_inv (SetXDeviceRumble L l r userId st).
Proof.
  intros Hinv.
  destruct (SetXDeviceRumble_cases L l r userId st)
    as (_ & Eh & _ & _ & [E | [(h & Hh & Hr & Hr' & Et)
                              | (h & w & Hh & Hr' & _ & Hw & Et)]]).
  - rewrite E. exact Hinv.
  - destruct Hinv as (Ho & Hp & Hs). unfold rumble_inv.
    rewrite Eh, Hr', Et. cbn. split; [exact Ho|]. split; [discriminate|].
    split; [now apply Ho|]. split; [now apply Hp | exact Hs].
  - destruct Hinv as (Ho & Hp & Hs). unfold rumble_inv.
    rewrite Eh, Et.
    assert (Hq : Forall is_not_haptic w) by now apply plain_is_not_haptic.
    split; [|split].
    + intros h' E. rewrite haptic_open_quiet by exact Hq. cbn. now apply Ho.
    + intros _. rewrite playing_quiet by exact Hq. reflexivity.
    + apply rumble_safe_quiet; [exact Hq|]. cbn. split; [now apply Ho | exact Hs].
Qed.

Lemma session_inv_rumble (L : DeviceLayer) (l r : F32.float) (userId : Z)
    (st : State) :
  session_inv st -> session_inv (SetXDeviceRumble L l r userId st).
Proof.
  intros (Hc & Hl & Hs).
  assert (Hgen : forall st' new, m_pDevice (info st') = m_pDevice (info st) ->
            m_nDeviceId (info st') = m_nDeviceId (info st) ->
            trace st' = new ++ trace st -> Forall is_neutral new ->
            session_inv st').
  { intros st' new Ed Ei Et Hn. unfold session_inv. rewrite Ed, Ei, Et.
    rewrite live_neutral by exact Hn.
    split; [exact Hc|]. split; [exact Hl|]. now apply single_session_neutral. }
  destruct (SetXDeviceRumble_cases L l r userId st)
    as (Ed & _ & Ei & _ & [E | [(h & _ & _ & _ & Et)
                               | (h & w & _ & _ & _ & Hw & Et)]]).
  - rewrite E. repeat split; auto; apply Hc.
  - apply (Hgen _ [E_StopHapticRumble h] Ed Ei Et). repeat constructor.
  - apply (Hgen _ (w ++ [E_PlayHapticRumble h (rumble_strength l r)
                           (SDL_PlayHapticRumble L h)]) Ed Ei).
    + rewrite Et, <- app_assoc. reflexivity.
    + apply Forall_app. split; [now apply plain_is_neutral | repeat constructor].
Qed.

Lemma entry_inv_plain (st st' : State) (new : list Effect) :
  entry_inv_holds st -> info st' = info st -> trace st' = new ++ trace st ->
  Forall is_plain new -> entry_inv_holds st'.
Proof.
  intros [Hs Hr] Ei Et Hn. split.
  - eapply session_inv_neutral; eauto. now apply plain_is_neutral.
  - eapply rumble_inv_quiet; eauto; try (rewrite Ei; reflexivity).
    now apply plain_is_not_haptic.
Qed.

Lemma entry_inv_watcher (n : nat) (L : DeviceLayer) (event : SDL_Event)
    (st : State) :
  layer_ids_valid L = true -> entry_inv_holds st ->
  exists st', JoystickSDLWatcher (S (S (S n))) L event st = Some st' /\
              entry_inv_holds st'.
Proof.
  intros Hv Hinv. destruct event as [w a v | w b | w b | w | w |];
    cbn [JoystickSDLWatcher].
  - eexists; split; [reflexivity|].
    destruct (JoystickAxisMotion_plain w a v st) as (Ei & _ & new & Et & Hn).
    eapply entry_inv_plain; eauto.
  - eexists; split; [reflexivity|].
    destruct (JoystickButtonPress_plain w b st) as (Ei & _ & new & Et & Hn).
    eapply entry_inv_plain; eauto.
  - eexists; split; [reflexivity|].
    destruct (JoystickButtonRelease_plain w b st) as (Ei & _ & new & Et & Hn).
    eapply entry_inv_plain; eauto.
  - destruct Hinv as [Hs Hr].
    destruct (session_inv_added n L w st Hv Hs) as (s1 & E1 & H1).
    destruct (rumble_inv_added n L w st Hv Hr) as (s2 & E2 & H2).
    rewrite E1 in E2. inversion E2; subst s2. exists s1.
    split; [exact E1|]. split; assumption.
  - destruct Hinv as [Hs Hr].
    pose proof (session_inv_removed w st Hs) as Hs'.
    pose proof (rumble_inv_removed w st Hr) as Hr'.
    destruct (session_inv_search n L _ Hv Hs') as (s1 & E1 & H1).
    destruct (rumble_inv_search n L _ Hv Hr') as (s2 & E2 & H2).
    rewrite E1 in E2. inversion E2; subst s2. exists s1.
    split; [exact E1|]. split; assumption.
  - eauto.
Qed.

Lemma entry_inv_set (n : nat) (L : DeviceLayer) (v : Z) (st : State) :
  layer_ids_valid L = true -> entry_inv_holds st ->
  exists st', joy_active_set (S (S (S n))) L v st = Some st' /\
              entry_inv_holds st'.
Proof.
  intros Hv [Hs Hr]. unfold joy_active_set, joy_active_SetValue,
    joy_active_changed_f.
  assert (Hs' : session_inv (set_joy_active v st)) by exact Hs.
  assert (Hr' : rumble_inv (set_joy_active v st)) by exact Hr.
  destruct (change_callback_runs (joy_active st) v).
  - destruct (session_inv_search n L _ Hv Hs') as (s1 & E1 & H1).
    destruct (rumble_inv_search n L _ Hv Hr') as (s2 & E2 & H2).
    rewrite E1 in E2. inversion E2; subst s2. exists s1.
    split; [exact E1|]. split; assumption.
  - eexists. split; [reflexivity|]. split; assumption.
Qed.

Lemma entry_inv_calls (n : nat) (cs : list InputCall) :
  forallb input_call_layer_valid cs = true -> forall st, entry_inv_holds st ->
  exists st', input_calls (S (S (S n))) cs st = Some st' /\ entry_inv_holds st'.
Proof.
  induction cs as [|c cs IH]; intros Hv st Hinv.
  - cbn. eauto.
  - cbn [forallb] in Hv. apply andb_true_iff in Hv. destruct Hv as [Hc Hcs].
    cbn [input_calls].
    assert (H1 : exists st1, input_call (S (S (S n))) c st = Some st1
                             /\ entry_inv_holds st1).
    { destruct c as [L e | L v | L l r u];
        cbn [input_call input_call_layer_valid] in *.
      - now apply entry_inv_watcher.
      - now apply entry_inv_set.
      - eexists; split; [reflexivity|]. destruct Hinv as [Hs Hr]. split.
        + now apply session_inv_rumble.
        + now apply rumble_inv_rumble. }
    destruct H1 as (st1 & E & H1). rewrite E. now apply IH.
Qed.

End InputFacts.

Lemma info_reset_entry_inv (st : State) :
  info_reset (info st) -> trace st = [] -> entry_inv_holds st.
Proof.
  intros (Hh & Hd & _ & Hi & Hr) Ht. split.
  - unfold session_inv. rewrite Hd, Hi, Ht. cbn. tauto.
  - unfold rumble_inv. rewrite Hh, Hr, Ht. cbn.
    split; [discriminate|]. split; [discriminate | exact I].
Qed.

(** One session at a time, over every entry point.  Start with no joystick
    active and an empty trace, and let SDL events reach the watcher, the
    console set [joy_active], and the game call [SetXDeviceRumble], in any
    order and number (device layers never hand out the id -1).  Every call
    returns, at every point of the trace at most one gamepad handle is open,
    and the device id is -1 exactly when no handle is held. *)
Theorem entry_points_keep_one_session {enums : InputEnums}
    {convar : ConVarImpl} (n : nat) (cs : list InputCall) (st : State) :
  info_reset (info st) -> trace st = [] ->
  forallb input_call_layer_valid cs = true ->
  exists st', input_calls (S (S (S n))) cs st = Some st' /\
    single_session (trace st') /\
    (m_pDevice (info st') = None <-> m_nDeviceId (info st') = -1) /\
    live (trace st') = match m_pDevice (info st') with Some _ => 1 | None => 0 end.
Proof.
  intros Hi Ht Hv.
  destruct (entry_inv_calls n cs Hv st (info_reset_entry_inv st Hi Ht))
    as (st' & E & (Hc & Hl & Hs) & _).
  exists st'. split; [exact E|]. split; [exact Hs|]. split; [exact Hc | exact Hl].
Qed.

(** Rumble commands never reach a closed handle.  Over the same sequences
    of calls, every [SDL_PlayHapticRumble] and [SDL_StopHapticRumble] of the
    trace is sent to a haptic handle that [SDL_OpenHapticFromJoystick]
    returned and [SDL_CloseHaptic] has not closed since, every stop follows
    a play, and the handle the state holds at the end is open. *)
Theorem rumble_commands_reach_open_handles {enums : InputEnums}
    {convar : ConVarImpl} (n : nat) (cs : list InputCall) (st : State) :
  info_reset (info st) -> trace st = [] ->
  forallb input_call_layer_valid cs = true ->
  exists st', input_calls (S (S (S n))) cs st = Some st' /\
    rumble_safe (trace st') /\
    forall h, m_pHaptic (info st') = Some h -> haptic_open (trace st') h = true.
Proof.
  intros Hi Ht Hv.
  destruct (entry_inv_calls n cs Hv st (info_reset_entry_inv st Hi Ht))
    as (st' & E & _ & (Ho & _ & Hs)).
  exists st'. split; [exact E|]. split; [exact Hs | exact Ho].
Qed.


(* ------------------------------------------------------------------------- *)
(** ** Axis samples in general *)

Section AxisFacts.
Context {enums : InputEnums}.

(** One trigger sample, whatever the threshold. *)
Lemma trigger_sample (id axis v : Z) (st : State) :
  trigger_codes_ok -> m_nDeviceId (info st) = id -> is_trigger_axis axis ->
  let c := trigger_button axis in
  let k := c - KEY_XBUTTON_LTRIGGER in
  let st' := JoystickAxisMotion id axis v st in
  m_nDeviceId (info st') = id /\
  press_threshold st' = press_threshold st /\
  m_appXKeys st' k =
    (if v >? press_threshold st then m_appXKeys st k + 1 else 0) /\
  button_events_rev (trace st') =
    (if v >? press_threshold st
     then (if m_appXKeys st k <? 1 then [Pressed c] else [])
     else [Released c]) ++ button_events_rev (trace st).
Proof.
  intros (HL & HR & HZ) Hid Hax. cbv zeta. unfold JoystickAxisMotion.
  pose proof Hid as Hid'. apply Z.eqb_eq in Hid'. rewrite Hid'. cbn [negb].
  rewrite (trigger_axis_code axis Hax).
  apply Z.eqb_neq in HZ. rewrite HZ. unfold press_threshold.
  match goal with
  | |- context [JoystickAxisMotion_analog ?code ?val ?s] =>
      destruct (JoystickAxisMotion_analog_fields code val s)
        as (Hi & Hk & Ht & Hb); rewrite Hi, Hk, Ht, Hb; clear Hi Hk Ht Hb
  end.
  assert (Hc : (trigger_button axis =? BUTTON_CODE_NONE) = false).
  { apply Z.eqb_neq. destruct (trigger_axis_button axis Hax) as [-> | ->]; auto. }
  unfold JoystickAxisMotion_trigger. rewrite Hc. cbn [negb].
  destruct (v >? _).
  - destruct (m_appXKeys st (trigger_button axis - KEY_XBUTTON_LTRIGGER) <? 1);
      cbn; unfold upd; rewrite Z.eqb_refl; auto.
  - cbn. unfold upd. rewrite Z.eqb_refl. auto.
Qed.

End AxisFacts.

(** A trigger as a button, for every sample sequence and threshold.  For
    samples of one trigger axis of the active joystick (the key's repeat
    count is not negative and cannot overflow), the events posted for the
    synthesised button are all for that button; a press is posted exactly
    at each sample above the threshold that follows one at or below it, a
    release at every sample at or below the threshold; and no press follows
    a press without a release in between. *)
Theorem trigger_presses_once_per_crossing {enums : InputEnums}
    (id axis : Z) (values : list Z) :
  trigger_codes_ok -> is_trigger_axis axis ->
  let c := trigger_button axis in
  let k := c - KEY_XBUTTON_LTRIGGER in
  forall st : State,
  m_nDeviceId (info st) = id -> 0 <= m_appXKeys st k ->
  m_appXKeys st k + Z.of_nat (length values) <= F32.INT_MAX ->
  exists new,
    button_events (axis_samples id axis values st) = button_events st ++ new /\
    Forall (fun e => e = Pressed c \/ e = Released c) new /\
    count_pressed c new
      = rising_edges (press_threshold st) (1 <=? m_appXKeys st k) values /\
    count_released c new
      = length (filter (fun v => v <=? press_threshold st) values) /\
    no_double_press c (1 <=? m_appXKeys st k) new = true.
Proof.
  intros Hok Hax c k.
  induction values as [|v rest IH]; intros st Hid Hk Hmax.
  - exists []. cbn. rewrite app_nil_r. repeat split. constructor.
  - unfold axis_samples. cbn [fold_left].
    destruct (trigger_sample id axis v st Hok Hid Hax) as (I1 & T1 & K1 & B1).
    fold c k in K1, B1.
    set (s1 := JoystickAxisMotion id axis v st) in *.
    assert (Hk1 : 0 <= m_appXKeys s1 k).
    { rewrite K1. destruct (v >? press_threshold st); lia. }
    assert (Hmax1 : m_appXKeys s1 k + Z.of_nat (length rest) <= F32.INT_MAX).
    { rewrite K1. cbn [length] in Hmax.
      destruct (v >? press_threshold st); lia. }
    destruct (IH s1 I1 Hk1 Hmax1) as (new & En & Hall & Hp & Hr & Hnd).
    fold (axis_samples id axis rest s1). rewrite En. rewrite T1 in Hp, Hr.
    assert (Hheld : (1 <=? m_appXKeys s1 k) = (v >? press_threshold st)).
    { rewrite K1. destruct (v >? press_threshold st).
      - apply Z.leb_le. lia.
      - reflexivity. }
    rewrite Hheld in Hp, Hnd.
    assert (Hlt : (m_appXKeys st k <? 1) = negb (1 <=? m_appXKeys st k)).
    { destruct (1 <=? m_appXKeys st k) eqn:E; bool_hyps; cbn;
        [apply Z.ltb_ge | apply Z.ltb_lt]; lia. }
    unfold button_events at 1. rewrite B1, Hlt, rev_app_distr.
    fold (button_events st). rewrite <- app_assoc.
    eexists. split; [reflexivity|].
    cbn [rising_edges filter].
    unfold count_pressed, count_released in *.
    rewrite !filter_app, !length_app, Hp, Hr.
    assert (Hcc : (c =? c) = true) by apply Z.eqb_refl.
    destruct (v >? press_threshold st) eqn:Ev.
    + assert (Ele : (v <=? press_threshold st) = false)
        by (apply Z.leb_gt; bool_hyps; lia).
      rewrite Ele.
      destruct (1 <=? m_appXKeys st k); cbn [negb andb rev app filter length
        is_pressed is_released no_double_press]; rewrite ?Hcc;
        cbn [length Nat.add negb andb]; repeat split; auto.
    + assert (Ele : (v <=? press_threshold st) = true).
      { apply Z.leb_le. rewrite Z.gtb_ltb in Ev. bool_hyps. lia. }
      rewrite Ele. cbn [negb andb rev app filter length
        is_pressed is_released no_double_press]; rewrite ?Hcc;
        cbn [length Nat.add negb andb].
      repeat split; auto; rewrite ?Hr; lia.
Qed.


(** An axis the translation has no case for is rejected.  For the active
    joystick and an axis outside the six cases of
    [ControllerAxisToAnalogCode], the translation gives
    [ANALOG_CODE_INVALID] and [JoystickAxisMotion] warns and returns: no
    event is posted and no state is written, trigger axes or not. *)
Theorem unknown_axis_only_warns {enums : InputEnums}
    (id axis value : Z) (st : State) :
  m_nDeviceId (info st) = id -> ~ In axis axis_table_keys ->
  ControllerAxisToAnalogCode axis = ANALOG_CODE_INVALID /\
  JoystickAxisMotion id axis value st
    = emit (Warning (InvalidAxisCode axis)) st.
Proof.
  intros Hid Hn.
  assert (Hc : ControllerAxisToAnalogCode axis = ANALOG_CODE_INVALID).
  { unfold ControllerAxisToAnalogCode.
    repeat match goal with
    | |- context [axis =? ?k] =>
        let E := fresh "E" in
        destruct (axis =? k) eqn:E;
        [ apply Z.eqb_eq in E; exfalso; apply Hn; rewrite E;
          unfold axis_table_keys; cbn; tauto | ]
    end.
    reflexivity. }
  split; [exact Hc|].
  unfold JoystickAxisMotion. apply Z.eqb_eq in Hid. rewrite Hid, Hc.
  rewrite Z.eqb_refl. reflexivity.
Qed.

(** An accepted axis sample writes its own channel and nothing else of the
    input state.  For the active joystick and an axis with a channel, the
    channel of the current input state holds the sample after the dead zone
    (0 when the sample's magnitude is below the dead-zone limit, the sample
    itself otherwise), the delta stored is the change of the channel, and an
    analog event carrying the new value is posted exactly when the channel
    changed; every other channel and the other input state keep their
    values. *)
Theorem axis_sample_writes_one_channel {enums : InputEnums}
    (id axis value : Z) (st : State) :
  m_nDeviceId (info st) = id ->
  ControllerAxisToAnalogCode axis <> ANALOG_CODE_INVALID ->
  let code := ControllerAxisToAnalogCode axis in
  let x := if Z.abs value <? dead_zone_min st then 0 else value in
  let old := m_pAnalogValue (current_input st) code in
  let st' := JoystickAxisMotion id axis value st in
  m_pAnalogValue (current_input st') code = x /\
  m_pAnalogDelta (current_input st') code = x - old /\
  analog_events_rev (trace st') =
    (if x - old =? 0 then [] else [(code, x)]) ++ analog_events_rev (trace st) /\
  (forall c, c <> code ->
     m_pAnalogValue (current_input st') c = m_pAnalogValue (current_input st) c /\
     m_pAnalogDelta (current_input st') c = m_pAnalogDelta (current_input st) c) /\
  m_InputState st' (negb (m_bIsPolling st))
    = m_InputState st (negb (m_bIsPolling st)).
Proof.
  intros Hid Hcode. cbv zeta.
  destruct (JoystickAxisMotion_channel id axis value st Hid Hcode)
    as (_ & Hp & _ & Hv & Hd & He).
  change (if Z.abs value <? dead_zone_min st then 0 else value)
    with (deadzone st value).
  split; [exact Hv|]. split; [exact Hd|]. split; [exact He|].
  unfold JoystickAxisMotion.
  apply Z.eqb_eq in Hid. rewrite Hid. apply Z.eqb_neq in Hcode. rewrite Hcode.
  cbn [negb].
  destruct (JoystickAxisMotion_trigger_fields (trigger_button axis) value st)
    as (_ & Hp1 & Hs1 & _).
  set (st1 := JoystickAxisMotion_trigger (trigger_button axis) value st) in *.
  unfold JoystickAxisMotion_analog, current_input. rewrite Hp1, Hs1.
  split.
  - intros c Hc. apply Z.eqb_neq in Hc.
    match goal with
    | |- context [if negb (?d =? 0) then _ else _] => destruct (negb (d =? 0))
    end; cbn; rewrite Hp1; unfold updb, upd; rewrite Bool.eqb_reflx; cbn;
      rewrite Hc; auto.
  - match goal with
    | |- context [if negb (?d =? 0) then _ else _] => destruct (negb (d =? 0))
    end; cbn; unfold updb; destruct (m_bIsPolling st); reflexivity.
Qed.

(** Jitter inside the dead zone is silent.  While the channel of an axis of
    the active joystick holds 0, samples whose magnitude is below the
    dead-zone limit, however many, post no analog event and leave the
    channel at 0. *)
Theorem dead_zone_jitter_is_silent {enums : InputEnums}
    (id axis : Z) (values : list Z) :
  ControllerAxisToAnalogCode axis <> ANALOG_CODE_INVALID ->
  let code := ControllerAxisToAnalogCode axis in
  forall st : State,
  m_nDeviceId (info st) = id ->
  Forall (fun v => Z.abs v < dead_zone_min st) values ->
  m_pAnalogValue (current_input st) code = 0 ->
  let st' := axis_samples id axis values st in
  analog_events_rev (trace st') = analog_events_rev (trace st) /\
  m_pAnalogValue (current_input st') code = 0 /\
  m_pAnalogDelta (current_input st') code
    = match values with [] => m_pAnalogDelta (current_input st) code | _ => 0 end.
Proof.
  intros Hcode code. induction values as [|v rest IH]; intros st Hid Hall H0.
  - cbn. auto.
  - apply Forall_cons_iff in Hall. destruct Hall as [Hv Hrest].
    unfold axis_samples. cbn [fold_left].
    destruct (JoystickAxisMotion_channel id axis v st Hid Hcode)
      as (Hid1 & _ & Hz & Hv1 & Hd1 & He1).
    fold code in Hv1, Hd1, He1.
    assert (Hdz : deadzone st v = 0).
    { unfold deadzone. fold (dead_zone_min st).
      apply Z.ltb_lt in Hv. rewrite Hv. reflexivity. }
    rewrite Hdz, H0 in *. cbn in He1.
    set (s1 := JoystickAxisMotion id axis v st) in *.
    assert (Hmin : dead_zone_min s1 = dead_zone_min st)
      by (unfold dead_zone_min; rewrite Hz; reflexivity).
    assert (Hall1 : Forall (fun v => Z.abs v < dead_zone_min s1) rest)
      by (rewrite Hmin; exact Hrest).
    destruct (IH s1 Hid1 Hall1 Hv1) as (Ea & Ev & Ed).
    fold (axis_samples id axis rest s1). cbv zeta.
    split; [rewrite Ea; exact He1|]. split; [exact Ev|].
    rewrite Ed. destruct rest; [exact Hd1 | reflexivity].
Qed.

(* ------------------------------------------------------------------------- *)
(** ** Stopping the rumble *)

(** A stop is sent once.  With a joystick active and its haptic handle
    held, a call that is to stop (strength below 0.01, or the "joystick"
    setting off or missing) never plays; when the rumble is on it calls
    [SDL_StopHapticRumble] once, clears the flag and sets the strength to 0,
    and when it is off it changes nothing.  After it, every further call
    that is to stop returns the state as it is. *)
Theorem rumble_stop_is_sent_once (L : DeviceLayer) (l r : F32.float)
    (userId : Z) (st : State) (h : SDL_Haptic) :
  0 <= m_nDeviceId (info st) -> m_pHaptic (info st) = Some h ->
  should_stop st l r = true ->
  let st1 := SetXDeviceRumble L l r userId st in
  play_commands (trace st1) = play_commands (trace st) /\
  m_bRumbleEnabled (info st1) = false /\
  (m_bRumbleEnabled (info st) = true ->
   trace st1 = E_StopHapticRumble h :: trace st /\
   m_fCurrentRumble (info st1) = F32.of_int 0) /\
  (m_bRumbleEnabled (info st) = false -> st1 = st) /\
  (forall (L' : DeviceLayer) (l' r' : F32.float) (userId' : Z),
      should_stop st l' r' = true ->
      SetXDeviceRumble L' l' r' userId' st1 = st1).
Proof.
  intros Hid Hh Hstop.
  assert (Hneg : (m_nDeviceId (info st) <? 0) = false) by (apply Z.ltb_ge; lia).
  assert (Hoff : forall (L' : DeviceLayer) (l' r' : F32.float) (u : Z) (s : State),
            (m_nDeviceId (info s) <? 0) = false -> m_pHaptic (info s) = Some h ->
            should_stop s l' r' = true -> m_bRumbleEnabled (info s) = false ->
            SetXDeviceRumble L' l' r' u s = s).
  { intros L' l' r' u s Hn Hp Hs Hr. unfold SetXDeviceRumble.
    rewrite Hn, Hp. unfold should_stop, rumble_strength in Hs.
    rewrite Hs, Hr. reflexivity. }
  cbv zeta. destruct (m_bRumbleEnabled (info st)) eqn:Hr.
  - assert (E : SetXDeviceRumble L l r userId st =
                set_info (mkInfo (m_pDevice (info st)) (m_pHaptic (info st))
                            (m_nDeviceId (info st)) (m_nButtonCount (info st))
                            false (F32.of_int 0))
                  (emit (E_StopHapticRumble h) st)).
    { unfold SetXDeviceRumble. rewrite Hneg, Hh.
      unfold should_stop, rumble_strength in Hstop. rewrite Hstop, Hr.
      reflexivity. }
    rewrite E. cbn [info trace set_info emit set_trace m_bRumbleEnabled
      m_fCurrentRumble play_commands].
    split; [reflexivity|]. split; [reflexivity|].
    split; [intros _; split; reflexivity|]. split; [discriminate|].
    intros L' l' r' u Hs. apply Hoff; cbn; auto.
  - rewrite (Hoff L l r userId st Hneg Hh Hstop Hr).
    split; [reflexivity|]. split; [exact Hr|]. split; [discriminate|].
    split; [reflexivity|].
    intros L' l' r' u Hs. now apply Hoff.
Qed.

(* ------------------------------------------------------------------------- *)
(** ** Opening a joystick that can be opened *)

Lemma opens_as_gamepad_true (L : DeviceLayer) (id : Z) :
  opens_as_gamepad L id = true ->
  SDL_IsGamepad L id = true /\ SDL_OpenJoystick L id = true /\
  SDL_OpenGamepad L id = Some (mkGamepad id).
Proof.
  unfold opens_as_gamepad. intros H.
  apply andb_true_iff in H. destruct H as [H H3].
  apply andb_true_iff in H. destruct H as [H1 H2].
  repeat split; auto. unfold SDL_OpenGamepad in *.
  destruct (find_device L id) as [d|]; [|discriminate].
  destruct (dev_gamepad_opens d); [reflexivity | discriminate].
Qed.

Section OpenFacts.
Context {enums : InputEnums} {convar : ConVarImpl}.

(** The body of [JoystickHotplugAdded] for a joystick that opens and that
    the selection policy accepts. *)
Lemma JoystickHotplugAdded_body_accepts SV (L : DeviceLayer) (id : Z)
    (st : State) :
  opens_as_gamepad L id = true ->
  (joy_active st < 0 /\ m_nDeviceId (info st) = -1) \/
  (joy_active st = id /\ 0 <= id) ->
  let st0 := emit (E_CloseJoystick id) (emit (E_OpenJoystick id true) st) in
  JoystickHotplugAdded_body SV L id st =
    if m_nDeviceId (info st) =? -1
    then JoystickHotplugAdded_open SV L id st0
    else if m_nDeviceId (info st) =? id then Some st0
    else JoystickHotplugAdded_open SV L id
           (JoystickHotplugRemoved (m_nDeviceId (info st))
              (emit (DevMsg (AlreadyInitialized (m_nDeviceId (info st)))) st0)).
Proof.
  intros Hu Hpol. destruct (opens_as_gamepad_true L id Hu) as (Hg & Ho & _).
  cbv zeta. unfold JoystickHotplugAdded_body. rewrite Hg, Ho. cbn [negb].
  cbn [joy_active info emit set_trace].
  destruct Hpol as [[Hneg Hcur] | [Hj Hid]].
  - apply Z.ltb_lt in Hneg. rewrite Hneg, Hcur. reflexivity.
  - assert (Hneg : (joy_active st <? 0) = false) by (apply Z.ltb_ge; lia).
    rewrite Hneg, Hj, Z.eqb_refl. cbn [negb].
    destruct (m_nDeviceId (info st) =? -1); reflexivity.
Qed.

(** The opening phase for a joystick that opens. *)
Lemma JoystickHotplugAdded_open_succeeds SV (L : DeviceLayer) (id : Z)
    (st : State) :
  resets_preference SV -> opens_as_gamepad L id = true -> id <> -1 ->
  let g := mkGamepad id in
  let s1 := emit (E_OpenGamepad id (Some g)) (emit (Msg (Initializing id)) st) in
  let hs := JoystickHotplugAdded_haptic L id g s1 in
  exists st' new,
    JoystickHotplugAdded_open SV L id st = Some st' /\
    Forall is_probe_or_diagnostic new /\
    trace st' = new ++ E_EnableJoystickInput 0 true :: trace (snd hs) /\
    info st' = mkInfo (Some g) (fst hs) id SDL_GAMEPAD_BUTTON_MAX false
                 (m_fCurrentRumble (info st)) /\
    joy_active st' = -1 /\ m_nJoystickCount st' = 1 /\
    m_bXController st' = true.
Proof.
  intros HSV Hu Hid. destruct (opens_as_gamepad_true L id Hu) as (_ & _ & Hg).
  cbv zeta. unfold JoystickHotplugAdded_open. rewrite Hg.
  set (s1 := emit (E_OpenGamepad id (Some (mkGamepad id)))
               (emit (Msg (Initializing id)) st)).
  destruct (JoystickHotplugAdded_haptic_fields L id (mkGamepad id) s1)
    as (Hi & _ & _).
  match goal with
  | |- exists st' new, SV (-1) ?s = Some st' /\ _ => set (st2 := s)
  end.
  assert (I2 : info st2 = mkInfo (Some (mkGamepad id))
                 (fst (JoystickHotplugAdded_haptic L id (mkGamepad id) s1)) id
                 SDL_GAMEPAD_BUTTON_MAX false (m_fCurrentRumble (info st))).
  { subst st2. cbn. rewrite SetJoyXControllerFound_info. cbn. rewrite Hi.
    reflexivity. }
  assert (T2 : trace st2 = E_EnableJoystickInput 0 true
                 :: trace (snd (JoystickHotplugAdded_haptic L id (mkGamepad id) s1))).
  { subst st2. cbn. rewrite SetJoyXControllerFound_trace. reflexivity. }
  destruct (HSV st2) as (s' & new & E & _ & Hj & Hact).
  destruct Hact as [Hs' Hnew]; [rewrite I2; exact Hid|].
  exists s', new. split; [exact E|]. split; [exact Hnew|].
  rewrite Hs'. cbn [trace info set_trace set_joy_active joy_active
    m_nJoystickCount m_bXController].
  rewrite T2, I2. repeat split.
Qed.

End OpenFacts.

(** A haptic device that cannot be initialised for rumble is left open.
    Take a recognised gamepad whose handles open and whose haptic device
    opens but for which [SDL_InitHapticRumble] returns a value other than 0,
    attached while no joystick is active.  [JoystickHotplugAdded] makes it the active joystick without a
    haptic handle, and does not close the one it opened: the handle is still
    open after the joystick is removed again, when [SDL_CloseHaptic] is
    called with NULL.  Meanwhile [SetXDeviceRumble] does nothing. *)
Theorem failed_rumble_init_leaves_haptic_open {enums : InputEnums}
    {convar : ConVarImpl} (n : nat) (L : DeviceLayer) (id : Z) (d : Device)
    (st : State) :
  find_device L id = Some d ->
  dev_is_gamepad d = true -> dev_joystick_opens d = true ->
  dev_gamepad_opens d = true -> dev_haptic_opens d = true ->
  dev_rumble_init d <> 0 -> id <> -1 ->
  m_nDeviceId (info st) = -1 -> joy_active st < 0 ->
  exists st1,
    JoystickHotplugAdded (S (S (S n))) L id st = Some st1 /\
    m_pDevice (info st1) = Some (mkGamepad id) /\
    m_nDeviceId (info st1) = id /\ m_pHaptic (info st1) = None /\
    haptic_open (trace st1) (mkHaptic id) = true /\
    (forall (L' : DeviceLayer) (l r : F32.float) (userId : Z),
        SetXDeviceRumble L' l r userId st1 = st1) /\
    let st2 := JoystickHotplugRemoved id st1 in
    trace st2 = Msg (JoystickRemoved id) :: E_CloseGamepad (mkGamepad id)
                :: E_CloseHaptic None :: E_EnableJoystickInput 0 false
                :: trace st1 /\
    haptic_open (trace st2) (mkHaptic id) = true.
Proof.
  intros Hf Hg Hj Hp Hh Hr Hid Hcur Hneg.
  assert (Hu : opens_as_gamepad L id = true).
  { unfold opens_as_gamepad, SDL_IsGamepad, SDL_OpenJoystick, SDL_OpenGamepad.
    rewrite Hf, Hg, Hj, Hp. reflexivity. }
  rewrite JoystickHotplugAdded_unfold.
  pose proof (SetValue_resets_preference n L) as HSV.
  set (SV := joy_active_SetValue
               (SearchForDevice_with (JoystickHotplugAdded (S (S n)) L) L)) in *.
  rewrite (JoystickHotplugAdded_body_accepts SV L id st Hu) by (left; auto).
  cbv zeta. rewrite Hcur. change (-1 =? -1) with true. cbv iota.
  set (st0 := emit (E_CloseJoystick id) (emit (E_OpenJoystick id true) st)).
  destruct (JoystickHotplugAdded_open_succeeds SV L id st0 HSV Hu Hid)
    as (st1 & new & E & Hnew & Ht & Hi & _).
  cbv zeta in Ht, Hi.
  assert (Hhap : JoystickHotplugAdded_haptic L id (mkGamepad id)
                   (emit (E_OpenGamepad id (Some (mkGamepad id)))
                      (emit (Msg (Initializing id)) st0))
                 = (None,
                    emit (Warning (NoRumble id))
                      (emit (E_InitHapticRumble (mkHaptic id) (dev_rumble_init d))
                         (emit (E_OpenHaptic (mkGamepad id) (Some (mkHaptic id)))
                            (emit (E_OpenGamepad id (Some (mkGamepad id)))
                               (emit (Msg (Initializing id)) st0)))))).
  { unfold JoystickHotplugAdded_haptic, SDL_OpenHapticFromJoystick,
      SDL_InitHapticRumble. cbn [gamepad_joystick haptic_joystick].
    rewrite Hf, Hh. cbn [gamepad_joystick haptic_joystick]. rewrite Hf.
    apply Z.eqb_neq in Hr. rewrite Hr. reflexivity. }
  rewrite Hhap in Ht, Hi. cbn [fst snd] in Ht, Hi.
  assert (Hopen : haptic_open (trace st1) (mkHaptic id) = true).
  { rewrite Ht. rewrite haptic_open_quiet
      by now apply plain_is_not_haptic, probe_is_plain.
    cbn. rewrite haptic_eqb_refl. reflexivity. }
  exists st1. split; [exact E|]. rewrite Hi.
  cbn [m_pDevice m_nDeviceId m_pHaptic].
  do 3 (split; [reflexivity|]). split; [exact Hopen|]. split.
  { intros L' l r u. unfold SetXDeviceRumble. rewrite Hi.
    cbn [m_nDeviceId m_pHaptic]. destruct (id <? 0); reflexivity. }
  cbv zeta.
  destruct (JoystickHotplugRemoved_cases id st1)
    as (_ & [(Hne & _) | [(_ & Hnone & _) | (g & _ & Hd & _ & Hrt)]]).
  - rewrite Hi in Hne. cbn in Hne. contradiction.
  - rewrite Hi in Hnone. discriminate.
  - rewrite Hi in Hd, Hrt. cbn in Hd, Hrt. inversion Hd; subst g.
    split; [exact Hrt|]. rewrite Hrt. cbn. exact Hopen.
Qed.

(* ------------------------------------------------------------------------- *)
(** ** Switching to a preferred joystick *)

Section PreferredFacts.
Context {enums : InputEnums} {convar : ConVarImpl}.

(** Once the preferred joystick [D] is the active one, further attach
    notifications only probe and log. *)
Lemma JoystickHotplugAdded_settled (D : Z) (n : nat) (L : DeviceLayer)
    (id : Z) (st : State) :
  0 <= D -> m_nDeviceId (info st) = D ->
  joy_active st = D \/ joy_active st = -1 ->
  exists new, Forall is_probe_or_diagnostic new /\
    JoystickHotplugAdded (S (S (S n))) L id st =
      Some (set_trace (new ++ trace st) st).
Proof.
  intros HD Hcur Hj. rewrite JoystickHotplugAdded_unfold.
  match goal with
  | |- context [JoystickHotplugAdded_body ?SV L id st] =>
      destruct (JoystickHotplugAdded_body_cases SV L id st)
        as [H | (_ & _ & [(_ & Hc & _) | (Hji & Hid & _ & Hne & _)])]
  end.
  - exact H.
  - cbv zeta in Hc. lia.
  - cbv zeta in Hne. destruct Hj; lia.
Qed.

Lemma SearchForDevice_loop_settled (D : Z) (n : nat) (L : DeviceLayer)
    (ids : list Z) :
  0 <= D -> forall st, m_nDeviceId (info st) = D ->
  joy_active st = D \/ joy_active st = -1 ->
  exists st', SearchForDevice_loop (JoystickHotplugAdded (S (S (S n))) L) L ids st
              = Some st' /\
    info st' = info st /\ joy_active st' = joy_active st.
Proof.
  intros HD. induction ids as [|id ids IH]; intros st Hcur Hj;
    cbn [SearchForDevice_loop].
  - eauto.
  - set (st1 := emit (E_OpenJoystick id (SDL_OpenJoystick L id)) st).
    destruct (SDL_OpenJoystick L id).
    + destruct (JoystickHotplugAdded_settled D n L id st1 HD Hcur Hj)
        as (new & _ & E).
      rewrite E. apply (IH (set_trace (new ++ trace st1) st1)); assumption.
    + apply (IH st1); assumption.
Qed.

(** Announcing the preferred joystick [D] when it can be opened. *)
Lemma JoystickHotplugAdded_preferred (D : Z) (n : nat) (L : DeviceLayer)
    (st : State) :
  0 <= D -> opens_as_gamepad L D = true -> joy_active st = D ->
  exists st', JoystickHotplugAdded (S (S (S n))) L D st = Some st' /\
    m_nDeviceId (info st') = D /\
    (joy_active st' = D \/ joy_active st' = -1) /\
    (m_nDeviceId (info st) <> D ->
     m_pDevice (info st') = Some (mkGamepad D) /\ joy_active st' = -1).
Proof.
  intros HD Hu Hj. rewrite JoystickHotplugAdded_unfold.
  pose proof (SetValue_resets_preference n L) as HSV.
  set (SV := joy_active_SetValue
               (SearchForDevice_with (JoystickHotplugAdded (S (S n)) L) L)) in *.
  rewrite (JoystickHotplugAdded_body_accepts SV L D st Hu) by (right; auto).
  cbv zeta.
  assert (Hopen : forall s, exists st',
            JoystickHotplugAdded_open SV L D s = Some st' /\
            m_nDeviceId (info st') = D /\
            (joy_active st' = D \/ joy_active st' = -1) /\
            (m_nDeviceId (info st) <> D ->
             m_pDevice (info st') = Some (mkGamepad D) /\ joy_active st' = -1)).
  { intros s.
    destruct (JoystickHotplugAdded_open_succeeds SV L D s HSV Hu)
      as (st' & new & E & _ & _ & Hi & Hja & _); [lia|].
    exists st'. split; [exact E|]. rewrite Hi. cbn. auto. }
  destruct (m_nDeviceId (info st) =? -1); [apply Hopen|].
  destruct (m_nDeviceId (info st) =? D) eqn:Hsame; [|apply Hopen].
  apply Z.eqb_eq in Hsame. eexists. split; [reflexivity|]. cbn.
  split; [exact Hsame|]. split; [left; exact Hj|]. intros H. contradiction.
Qed.

Lemma SearchForDevice_loop_preferred (D : Z) (n : nat) (L : DeviceLayer)
    (ids : list Z) :
  0 <= D -> opens_as_gamepad L D = true -> In D ids ->
  forall st, joy_active st = D ->
  exists st', SearchForDevice_loop (JoystickHotplugAdded (S (S (S n))) L) L ids st
              = Some st' /\
    m_nDeviceId (info st') = D /\
    (m_nDeviceId (info st) <> D ->
     m_pDevice (info st') = Some (mkGamepad D) /\ joy_active st' = -1).
Proof.
  intros HD Hu. destruct (opens_as_gamepad_true L D Hu) as (_ & Ho & _).
  induction ids as [|id ids IH]; intros Hin st Hj; [contradiction|].
  cbn [SearchForDevice_loop].
  set (st1 := emit (E_OpenJoystick id (SDL_OpenJoystick L id)) st).
  destruct (Z.eq_dec id D) as [-> | Hne].
  - rewrite Ho.
    destruct (JoystickHotplugAdded_preferred D n L st1 HD Hu Hj)
      as (st2 & E & Hcur & Hj2 & Hnew).
    rewrite E.
    destruct (SearchForDevice_loop_settled D n L ids HD st2 Hcur Hj2)
      as (st' & E' & Hi & Hja).
    exists st'. split; [exact E'|]. rewrite Hi, Hja. split; [exact Hcur|].
    exact Hnew.
  - assert (Hin' : In D ids) by (destruct Hin; congruence).
    destruct (SDL_OpenJoystick L id).
    + destruct (preferring_other_id D n L id st1 HD (or_introl Hj) Hne)
        as (new & _ & E).
      rewrite E. apply (IH Hin' (set_trace (new ++ trace st1) st1)). exact Hj.
    + apply (IH Hin' st1). exact Hj.
Qed.

End PreferredFacts.

(** Setting [joy_active] switches joysticks.  When the console sets
    [joy_active] to the id [D] of an attached gamepad whose handles open,
    and the change callback runs, the call returns with [D] as the active
    joystick, whatever was active before; unless [D] was active already, the
    handle held is the one opened for [D] and [joy_active] is back at -1. *)
Theorem joy_active_selects_attached_joystick {enums : InputEnums}
    {convar : ConVarImpl} (n : nat) (L : DeviceLayer) (D : Z) (st : State) :
  0 <= D -> In D (SDL_GetJoysticks L) -> opens_as_gamepad L D = true ->
  change_callback_runs (joy_active st) D = true ->
  exists st', joy_active_set (S (S (S n))) L D st = Some st' /\
    m_nDeviceId (info st') = D /\
    (m_nDeviceId (info st) <> D ->
     m_pDevice (info st') = Some (mkGamepad D) /\ joy_active st' = -1).
Proof.
  intros HD Hin Hu Hcb.
  unfold joy_active_set, joy_active_SetValue, joy_active_changed_f.
  rewrite Hcb. unfold SearchForDevice, SearchForDevice_with.
  cbn [joy_active set_joy_active].
  assert (Hneg : (D <? 0) = false) by (apply Z.ltb_ge; lia).
  rewrite Hneg.
  destruct (SearchForDevice_loop_preferred D n L (SDL_GetJoysticks L) HD Hu Hin
              (set_joy_active D st) eq_refl)
    as (st' & E & Hcur & Hnew).
  exists st'. split; [exact E|]. split; [exact Hcur | exact Hnew].
Qed.

(* ------------------------------------------------------------------------- *)
(** ** Joystick handles *)

Lemma joystick_handles_app (a b : list Effect) :
  joystick_handles (a ++ b) = joystick_handles a + joystick_handles b.
Proof.
  induction a as [|e a IH]; [reflexivity|].
  destruct e; cbn [app joystick_handles]; try exact IH.
  - destruct ok; lia.
  - lia.
Qed.

Lemma joystick_handles_none (l : list Effect) :
  Forall is_not_joystick_call l -> joystick_handles l = 0.
Proof.
  induction 1 as [|e l He _ IH]; [reflexivity|].
  destruct e; cbn in *; try tauto; exact IH.
Qed.

Lemma haptic_setup_not_joystick (l : list Effect) :
  Forall is_haptic_setup l -> Forall is_not_joystick_call l.
Proof. apply Forall_impl. intros []; cbn; tauto. Qed.

Section JoystickHandles.
Context {enums : InputEnums} {convar : ConVarImpl}.

Lemma JoystickHotplugRemoved_no_joystick_call (id : Z) (st : State) :
  exists r, trace (JoystickHotplugRemoved id st) = r ++ trace st /\
            joystick_handles r = 0.
Proof.
  destruct (JoystickHotplugRemoved_cases id st)
    as (_ & [(_ & E) | [(_ & _ & _ & _ & E) | (g & _ & _ & _ & E)]]);
    rewrite E.
  - exists [DevMsg (IgnoringRemove id (m_nDeviceId (info st)))]. auto.
  - exists [DevMsg (RemoveForRemoved id)]. auto.
  - eexists [_; _; _; _]. split; reflexivity.
Qed.

Lemma JoystickHotplugAdded_open_closes SV (L : DeviceLayer) (id : Z) :
  closes_its_joysticks (SV (-1)) ->
  closes_its_joysticks (JoystickHotplugAdded_open SV L id).
Proof.
  intros HSV s s'.
  destruct (JoystickHotplugAdded_open_cases SV L id s)
    as [[_ E] | (g & st2 & mid & _ & E & _ & _ & _ & Ht & Hmid)];
    rewrite E; intros H.
  - inversion H; subst s'. eexists [_; _; _]. split; reflexivity.
  - destruct (HSV _ _ H) as (new & Hn & Hb).
    exists (new ++ E_EnableJoystickInput 0 true
              :: mid ++ [E_OpenGamepad id (Some g); Msg (Initializing id)]).
    split.
    + rewrite Hn, Ht. app_norm. reflexivity.
    + rewrite joystick_handles_app, Hb.
      change (E_EnableJoystickInput 0 true
              :: mid ++ [E_OpenGamepad id (Some g); Msg (Initializing id)])
        with ([E_EnableJoystickInput 0 true] ++ mid
              ++ [E_OpenGamepad id (Some g); Msg (Initializing id)]).
      rewrite !joystick_handles_app.
      rewrite (joystick_handles_none mid)
        by now apply haptic_setup_not_joystick.
      reflexivity.
Qed.

Lemma JoystickHotplugAdded_body_closes SV (L : DeviceLayer) (id : Z) :
  closes_its_joysticks (SV (-1)) ->
  closes_its_joysticks (JoystickHotplugAdded_body SV L id).
Proof.
  intros HSV s s'. unfold JoystickHotplugAdded_body.
  destruct (SDL_IsGamepad L id); cbn [negb].
  2:{ intros H; inversion H. exists [Warning NotRecognized]. auto. }
  destruct (SDL_OpenJoystick L id); cbn [negb].
  2:{ intros H; inversion H.
      exists [Warning (CouldNotOpenJoystick id); E_OpenJoystick id false]. auto. }
  cbn [joy_active info emit set_trace].
  set (s0 := emit (E_CloseJoystick id) (emit (E_OpenJoystick id true) s)).
  assert (Hopen0 : forall x, JoystickHotplugAdded_open SV L id s0 = Some x ->
            exists new, trace x = new ++ trace s /\ joystick_handles new = 0).
  { intros x H.
    destruct (JoystickHotplugAdded_open_closes SV L id HSV _ _ H)
      as (new & Hn & Hb).
    exists (new ++ [E_CloseJoystick id; E_OpenJoystick id true]). split.
    - rewrite Hn. cbn. rewrite <- app_assoc. reflexivity.
    - rewrite joystick_handles_app, Hb. reflexivity. }
  assert (Hmsg : forall a x,
            Some (emit (Msg (DetectedSupported id a)) s0) = Some x ->
            exists new, trace x = new ++ trace s /\ joystick_handles new = 0).
  { intros a x H. inversion H.
    exists [Msg (DetectedSupported id a); E_CloseJoystick id;
            E_OpenJoystick id true]. auto. }
  assert (Hrest : forall x,
            (if negb (m_nDeviceId (info s) =? -1)
             then if m_nDeviceId (info s) =? id then Some s0
                  else JoystickHotplugAdded_open SV L id
                         (JoystickHotplugRemoved (m_nDeviceId (info s))
                            (emit (DevMsg (AlreadyInitialized
                                             (m_nDeviceId (info s)))) s0))
             else JoystickHotplugAdded_open SV L id s0) = Some x ->
            exists new, trace x = new ++ trace s /\ joystick_handles new = 0).
  { intros x. destruct (negb (m_nDeviceId (info s) =? -1)); [|apply Hopen0].
    destruct (m_nDeviceId (info s) =? id).
    - intros H; inversion H.
      exists [E_CloseJoystick id; E_OpenJoystick id true]. auto.
    - intros H.
      destruct (JoystickHotplugAdded_open_closes SV L id HSV _ _ H)
        as (new & Hn & Hb).
      match type of Hn with
      | context [trace (JoystickHotplugRemoved ?c ?t)] =>
          destruct (JoystickHotplugRemoved_no_joystick_call c t)
            as (r & Hr & Hrb)
      end.
      exists (new ++ r ++ [DevMsg (AlreadyInitialized (m_nDeviceId (info s)));
                           E_CloseJoystick id; E_OpenJoystick id true]).
      split.
      + rewrite Hn, Hr. cbn. rewrite <- !app_assoc. reflexivity.
      + rewrite !joystick_handles_app, Hb, Hrb. reflexivity. }
  destruct (joy_active s <? 0).
  - destruct (negb (m_nDeviceId (info s) =? -1)) eqn:Hc.
    + apply Hmsg.
    + apply Hopen0.
  - destruct (negb (joy_active s =? id)).
    + apply Hmsg.
    + apply Hrest.
Qed.

Lemma JoystickHotplugAdded_closes (fuel : nat) (L : DeviceLayer) (id : Z) :
  closes_its_joysticks (JoystickHotplugAdded fuel L id).
Proof.
  revert id. induction fuel as [|fuel IH]; intros id.
  - intros s s' H. discriminate.
  - cbn [JoystickHotplugAdded]. apply JoystickHotplugAdded_body_closes.
    intros s s'. unfold joy_active_SetValue.
    destruct (change_callback_runs (joy_active s) (-1)).
    + unfold SearchForDevice_with. cbn [joy_active set_joy_active].
      change (-1 <? 0) with true. cbv iota. intros H.
      exact (IH 0 _ _ H).
    + intros H. inversion H. exists []. auto.
Qed.

Lemma SearchForDevice_loop_handles (n : nat) (L : DeviceLayer) (ids : list Z) :
  forall st, exists st' new,
    SearchForDevice_loop (JoystickHotplugAdded (S (S (S n))) L) L ids st
      = Some st' /\
    trace st' = new ++ trace st /\
    joystick_handles new
      = Z.of_nat (length (filter (SDL_OpenJoystick L) ids)).
Proof.
  induction ids as [|id ids IH]; intros st; cbn [SearchForDevice_loop filter].
  - exists st, []. auto.
  - destruct (SDL_OpenJoystick L id) eqn:Ho.
    + set (st1 := emit (E_OpenJoystick id true) st).
      destruct (JoystickHotplugAdded_summary n L id st1) as (st2 & _ & E & _).
      rewrite E.
      destruct (JoystickHotplugAdded_closes _ L id _ _ E) as (new1 & H1 & B1).
      destruct (IH st2) as (st' & new & E' & H' & B').
      exists st', (new ++ new1 ++ [E_OpenJoystick id true]).
      split; [exact E'|]. split.
      * rewrite H', H1. cbn. rewrite <- !app_assoc. reflexivity.
      * rewrite !joystick_handles_app, B', B1. cbn [length joystick_handles].
        lia.
    + destruct (IH (emit (E_OpenJoystick id false) st))
        as (st' & new & E' & H' & B').
      exists st', (new ++ [E_OpenJoystick id false]).
      split; [exact E'|]. split.
      * rewrite H'. cbn. rewrite <- app_assoc. reflexivity.
      * rewrite joystick_handles_app, B'. cbn. lia.
Qed.

End JoystickHandles.

(** The search leaves the joysticks it probes open.  [JoystickHotplugAdded]
    closes the joystick handle it opens to probe a device: a call leaves as
    many joystick handles open as it found.  [SearchForDevice] with a
    preference set ([joy_active] not negative) opens every joystick of the
    enumeration and closes none: it leaves one more handle open for each
    joystick that could be opened. *)
Theorem search_leaves_probed_joysticks_open {enums : InputEnums}
    {convar : ConVarImpl} (n : nat) (L : DeviceLayer) :
  (forall (id : Z) (st : State),
      exists st' new,
        JoystickHotplugAdded (S (S (S n))) L id st = Some st' /\
        trace st' = new ++ trace st /\ joystick_handles new = 0) /\
  (forall st : State,
      0 <= joy_active st ->
      exists st' new,
        SearchForDevice (S (S (S n))) L st = Some st' /\
        trace st' = new ++ trace st /\
        joystick_handles new
          = Z.of_nat (length (filter (SDL_OpenJoystick L) (SDL_GetJoysticks L)))).
Proof.
  split.
  - intros id st.
    destruct (JoystickHotplugAdded_summary n L id st) as (st' & _ & E & _).
    destruct (JoystickHotplugAdded_closes _ L id _ _ E) as (new & Hn & Hb).
    exists st', new. auto.
  - intros st Hj. unfold SearchForDevice, SearchForDevice_with.
    assert (Hneg : (joy_active st <? 0) = false) by (apply Z.ltb_ge; lia).
    rewrite Hneg. apply SearchForDevice_loop_handles.
Qed.

(* ------------------------------------------------------------------------- *)
(** ** Start-up and shutdown *)

Section StartupFacts.
Context {enums : InputEnums} {convar : ConVarImpl}.






End StartupFacts.


(* ------------------------------------------------------------------------- *)
(** ** The first available joystick *)

Section FirstAvailable.
Context {enums : InputEnums} {convar : ConVarImpl}.

(** An attach notification while no joystick is active and none is
    preferred. *)
Lemma JoystickHotplugAdded_none_active (n : nat) (L : DeviceLayer) (id : Z)
    (st : State) :
  layer_ids_valid L = true ->
  m_nDeviceId (info st) = -1 -> joy_active st < 0 ->
  exists st', JoystickHotplugAdded (S (S (S n))) L id st = Some st' /\
    ((opens_as_gamepad L id = false /\ info st' = info st /\
      joy_active st' = joy_active st /\
      m_nJoystickCount st' = m_nJoystickCount st) \/
     (opens_as_gamepad L id = true /\ id <> -1 /\
      m_pDevice (info st') = Some (mkGamepad id) /\
      m_nDeviceId (info st') = id /\ joy_active st' = -1 /\
      m_nJoystickCount st' = 1 /\ m_bXController st' = true)).
Proof.
  intros Hv Hcur Hneg. rewrite JoystickHotplugAdded_unfold.
  pose proof (SetValue_resets_preference n L) as HSV.
  set (SV := joy_active_SetValue
               (SearchForDevice_with (JoystickHotplugAdded (S (S n)) L) L)) in *.
  destruct (opens_as_gamepad L id) eqn:Hu.
  - destruct (opens_as_gamepad_true L id Hu) as (_ & _ & Hg).
    assert (Hid : id <> -1) by (eapply SDL_OpenGamepad_valid; eauto).
    rewrite (JoystickHotplugAdded_body_accepts SV L id st Hu) by (left; auto).
    cbv zeta. rewrite Hcur. change (-1 =? -1) with true. cbv iota.
    match goal with
    | |- exists st', JoystickHotplugAdded_open SV L id ?s = Some st' /\ _ =>
        destruct (JoystickHotplugAdded_open_succeeds SV L id s HSV Hu Hid)
          as (st' & new & E & _ & _ & Hi & Hj & Hc & Hx)
    end.
    exists st'. split; [exact E|]. right. rewrite Hi. cbn. auto 10.
  - destruct (JoystickHotplugAdded_body_cases SV L id st)
      as [(new & _ & E) | (Hg & Ho & [(_ & _ & E) | (_ & _ & Hc & _)])].
    + rewrite E. eexists. split; [reflexivity|]. left. cbn. auto.
    + rewrite E.
      match goal with
      | |- exists st', JoystickHotplugAdded_open SV L id ?s = Some st' /\ _ =>
          destruct (JoystickHotplugAdded_open_cases SV L id s)
            as [[_ E'] | (g & _ & _ & Hgp & _)]
      end.
      * rewrite E'. eexists. split; [reflexivity|]. left. cbn. auto.
      * unfold opens_as_gamepad in Hu. rewrite Hg, Ho, Hgp in Hu. discriminate.
    + cbv zeta in Hc. contradiction.
Qed.

Lemma InitializeJoysticks_loop_active (n : nat) (L : DeviceLayer)
    (ids : list Z) :
  forall sys, m_nDeviceId (info (core sys)) <> -1 ->
  joy_active (core sys) = -1 ->
  exists sys', InitializeJoysticks_loop (S (S (S n))) L ids sys = Some sys' /\
    info (core sys') = info (core sys) /\
    joy_active (core sys') = -1 /\
    m_nJoystickCount (core sys') = m_nJoystickCount (core sys) /\
    m_bXController (core sys') = m_bXController (core sys) /\
    m_bJoystickInitialized sys' = m_bJoystickInitialized sys.
Proof.
  induction ids as [|id ids IH]; intros sys Hcur Hj;
    cbn [InitializeJoysticks_loop].
  - exists sys. auto 10.
  - destruct (SDL_IsGamepad L id).
    + destruct (JoystickHotplugAdded_when_active (S (S n)) L id (core sys) Hj Hcur)
        as (new & _ & E).
      rewrite E.
      destruct (IH (set_core (set_trace (new ++ trace (core sys)) (core sys)) sys))
        as (sys' & E' & H'); [exact Hcur | exact Hj |].
      exists sys'. split; [exact E' | exact H'].
    + destruct (IH (log (Msg_NoControllerConfiguration id) sys))
        as (sys' & E' & H'); [exact Hcur | exact Hj |].
      exists sys'. split; [exact E' | exact H'].
Qed.

Lemma InitializeJoysticks_loop_first (n : nat) (L : DeviceLayer)
    (ids : list Z) :
  layer_ids_valid L = true ->
  forall sys, m_nDeviceId (info (core sys)) = -1 -> joy_active (core sys) < 0 ->
  exists sys', InitializeJoysticks_loop (S (S (S n))) L ids sys = Some sys' /\
    m_bJoystickInitialized sys' = m_bJoystickInitialized sys /\
    match find (opens_as_gamepad L) ids with
    | Some id =>
        id <> -1 /\ m_nDeviceId (info (core sys')) = id /\
        m_pDevice (info (core sys')) = Some (mkGamepad id) /\
        joy_active (core sys') = -1 /\ m_nJoystickCount (core sys') = 1 /\
        m_bXController (core sys') = true
    | None =>
        info (core sys') = info (core sys) /\
        m_nJoystickCount (core sys') = m_nJoystickCount (core sys)
    end.
Proof.
  intros Hv. induction ids as [|id ids IH]; intros sys Hcur Hneg;
    cbn [InitializeJoysticks_loop find].
  - exists sys. auto.
  - destruct (SDL_IsGamepad L id) eqn:Hg.
    + destruct (JoystickHotplugAdded_none_active n L id (core sys) Hv Hcur Hneg)
        as (st' & E & [(Hu & Hi & Hj & Hc)
                      | (Hu & Hid & Hd & Hi & Hj & Hc & Hx)]);
        rewrite E, Hu.
      * destruct (IH (set_core st' sys)) as (sys' & E' & Hinit & H');
          [cbn; rewrite Hi; exact Hcur | cbn; rewrite Hj; exact Hneg |].
        exists sys'. split; [exact E'|]. split; [exact Hinit|].
        cbn in H'. rewrite Hi, Hc in H'. exact H'.
      * destruct (InitializeJoysticks_loop_active n L ids (set_core st' sys))
          as (sys' & E' & Hi' & Hj' & Hc' & Hx' & Hinit);
          [cbn; rewrite Hi; exact Hid | exact Hj |].
        exists sys'. split; [exact E'|]. split; [exact Hinit|].
        cbn in Hi', Hc', Hx'. rewrite Hi', Hc', Hx'. auto 10.
    + assert (Hu : opens_as_gamepad L id = false)
        by (unfold opens_as_gamepad; rewrite Hg; reflexivity).
      rewrite Hu.
      destruct (IH (log (Msg_NoControllerConfiguration id) sys))
        as (sys' & E' & H'); [exact Hcur | exact Hneg |].
      exists sys'. split; [exact E' | exact H'].
Qed.

End FirstAvailable.

(** -1 means first available.  With no preference set ([joy_active]
    negative), without [-nojoy] and with [SDL_InitSubSystem] returning 0,
    [InitializeJoysticks] returns with the joysticks initialised and the
    first joystick of SDL's enumeration that is a recognised gamepad whose
    handles open as the active one; when there is none, no joystick is
    active. *)
Theorem InitializeJoysticks_opens_first_available {enums : InputEnums}
    {convar : ConVarImpl} (n : nat) (P : Platform) (sys : InputSystem) :
  nojoy P = false -> init_result P = 0 ->
  layer_ids_valid (devices P) = true -> joy_active (core sys) < 0 ->
  exists sys', InitializeJoysticks (S (S (S n))) P sys = Some sys' /\
    m_bJoystickInitialized sys' = true /\
    m_nDeviceId (info (core sys')) = first_available (devices P) /\
    (first_available (devices P) <> -1 ->
     m_pDevice (info (core sys'))
       = Some (mkGamepad (first_available (devices P))) /\
     m_nJoystickCount (core sys') = 1 /\ m_bXController (core sys') = true /\
     joy_active (core sys') = -1) /\
    (first_available (devices P) = -1 ->
     info (core sys') = cleared_info /\ m_nJoystickCount (core sys') = 0).
Proof.
  intros Hnj Hir Hv Hneg. unfold InitializeJoysticks. rewrite Hnj, Hir.
  cbn [Z.eqb negb].
  set (sys0 := if m_bJoystickInitialized sys then ShutdownJoysticks sys
               else sys).
  assert (Hj0 : joy_active (core sys0) = joy_active (core sys)).
  { subst sys0. destruct (m_bJoystickInitialized sys) eqn:Hi; [|reflexivity].
    unfold ShutdownJoysticks. rewrite Hi. cbn.
    destruct (m_pDevice (info (core sys))); [|reflexivity]. cbn.
    apply (proj1 (JoystickHotplugRemoved_cases _ _)). }
  match goal with
  | |- exists sys', InitializeJoysticks_loop _ _ _ ?s = Some sys' /\ _ =>
      destruct (InitializeJoysticks_loop_first n (devices P)
                  (SDL_GetJoysticks (devices P)) Hv s)
        as (sys' & E & Hinit & Hfind)
  end.
  - destruct (0 <? String.length _)%nat; reflexivity.
  - destruct (0 <? String.length _)%nat; cbn; rewrite Hj0; exact Hneg.
  - exists sys'. split; [exact E|]. split.
    { rewrite Hinit. reflexivity. }
    unfold first_available.
    destruct (find (opens_as_gamepad (devices P)) (SDL_GetJoysticks (devices P)))
      as [id|].
    + destruct Hfind as (Hid & Hi & Hd & Hj & Hc & Hx).
      split; [exact Hi|]. split; [auto|]. intros H. contradiction.
    + destruct Hfind as (Hi & Hc).
      assert (Hi0 : info (core sys') = cleared_info
                    /\ m_nJoystickCount (core sys') = 0).
      { rewrite Hi, Hc.
        destruct (0 <? String.length _)%nat; cbn; auto. }
      split; [rewrite (proj1 Hi0); reflexivity|].
      split; [intros H; contradiction | intros _; exact Hi0].
Qed.

(** Start-up that stops early.  With [-nojoy] on the command line, or when
    [SDL_InitSubSystem] returns a value other than 0, [InitializeJoysticks]
    returns (whatever the fuel) with the joysticks not initialised: the
    joystick record is cleared, the watcher is not registered, no device is
    probed, and a later [ShutdownJoysticks] does nothing.  With [-nojoy] SDL
    is not called at all. *)
Theorem InitializeJoysticks_stops_early {enums : InputEnums}
    {convar : ConVarImpl} (fuel : nat) (P : Platform) (sys : InputSystem) :
  nojoy P = true \/ init_result P <> 0 ->
  let sys0 := if m_bJoystickInitialized sys then ShutdownJoysticks sys
              else sys in
  exists sys' added,
    InitializeJoysticks fuel P sys = Some sys' /\
    m_bJoystickInitialized sys' = false /\
    info (core sys') = cleared_info /\ m_nJoystickCount (core sys') = 0 /\
    trace (core sys') = trace (core sys0) /\
    subsystem_log sys' = added ++ subsystem_log sys0 /\
    ~ In SDL_AddEventWatch added /\
    (nojoy P = true -> added = []) /\
    ShutdownJoysticks sys' = sys'.
Proof.
  intros Hstop. cbv zeta. unfold InitializeJoysticks.
  set (sys0 := if m_bJoystickInitialized sys then ShutdownJoysticks sys
               else sys).
  assert (Hi0 : m_bJoystickInitialized sys0 = false).
  { subst sys0. destruct (m_bJoystickInitialized sys) eqn:Hi; [|exact Hi].
    unfold ShutdownJoysticks. rewrite Hi. reflexivity. }
  assert (Hsd : forall s, m_bJoystickInitialized s = false ->
                          ShutdownJoysticks s = s).
  { intros s Hs. unfold ShutdownJoysticks. rewrite Hs. reflexivity. }
  destruct (nojoy P) eqn:Hnj.
  - eexists _, []. split; [reflexivity|]. cbn.
    repeat split; auto; try (apply Hsd; exact Hi0).
  - destruct Hstop as [H | Hne]; [discriminate|].
    apply Z.eqb_neq in Hne. rewrite Hne. cbn [negb].
    destruct (0 <? String.length _)%nat.
    + eexists _, [_; _; _; _]. split; [reflexivity|]. cbn.
      repeat split; auto; try discriminate; try (apply Hsd; exact Hi0);
        try (intros H; intuition discriminate).
    + eexists _, [_; _]. split; [reflexivity|]. cbn.
      repeat split; auto; try discriminate; try (apply Hsd; exact Hi0);
        try (intros H; intuition discriminate).
Qed.

(* ------------------------------------------------------------------------- *)
(** ** The controller configuration and the console variables *)

Section ConfigFacts.
Context {enums : InputEnums} {convar : ConVarImpl}.

Lemma InitializeJoysticks_loop_log (n : nat) (L : DeviceLayer) (ids : list Z) :
  forall sys, exists sys' msgs,
    InitializeJoysticks_loop (S (S (S n))) L ids sys = Some sys' /\
    subsystem_log sys' = msgs ++ subsystem_log sys /\
    Forall is_no_configuration_msg msgs /\
    m_bJoystickInitialized sys' = m_bJoystickInitialized sys /\
    joy_gamecontroller_config sys' = joy_gamecontroller_config sys.
Proof.
  induction ids as [|id ids IH]; intros sys; cbn [InitializeJoysticks_loop].
  - exists sys, []. repeat split. constructor.
  - destruct (SDL_IsGamepad L id).
    + destruct (JoystickHotplugAdded_summary n L id (core sys))
        as (st' & _ & E & _).
      rewrite E. destruct (IH (set_core st' sys)) as (sys' & msgs & H).
      exists sys', msgs. exact H.
    + destruct (IH (log (Msg_NoControllerConfiguration id) sys))
        as (sys' & msgs & E & Hl & Hm & Hi & Hc).
      exists sys', (msgs ++ [Msg_NoControllerConfiguration id]).
      split; [exact E|]. split.
      * rewrite Hl. cbn. rewrite <- app_assoc. reflexivity.
      * split; [|auto]. apply Forall_app. split; [exact Hm | repeat constructor].
Qed.

(** What [SetJoyXControllerFound] does to the two console variables. *)
Lemma SetJoyXControllerFound_vars (found : bool) (st : State) :
  xcontrollerVar (SetJoyXControllerFound found st)
    = option_map (fun _ => found) (xcontrollerVar st) /\
  joystickVar (SetJoyXControllerFound found st)
    = (if found then option_map (fun _ => true) (joystickVar st)
       else joystickVar st).
Proof.
  unfold SetJoyXControllerFound.
  destruct (xcontrollerVar st) eqn:Ex; cbn; destruct (joystickVar st) eqn:Ej;
    destruct found; cbn; rewrite ?Ex, ?Ej; auto.
Qed.

Lemma JoystickHotplugAdded_haptic_vars (L : DeviceLayer) (id : Z)
    (g : SDL_Gamepad) (st : State) :
  xcontrollerVar (snd (JoystickHotplugAdded_haptic L id g st))
    = xcontrollerVar st /\
  joystickVar (snd (JoystickHotplugAdded_haptic L id g st)) = joystickVar st.
Proof.
  unfold JoystickHotplugAdded_haptic.
  destruct (SDL_OpenHapticFromJoystick L g) as [h|]; cbn;
    [destruct (negb (SDL_InitHapticRumble L h =? 0)); cbn|]; auto.
Qed.

Lemma JoystickHotplugRemoved_vars (id : Z) (st : State) (g : SDL_Gamepad) :
  m_nDeviceId (info st) = id -> m_pDevice (info st) = Some g ->
  xcontrollerVar (JoystickHotplugRemoved id st)
    = option_map (fun _ => false) (xcontrollerVar st) /\
  joystickVar (JoystickHotplugRemoved id st) = joystickVar st.
Proof.
  intros Hi Hd. unfold JoystickHotplugRemoved.
  apply Z.eqb_eq in Hi. rewrite Hi, Hd. cbn [negb].
  cbn [emit set_trace set_info xcontrollerVar joystickVar].
  match goal with
  | |- context [SetJoyXControllerFound false ?s] =>
      destruct (SetJoyXControllerFound_vars false s) as [Hx Hjv];
      rewrite Hx, Hjv
  end.
  split; reflexivity.
Qed.

(** The opening phase and the two console variables. *)
Lemma JoystickHotplugAdded_open_vars SV (L : DeviceLayer) (id : Z)
    (st : State) :
  resets_preference SV -> opens_as_gamepad L id = true -> id <> -1 ->
  exists st1,
    JoystickHotplugAdded_open SV L id st = Some st1 /\
    m_nDeviceId (info st1) = id /\
    m_pDevice (info st1) = Some (mkGamepad id) /\
    xcontrollerVar st1 = option_map (fun _ => true) (xcontrollerVar st) /\
    joystickVar st1 = option_map (fun _ => true) (joystickVar st).
Proof.
  intros HSV Hu Hid.
  destruct (JoystickHotplugAdded_open_succeeds SV L id st HSV Hu Hid)
    as (st1 & new & E & _ & _ & Hi & _).
  exists st1. split; [exact E|]. rewrite Hi.
  cbn [m_nDeviceId m_pDevice]. do 2 (split; [reflexivity|]).
  destruct (opens_as_gamepad_true L id Hu) as (_ & _ & Hg).
  unfold JoystickHotplugAdded_open in E. rewrite Hg in E.
  match type of E with
  | SV (-1) ?s = Some st1 => set (st2 := s) in E
  end.
  assert (Vx : xcontrollerVar st2 = option_map (fun _ => true) (xcontrollerVar st)).
  { subst st2.
    cbn [xcontrollerVar set_m_bXController set_m_nJoystickCount emit set_trace].
    rewrite (proj1 (SetJoyXControllerFound_vars true _)).
    cbn [xcontrollerVar set_info].
    rewrite (proj1 (JoystickHotplugAdded_haptic_vars L id _ _)). reflexivity. }
  assert (Vj : joystickVar st2 = option_map (fun _ => true) (joystickVar st)).
  { subst st2.
    cbn [joystickVar set_m_bXController set_m_nJoystickCount emit set_trace].
    rewrite (proj2 (SetJoyXControllerFound_vars true _)).
    cbn [joystickVar set_info].
    rewrite (proj2 (JoystickHotplugAdded_haptic_vars L id _ _)). reflexivity. }
  assert (Vi : m_nDeviceId (info st2) <> -1).
  { subst st2.
    cbn [info set_m_bXController set_m_nJoystickCount emit set_trace].
    rewrite SetJoyXControllerFound_info. cbn [info set_info m_nDeviceId].
    exact Hid. }
  clearbody st2.
  destruct (HSV st2) as (s' & new' & E' & _ & _ & Hact).
  destruct (Hact Vi) as [Hs' _].
  assert (Es : st1 = s') by congruence.
  rewrite Es, Hs'.
  cbn [xcontrollerVar joystickVar set_trace set_joy_active]. auto.
Qed.

End ConfigFacts.

(** A change of the controller configuration restarts the joysticks.  The
    change callback of [joy_gamecontroller_config] does nothing while SDL's
    gamepad subsystem is not initialised, or when the old and the new value
    are both empty.  In every other case it returns after
    [ShutdownJoysticks] followed by [InitializeJoysticks], with the new
    value still in the variable.  The shutdown unregisters the watcher and
    quits the subsystem when the joysticks were initialised, and does
    nothing otherwise.  With [-nojoy] nothing more is called and the
    joysticks stay shut down.  Without it, a new value that is not empty is
    passed to [SDL_SetHint] before [SDL_InitSubSystem] is called, and for an
    empty new value (the variable was cleared) no [SDL_SetHint] call is made
    at all.  When [SDL_InitSubSystem] returns a value other than 0 a warning
    follows and the joysticks stay shut down, with the joystick record
    cleared; when it returns 0 the watcher is registered, the joysticks are
    initialised, and what follows in the log are the messages about
    joysticks without a controller configuration. *)
Theorem config_change_restarts_joysticks {enums : InputEnums}
    {convar : ConVarImpl} (n : nat) (P : Platform)
    (pOldValue : option String.string) (sys : InputSystem) :
  (forall was_init : bool,
      was_init = false \/
      ((pOldValue = None \/ pOldValue = Some String.EmptyString) /\
       joy_gamecontroller_config sys = String.EmptyString) ->
      joy_gamecontroller_config_changed_f (S (S (S n))) P was_init pOldValue sys
        = Some sys) /\
  ((exists s, pOldValue = Some s /\ s <> String.EmptyString) \/
   joy_gamecontroller_config sys <> String.EmptyString ->
   exists sys' added,
     joy_gamecontroller_config_changed_f (S (S (S n))) P true pOldValue sys
       = Some sys' /\
     joy_gamecontroller_config_changed_f (S (S (S n))) P true pOldValue sys
       = InitializeJoysticks (S (S (S n))) P (ShutdownJoysticks sys) /\
     joy_gamecontroller_config sys' = joy_gamecontroller_config sys /\
     subsystem_log sys' = added ++ subsystem_log (ShutdownJoysticks sys) /\
     (m_bJoystickInitialized sys = true ->
      subsystem_log (ShutdownJoysticks sys)
        = SDL_QuitSubSystem :: SDL_DelEventWatch :: subsystem_log sys) /\
     (m_bJoystickInitialized sys = false -> ShutdownJoysticks sys = sys) /\
     (nojoy P = true ->
      added = [] /\ m_bJoystickInitialized sys' = false /\
      info (core sys') = cleared_info) /\
     (nojoy P = false -> init_result P <> 0 ->
      added = Warning_InitFailed :: SDL_InitSubSystem (init_result P)
              :: config_hint_calls (joy_gamecontroller_config sys) /\
      m_bJoystickInitialized sys' = false /\
      info (core sys') = cleared_info) /\
     (nojoy P = false -> init_result P = 0 ->
      exists msgs,
        Forall is_no_configuration_msg msgs /\
        added = msgs ++ SDL_AddEventWatch :: SDL_InitSubSystem 0
                     :: config_hint_calls (joy_gamecontroller_config sys) /\
        m_bJoystickInitialized sys' = true) /\
     (joy_gamecontroller_config sys = String.EmptyString ->
      Forall (fun c => ~ is_set_hint c) added)).
Proof.
  split.
  - intros was_init [-> | [Hold Hnew]]; [reflexivity|].
    unfold joy_gamecontroller_config_changed_f. destruct was_init; [|reflexivity].
    rewrite Hnew. destruct Hold as [-> | ->]; reflexivity.
  - intros Hrun.
    assert (Ecall : joy_gamecontroller_config_changed_f (S (S (S n))) P true
                      pOldValue sys
                    = InitializeJoysticks (S (S (S n))) P (ShutdownJoysticks sys)).
    { unfold joy_gamecontroller_config_changed_f.
      destruct Hrun as [(s & -> & Hs) | Hnew].
      - destruct s; [contradiction | reflexivity].
      - destruct (joy_gamecontroller_config sys); [contradiction|].
        cbn [String.length Nat.ltb Nat.leb negb]. rewrite andb_false_r.
        reflexivity. }
    rewrite Ecall.
    set (sys0 := ShutdownJoysticks sys).
    set (config := joy_gamecontroller_config sys).
    assert (Hi0 : m_bJoystickInitialized sys0 = false).
    { unfold sys0, ShutdownJoysticks.
      destruct (m_bJoystickInitialized sys) eqn:Hi; [reflexivity | exact Hi]. }
    assert (Hc0 : joy_gamecontroller_config sys0 = config).
    { unfold sys0, ShutdownJoysticks.
      destruct (m_bJoystickInitialized sys); [|reflexivity]. cbn.
      destruct (m_pDevice (info (core sys))); reflexivity. }
    assert (Hdown : m_bJoystickInitialized sys = true ->
                    subsystem_log sys0
                    = SDL_QuitSubSystem :: SDL_DelEventWatch :: subsystem_log sys).
    { intros Hi. unfold sys0, ShutdownJoysticks. rewrite Hi. cbn.
      destruct (m_pDevice (info (core sys))); reflexivity. }
    assert (Hnot : m_bJoystickInitialized sys = false -> sys0 = sys).
    { intros Hi. unfold sys0, ShutdownJoysticks. now rewrite Hi. }
    assert (Hhint : config = String.EmptyString ->
                    config_hint_calls config = [])
      by (intros ->; reflexivity).
    assert (Hlog0 : forall st, subsystem_log (set_core st sys0)
                               = subsystem_log sys0) by reflexivity.
    unfold InitializeJoysticks. rewrite Hi0.
    destruct (nojoy P) eqn:Hnj.
    { eexists _, []. split; [reflexivity|]. split; [reflexivity|].
      split; [exact Hc0|]. split; [reflexivity|]. split; [exact Hdown|].
      split; [exact Hnot|].
      split; [intros _; split; [reflexivity | split; [exact Hi0 | reflexivity]]|].
      split; [discriminate|]. split; [discriminate|]. constructor. }
    cbn [set_core joy_gamecontroller_config]. rewrite Hc0.
    fold (config_hint_calls config).
    assert (Ehint : forall s : InputSystem,
               subsystem_log
                 (if (0 <? String.length config)%nat
                  then log (SDL_SetHint_GAMECONTROLLERCONFIG config)
                         (log (DevMsg_PassingConfig config) s)
                  else s)
               = config_hint_calls config ++ subsystem_log s).
    { intros s. unfold config_hint_calls.
      destruct (0 <? String.length config)%nat; reflexivity. }
    assert (Einit : forall s : InputSystem,
               m_bJoystickInitialized
                 (if (0 <? String.length config)%nat
                  then log (SDL_SetHint_GAMECONTROLLERCONFIG config)
                         (log (DevMsg_PassingConfig config) s)
                  else s)
               = m_bJoystickInitialized s /\
               joy_gamecontroller_config
                 (if (0 <? String.length config)%nat
                  then log (SDL_SetHint_GAMECONTROLLERCONFIG config)
                         (log (DevMsg_PassingConfig config) s)
                  else s)
               = joy_gamecontroller_config s /\
               core
                 (if (0 <? String.length config)%nat
                  then log (SDL_SetHint_GAMECONTROLLERCONFIG config)
                         (log (DevMsg_PassingConfig config) s)
                  else s)
               = core s).
    { intros s. destruct (0 <? String.length config)%nat; auto. }
    assert (Hnh : config = String.EmptyString ->
                  Forall (fun c => ~ is_set_hint c) (config_hint_calls config)).
    { intros E. rewrite (Hhint E). constructor. }
    destruct (init_result P =? 0) eqn:Hir; cbn [negb].
    + apply Z.eqb_eq in Hir.
      match goal with
      | |- exists sys' added, InitializeJoysticks_loop _ _ _ ?s = Some sys' /\ _ =>
          destruct (InitializeJoysticks_loop_log n (devices P)
                      (SDL_GetJoysticks (devices P)) s)
            as (sys' & msgs & E & Hl & Hm & Hi & Hc)
      end.
      cbn [subsystem_log log set_m_bJoystickInitialized m_bJoystickInitialized
           joy_gamecontroller_config] in Hl, Hi, Hc.
      rewrite Ehint in Hl. rewrite (proj1 (proj2 (Einit _))) in Hc.
      cbn [joy_gamecontroller_config set_core] in Hc.
      exists sys',
        (msgs ++ SDL_AddEventWatch :: SDL_InitSubSystem 0
              :: config_hint_calls config).
      split; [exact E|]. split; [reflexivity|].
      split; [rewrite Hc; exact Hc0|].
      split.
      { rewrite Hl, Hir. cbn [subsystem_log set_core].
        rewrite <- app_assoc. reflexivity. }
      split; [exact Hdown|]. split; [exact Hnot|].
      split; [discriminate|]. split; [intros _ Hne; contradiction|].
      split.
      { intros _ _. exists msgs. split; [exact Hm|]. split; [reflexivity|].
        exact Hi. }
      intros Ee. apply Forall_app. split.
      * eapply Forall_impl; [|exact Hm]. intros []; cbn; tauto.
      * constructor; [cbn; tauto|]. constructor; [cbn; tauto|]. now apply Hnh.
    + apply Z.eqb_neq in Hir.
      eexists _, (Warning_InitFailed :: SDL_InitSubSystem (init_result P)
                  :: config_hint_calls config).
      split; [reflexivity|]. split; [reflexivity|].
      cbn [joy_gamecontroller_config subsystem_log log m_bJoystickInitialized
           core].
      rewrite Ehint.
      destruct (Einit (set_core (set_info cleared_info
                                   (set_m_nJoystickCount 0 (core sys0))) sys0))
        as (Ei & Ec & Eco).
      rewrite Ei, Ec, Eco.
      split; [exact Hc0|]. split; [reflexivity|].
      split; [exact Hdown|]. split; [exact Hnot|].
      split; [discriminate|].
      split; [intros _ _; split; [reflexivity | split; [exact Hi0 | reflexivity]]|].
      split; [intros _ He; contradiction|].
      intros Ee. constructor; [cbn; tauto|]. constructor; [cbn; tauto|].
      now apply Hnh.
Qed.

(** The console variables follow the session.  When a gamepad that can be
    opened is announced while none is active, [joy_xcontroller_found] and
    [joystick] are set to true (each when the variable exists); when that
    joystick is removed, [joy_xcontroller_found] is set to false and
    [joystick] is left as it is. *)
Theorem console_variables_follow_the_session {enums : InputEnums}
    {convar : ConVarImpl} (n : nat) (L : DeviceLayer) (id : Z) (st : State) :
  layer_ids_valid L = true -> opens_as_gamepad L id = true ->
  m_nDeviceId (info st) = -1 -> joy_active st < 0 ->
  exists st1,
    JoystickHotplugAdded (S (S (S n))) L id st = Some st1 /\
    m_nDeviceId (info st1) = id /\
    xcontrollerVar st1 = option_map (fun _ => true) (xcontrollerVar st) /\
    joystickVar st1 = option_map (fun _ => true) (joystickVar st) /\
    xcontrollerVar (JoystickHotplugRemoved id st1)
      = option_map (fun _ => false) (xcontrollerVar st) /\
    joystickVar (JoystickHotplugRemoved id st1) = joystickVar st1.
Proof.
  intros Hv Hu Hcur Hneg.
  destruct (opens_as_gamepad_true L id Hu) as (_ & _ & Hg).
  assert (Hid : id <> -1) by (eapply SDL_OpenGamepad_valid; eauto).
  rewrite JoystickHotplugAdded_unfold.
  pose proof (SetValue_resets_preference n L) as HSV.
  set (SV := joy_active_SetValue
               (SearchForDevice_with (JoystickHotplugAdded (S (S n)) L) L)) in *.
  rewrite (JoystickHotplugAdded_body_accepts SV L id st Hu) by (left; auto).
  cbv zeta. rewrite Hcur. change (-1 =? -1) with true. cbv iota.
  match goal with
  | |- exists st1, JoystickHotplugAdded_open SV L id ?s = Some st1 /\ _ =>
      destruct (JoystickHotplugAdded_open_vars SV L id s HSV Hu Hid)
        as (st1 & E & Hi & Hd & Hx & Hj)
  end.
  cbn [xcontrollerVar joystickVar emit set_trace] in Hx, Hj.
  exists st1. split; [exact E|]. split; [exact Hi|].
  split; [exact Hx|]. split; [exact Hj|].
  destruct (JoystickHotplugRemoved_vars id st1 _ Hi Hd) as [Rx Rj].
  rewrite Rx, Rj, Hx. split; [|reflexivity].
  destruct (xcontrollerVar st); reflexivity.
Qed.

(* ------------------------------------------------------------------------- *)
(** ** The button table *)

Lemma mapped_button_code {enums : InputEnums} (button : Z) :
  In button button_table_keys ->
  In (ControllerButtonToButtonCode button) button_codes.
Proof.
  intros H. unfold button_table_keys in H. cbn [In] in H.
  repeat (destruct H as [<- | H]; [cbn; tauto|]). contradiction.
Qed.

(** The guide button is the back button.  [SDL_GAMEPAD_BUTTON_GUIDE] and
    [SDL_GAMEPAD_BUTTON_BACK] translate to the same code, so a press or a
    release of one reaches the host exactly as that of the other.  When the
    header gives the codes of the table different values, these two are the
    only buttons of the table that share a code; and when none of them is
    [BUTTON_CODE_NONE], the translation gives [BUTTON_CODE_NONE] exactly for
    the buttons the table has no case for. *)
Theorem guide_is_reported_as_back {enums : InputEnums} :
  (forall (id : Z) (st : State),
      JoystickButtonPress id SDL_GAMEPAD_BUTTON_GUIDE st
        = JoystickButtonPress id SDL_GAMEPAD_BUTTON_BACK st /\
      JoystickButtonRelease id SDL_GAMEPAD_BUTTON_GUIDE st
        = JoystickButtonRelease id SDL_GAMEPAD_BUTTON_BACK st) /\
  (NoDup button_codes ->
   forall b1 b2 : Z,
     In b1 button_table_keys -> In b2 button_table_keys ->
     ControllerButtonToButtonCode b1 = ControllerButtonToButtonCode b2 ->
     b1 = b2 \/
     (b1 = SDL_GAMEPAD_BUTTON_BACK /\ b2 = SDL_GAMEPAD_BUTTON_GUIDE) \/
     (b1 = SDL_GAMEPAD_BUTTON_GUIDE /\ b2 = SDL_GAMEPAD_BUTTON_BACK)) /\
  (~ In BUTTON_CODE_NONE button_codes ->
   forall b : Z,
     ControllerButtonToButtonCode b = BUTTON_CODE_NONE <->
     ~ In b button_table_keys).
Proof.
  split; [|split].
  - intros id st. split; reflexivity.
  - intros Hnd b1 b2 H1 H2.
    unfold button_codes in Hnd.
    repeat match goal with
    | H : NoDup (_ :: _) |- _ =>
        let N := fresh "N" in
        apply NoDup_cons_iff in H; destruct H as [N H]; cbn [In] in N
    end.
    repeat match goal with
    | H : ~ (_ \/ _) |- _ =>
        let N := fresh "N" in
        apply Decidable.not_or in H; destruct H as [N H]
    end.
    unfold button_table_keys in H1, H2. cbn [In] in H1, H2.
    repeat (destruct H1 as [<- | H1]; [|]); try contradiction;
      repeat (destruct H2 as [<- | H2]; [|]); try contradiction;
      cbn; intros Heq;
      first [ left; reflexivity
            | right; left; split; reflexivity
            | right; right; split; reflexivity
            | exfalso; congruence ].
  - intros Hnone b. split.
    + intros Hb Hin. apply Hnone. rewrite <- Hb.
      now apply mapped_button_code.
    + apply unmapped_button.
Qed.

(* ------------------------------------------------------------------------- *)
(** ** The ring buffer: pointers and bytes *)

Lemma mod_wrap (s x : Z) :
  0 < s -> 0 <= x < 2 * s -> x mod s = if x <? s then x else x - s.
Proof.
  intros Hs Hx. destruct (x <? s) eqn:E; bool_hyps.
  - apply Z.mod_small. lia.
  - symmetry. apply (Z.mod_unique x s 1 (x - s)); lia.
Qed.

Lemma mod_wrap_neg (s x : Z) :
  0 < s -> - s <= x < s -> x mod s = if x <? 0 then x + s else x.
Proof.
  intros Hs Hx. destruct (x <? 0) eqn:E; bool_hyps.
  - symmetry. apply (Z.mod_unique x s (-1) (x + s)); lia.
  - apply Z.mod_small. lia.
Qed.

Lemma available_wf (b : AudioBuf.t) :
  AudioBuf.wf b ->
  AudioBuf.available b =
    (AudioBuf.writePtr b - AudioBuf.readPtr b) mod AudioBuf.size b /\
  0 <= AudioBuf.available b < AudioBuf.size b.
Proof.
  intros Hwf. destruct (nAvalible_wf b Hwf) as (_ & E & Hav).
  split; [|exact Hav]. rewrite E. destruct Hwf as (Hs & _).
  replace (AudioBuf.size b + AudioBuf.writePtr b - AudioBuf.readPtr b)
    with ((AudioBuf.writePtr b - AudioBuf.readPtr b) + 1 * AudioBuf.size b) by lia.
  apply Z.mod_add. lia.
Qed.

Lemma byte_at_bytes_at (b : AudioBuf.t) (off n i : Z) :
  0 <= off -> 0 <= i < n ->
  byte_at (AudioBuf.bytes_at b off n) i = byte_at (AudioBuf.data b) (off + i).
Proof.
  intros Ho Hi. unfold byte_at, AudioBuf.bytes_at.
  rewrite nth_firstn.
  assert (E : (Z.to_nat i <? Z.to_nat n)%nat = true) by (apply Nat.ltb_lt; lia).
  rewrite E, nth_skipn. f_equal. lia.
Qed.

Lemma length_bytes_at (b : AudioBuf.t) (off n : Z) :
  0 <= off -> 0 <= n -> off + n <= Z.of_nat (length (AudioBuf.data b)) ->
  Z.of_nat (length (AudioBuf.bytes_at b off n)) = n.
Proof.
  intros Ho Hn Hb. unfold AudioBuf.bytes_at.
  rewrite length_firstn, length_skipn. lia.
Qed.

(** What [Read] does on a well-formed buffer: the bytes copied out are the
    stored ones from the read pointer on, around the end of the
    allocation. *)
Lemma Read_wf (b : AudioBuf.t) (len : Z) :
  AudioBuf.wf b -> 0 <= len ->
  let n := Z.min len (AudioBuf.available b) in
  exists out,
    AudioBuf.Read b len =
      Some (n, out, AudioBuf.mk (AudioBuf.size b) (AudioBuf.data b)
                      ((AudioBuf.readPtr b + n) mod AudioBuf.size b)
                      (AudioBuf.writePtr b)) /\
    Z.of_nat (length out) = n /\
    forall i, 0 <= i < n ->
      byte_at out i =
      byte_at (AudioBuf.data b) ((AudioBuf.readPtr b + i) mod AudioBuf.size b).
Proof.
  intros Hwf Hlen. pose proof Hwf as (Hs & Hd & Hr & Hw).
  destruct (available_wf b Hwf) as [_ Hav]. cbv zeta.
  pose proof (Read_returns b len Hwf Hlen) as E. cbv zeta in E.
  set (n := Z.min len (AudioBuf.available b)) in *.
  assert (Hn : 0 <= n < AudioBuf.size b) by (subst n; lia).
  eexists. split.
  { rewrite E. do 3 f_equal.
    rewrite (mod_wrap (AudioBuf.size b) (AudioBuf.readPtr b + n)) by lia.
    rewrite Z.geb_leb.
    destruct (AudioBuf.size b <=? AudioBuf.readPtr b + n) eqn:G1;
      destruct (AudioBuf.readPtr b + n <? AudioBuf.size b) eqn:G2;
      bool_hyps; try lia; reflexivity. }
  destruct (n >? AudioBuf.size b - AudioBuf.readPtr b) eqn:G; bool_hyps.
  + split.
    * rewrite length_app, Nat2Z.inj_add, !length_bytes_at by lia. lia.
    * intros i Hi. unfold byte_at.
      destruct (Z_lt_dec i (AudioBuf.size b - AudioBuf.readPtr b)) as [Hlt|Hge].
      -- rewrite app_nth1
           by (apply Nat2Z.inj_lt; rewrite length_bytes_at by lia; lia).
         fold (byte_at (AudioBuf.bytes_at b (AudioBuf.readPtr b)
                          (AudioBuf.size b - AudioBuf.readPtr b)) i).
         rewrite byte_at_bytes_at by lia.
         rewrite Z.mod_small by lia. reflexivity.
      -- rewrite app_nth2
           by (apply Nat2Z.inj_ge; rewrite length_bytes_at by lia; lia).
         assert (El : length (AudioBuf.bytes_at b (AudioBuf.readPtr b)
                                (AudioBuf.size b - AudioBuf.readPtr b))
                      = Z.to_nat (AudioBuf.size b - AudioBuf.readPtr b)).
         { apply Nat2Z.inj. rewrite length_bytes_at by lia. lia. }
         rewrite El.
         replace (Z.to_nat i - Z.to_nat (AudioBuf.size b - AudioBuf.readPtr b))%nat
           with (Z.to_nat (i - (AudioBuf.size b - AudioBuf.readPtr b))) by lia.
         fold (byte_at (AudioBuf.bytes_at b 0
                          (n - (AudioBuf.size b - AudioBuf.readPtr b)))
                 (i - (AudioBuf.size b - AudioBuf.readPtr b))).
         rewrite byte_at_bytes_at by lia.
         rewrite (mod_wrap (AudioBuf.size b)) by lia.
         assert (E' : (AudioBuf.readPtr b + i <? AudioBuf.size b) = false)
           by (apply Z.ltb_ge; lia).
         rewrite E'. unfold byte_at. f_equal. lia.
  + split.
    * rewrite length_bytes_at by lia. reflexivity.
    * intros i Hi. rewrite byte_at_bytes_at by lia.
      rewrite Z.mod_small by lia. reflexivity.
Qed.

Lemma length_store (d src : list byte) (off : Z) :
  0 <= off -> off + Z.of_nat (length src) <= Z.of_nat (length d) ->
  length (AudioBuf.store d off src) = length d.
Proof.
  intros Ho Hb. unfold AudioBuf.store.
  rewrite !length_app, length_firstn, length_skipn. lia.
Qed.

Lemma byte_at_store (d src : list byte) (off j : Z) :
  0 <= off -> off + Z.of_nat (length src) <= Z.of_nat (length d) -> 0 <= j ->
  byte_at (AudioBuf.store d off src) j =
    if (off <=? j) && (j <? off + Z.of_nat (length src))
    then byte_at src (j - off) else byte_at d j.
Proof.
  intros Ho Hb Hj. unfold byte_at, AudioBuf.store.
  assert (Hf : length (firstn (Z.to_nat off) d) = Z.to_nat off)
    by (rewrite length_firstn; lia).
  destruct (off <=? j) eqn:E1; bool_hyps; cbn [andb].
  - rewrite app_nth2 by lia. rewrite Hf.
    destruct (j <? off + Z.of_nat (length src)) eqn:E2; bool_hyps.
    + rewrite app_nth1 by lia. f_equal. lia.
    + rewrite app_nth2 by lia. rewrite nth_skipn. f_equal. lia.
  - rewrite app_nth1 by lia. rewrite nth_firstn.
    assert (E : (Z.to_nat j <? Z.to_nat off)%nat = true) by (apply Nat.ltb_lt; lia).
    rewrite E. reflexivity.
Qed.

(** What [Write] does on a well-formed buffer when the input is no longer
    than the buffer. *)
Lemma Write_wf (b : AudioBuf.t) (input : list byte) :
  AudioBuf.wf b -> Z.of_nat (length input) <= AudioBuf.size b ->
  exists d',
    AudioBuf.Write b input =
      Some (AudioBuf.mk (AudioBuf.size b) d' (AudioBuf.readPtr b)
              ((AudioBuf.writePtr b + Z.of_nat (length input))
                 mod AudioBuf.size b)) /\
    Z.of_nat (length d') = AudioBuf.size b /\
    forall j, 0 <= j < AudioBuf.size b ->
      byte_at d' j =
        if (j - AudioBuf.writePtr b) mod AudioBuf.size b
             <? Z.of_nat (length input)
        then byte_at input ((j - AudioBuf.writePtr b) mod AudioBuf.size b)
        else byte_at (AudioBuf.data b) j.
Proof.
  intros (Hs & Hd & Hr & Hw) Hlen. unfold AudioBuf.Write.
  set (len := Z.of_nat (length input)) in *.
  assert (Hl0 : 0 <= len) by (subst len; lia).
  rewrite (mod_wrap (AudioBuf.size b) (AudioBuf.writePtr b + len)) by lia.
  rewrite Z.geb_leb.
  assert (Ew : (if AudioBuf.size b <=? AudioBuf.writePtr b + len
                then AudioBuf.writePtr b + len - AudioBuf.size b
                else AudioBuf.writePtr b + len)
               = (if AudioBuf.writePtr b + len <? AudioBuf.size b
                  then AudioBuf.writePtr b + len
                  else AudioBuf.writePtr b + len - AudioBuf.size b)).
  { destruct (AudioBuf.size b <=? AudioBuf.writePtr b + len) eqn:G1;
      destruct (AudioBuf.writePtr b + len <? AudioBuf.size b) eqn:G2;
      bool_hyps; try lia; reflexivity. }
  rewrite Ew. clear Ew.
  destruct (len >? AudioBuf.size b - AudioBuf.writePtr b) eqn:G; bool_hyps.
  - assert (Hfit : (len - (AudioBuf.size b - AudioBuf.writePtr b)
                    <=? AudioBuf.size b) = true) by (apply Z.leb_le; lia).
    rewrite Hfit.
    set (diff := AudioBuf.size b - AudioBuf.writePtr b) in *.
    assert (L1 : Z.of_nat (length (firstn (Z.to_nat diff) input)) = diff)
      by (rewrite length_firstn; lia).
    assert (L2 : Z.of_nat (length (skipn (Z.to_nat diff) input)) = len - diff)
      by (rewrite length_skipn; lia).
    set (d1 := AudioBuf.store (AudioBuf.data b) (AudioBuf.writePtr b)
                 (firstn (Z.to_nat diff) input)).
    assert (Ld1 : length d1 = length (AudioBuf.data b))
      by (apply length_store; lia).
    eexists. split; [reflexivity|]. split.
    { rewrite length_store by lia. lia. }
    intros j Hj. rewrite byte_at_store by lia. rewrite L2.
    rewrite (mod_wrap_neg (AudioBuf.size b) (j - AudioBuf.writePtr b)) by lia.
    destruct (j - AudioBuf.writePtr b <? 0) eqn:Ej; bool_hyps.
    + assert (E0 : (0 <=? j) = true) by (apply Z.leb_le; lia).
      rewrite E0. cbn [andb]. rewrite Z.add_0_l.
      replace (j - AudioBuf.writePtr b + AudioBuf.size b) with (j + diff)
        by (subst diff; lia).
      destruct (j <? len - diff) eqn:E1; bool_hyps.
      * assert (E2 : (j + diff <? len) = true) by (apply Z.ltb_lt; lia).
        rewrite E2. unfold byte_at. rewrite nth_skipn. f_equal. lia.
      * assert (E2 : (j + diff <? len) = false) by (apply Z.ltb_ge; lia).
        rewrite E2. subst d1. rewrite byte_at_store by lia.
        assert (E3 : (AudioBuf.writePtr b <=? j) = false) by (apply Z.leb_gt; lia).
        rewrite E3. reflexivity.
    + assert (E1 : (0 <=? j) && (j <? 0 + (len - diff)) = false).
      { apply andb_false_iff. right. apply Z.ltb_ge. lia. }
      rewrite E1.
      assert (E2 : (j - AudioBuf.writePtr b <? len) = true)
        by (apply Z.ltb_lt; lia).
      rewrite E2. subst d1. rewrite byte_at_store by lia. rewrite L1.
      assert (E3 : (AudioBuf.writePtr b <=? j)
                   && (j <? AudioBuf.writePtr b + diff) = true).
      { apply andb_true_iff. split; [apply Z.leb_le | apply Z.ltb_lt]; lia. }
      rewrite E3. unfold byte_at. rewrite nth_firstn.
      assert (E4 : (Z.to_nat (j - AudioBuf.writePtr b) <? Z.to_nat diff)%nat = true)
        by (apply Nat.ltb_lt; lia).
      rewrite E4. reflexivity.
  - eexists. split; [reflexivity|]. split.
    { rewrite length_store by (fold len; lia). lia. }
    intros j Hj. rewrite byte_at_store by (fold len; lia). fold len.
    rewrite (mod_wrap_neg (AudioBuf.size b) (j - AudioBuf.writePtr b)) by lia.
    destruct (j - AudioBuf.writePtr b <? 0) eqn:Ej; bool_hyps.
    + assert (E1 : (AudioBuf.writePtr b <=? j) = false) by (apply Z.leb_gt; lia).
      rewrite E1. cbn [andb].
      assert (E2 : (j - AudioBuf.writePtr b + AudioBuf.size b <? len) = false)
        by (apply Z.ltb_ge; lia).
      rewrite E2. reflexivity.
    + assert (E1 : (AudioBuf.writePtr b <=? j) = true) by (apply Z.leb_le; lia).
      rewrite E1. cbn [andb].
      destruct (j - AudioBuf.writePtr b <? len) eqn:E2; bool_hyps.
      * assert (E3 : (j <? AudioBuf.writePtr b + len) = true)
          by (apply Z.ltb_lt; lia).
        rewrite E3. reflexivity.
      * assert (E3 : (j <? AudioBuf.writePtr b + len) = false)
          by (apply Z.ltb_ge; lia).
        rewrite E3. reflexivity.
Qed.

Lemma unread_wf (b : AudioBuf.t) :
  AudioBuf.wf b ->
  Z.of_nat (length (unread b)) = AudioBuf.available b /\
  forall i, 0 <= i < AudioBuf.available b ->
    byte_at (unread b) i =
    byte_at (AudioBuf.data b) ((AudioBuf.readPtr b + i) mod AudioBuf.size b).
Proof.
  intros Hwf. destruct (available_wf b Hwf) as [_ Hav].
  destruct (Read_wf b (AudioBuf.available b) Hwf) as (out & E & Hl & Hn);
    [lia|].
  rewrite Z.min_id in E, Hl, Hn. unfold unread. rewrite E. auto.
Qed.

Lemma firstn_plus (a b : nat) (l : list byte) :
  firstn (a + b) l = firstn a l ++ firstn b (skipn a l).
Proof.
  revert l. induction a as [|a IH]; intros l; [reflexivity|].
  destruct l as [|x l]; cbn [Nat.add firstn skipn app].
  - now rewrite firstn_nil.
  - f_equal. apply IH.
Qed.

Lemma byte_list_ext (l l' : list byte) :
  length l = length l' ->
  (forall i, 0 <= i < Z.of_nat (length l) -> byte_at l i = byte_at l' i) ->
  l = l'.
Proof.
  intros Hl Hn. apply (nth_ext l l' x00 x00 Hl). intros n Hlt.
  specialize (Hn (Z.of_nat n)). unfold byte_at in Hn.
  rewrite Nat2Z.id in Hn. apply Hn. lia.
Qed.

(** A [Write] that fits into the free space appends to the unread bytes. *)
Lemma Write_appends (b : AudioBuf.t) (input : list byte) :
  AudioBuf.wf b ->
  AudioBuf.available b + Z.of_nat (length input) < AudioBuf.size b ->
  exists b', AudioBuf.Write b input = Some b' /\ AudioBuf.wf b' /\
    AudioBuf.size b' = AudioBuf.size b /\
    AudioBuf.readPtr b' = AudioBuf.readPtr b /\
    AudioBuf.available b' = AudioBuf.available b + Z.of_nat (length input) /\
    unread b' = unread b ++ input.
Proof.
  intros Hwf Hfree. pose proof Hwf as (Hs & Hd & Hr & Hw).
  destruct (available_wf b Hwf) as [Eav Hav].
  destruct (Write_wf b input Hwf) as (d' & E & Ld' & Hd'); [lia|].
  set (len := Z.of_nat (length input)) in *.
  set (b' := AudioBuf.mk (AudioBuf.size b) d' (AudioBuf.readPtr b)
               ((AudioBuf.writePtr b + len) mod AudioBuf.size b)) in *.
  assert (Hwf' : AudioBuf.wf b').
  { unfold AudioBuf.wf. cbn. repeat split; try lia;
      apply Z.mod_pos_bound; lia. }
  assert (Eav' : AudioBuf.available b' = AudioBuf.available b + len).
  { rewrite (proj1 (available_wf b' Hwf')). cbn.
    rewrite Zminus_mod_idemp_l.
    replace (AudioBuf.writePtr b + len - AudioBuf.readPtr b)
      with ((AudioBuf.writePtr b - AudioBuf.readPtr b) + len) by lia.
    rewrite <- Zplus_mod_idemp_l, <- Eav. apply Z.mod_small. lia. }
  exists b'. split; [exact E|]. split; [exact Hwf'|].
  split; [reflexivity|]. split; [reflexivity|]. split; [exact Eav'|].
  destruct (unread_wf b Hwf) as [Lu Hu].
  destruct (unread_wf b' Hwf') as [Lu' Hu'].
  apply byte_list_ext.
  { rewrite length_app. apply Nat2Z.inj. rewrite Nat2Z.inj_add. fold len. lia. }
  intros i Hi. rewrite Lu', Eav' in Hi. rewrite Hu' by lia.
  unfold b'; cbn [AudioBuf.data AudioBuf.readPtr AudioBuf.size AudioBuf.writePtr].
  rewrite Hd' by (apply Z.mod_pos_bound; lia).
  assert (Eidx : ((AudioBuf.readPtr b + i) mod AudioBuf.size b
                  - AudioBuf.writePtr b) mod AudioBuf.size b
                 = (i - AudioBuf.available b) mod AudioBuf.size b).
  { rewrite Zminus_mod_idemp_l.
    rewrite Eav. rewrite Zminus_mod_idemp_r. f_equal. lia. }
  rewrite Eidx.
  rewrite (mod_wrap_neg (AudioBuf.size b) (i - AudioBuf.available b)) by lia.
  unfold byte_at at 3.
  destruct (i - AudioBuf.available b <? 0) eqn:Ei; bool_hyps.
  - assert (E1 : (i - AudioBuf.available b + AudioBuf.size b <? len) = false)
      by (apply Z.ltb_ge; lia).
    rewrite E1. rewrite app_nth1 by lia.
    fold (byte_at (unread b) i). rewrite Hu by lia. reflexivity.
  - assert (E1 : (i - AudioBuf.available b <? len) = true)
      by (apply Z.ltb_lt; lia).
    rewrite E1. rewrite app_nth2 by lia. unfold byte_at. f_equal. lia.
Qed.

(** A [Read] takes its bytes from the front of the unread bytes and leaves
    the rest. *)
Lemma Read_takes (b : AudioBuf.t) (len : Z) :
  AudioBuf.wf b -> 0 <= len ->
  let n := Z.min len (AudioBuf.available b) in
  exists b', AudioBuf.Read b len
               = Some (n, firstn (Z.to_nat n) (unread b), b') /\
    AudioBuf.wf b' /\ AudioBuf.size b' = AudioBuf.size b /\
    AudioBuf.data b' = AudioBuf.data b /\
    AudioBuf.writePtr b' = AudioBuf.writePtr b /\
    AudioBuf.readPtr b' = (AudioBuf.readPtr b + n) mod AudioBuf.size b /\
    AudioBuf.available b' = AudioBuf.available b - n /\
    unread b' = skipn (Z.to_nat n) (unread b).
Proof.
  intros Hwf Hlen. pose proof Hwf as (Hs & Hd & Hr & Hw).
  destruct (available_wf b Hwf) as [Eav Hav]. cbv zeta.
  destruct (Read_wf b len Hwf Hlen) as (out & E & Lo & Ho).
  cbv zeta in E, Lo, Ho.
  set (n := Z.min len (AudioBuf.available b)) in *.
  assert (Hn : 0 <= n <= AudioBuf.available b) by (subst n; lia).
  set (b' := AudioBuf.mk (AudioBuf.size b) (AudioBuf.data b)
               ((AudioBuf.readPtr b + n) mod AudioBuf.size b)
               (AudioBuf.writePtr b)) in *.
  destruct (unread_wf b Hwf) as [Lu Hu].
  assert (Hwf' : AudioBuf.wf b').
  { unfold AudioBuf.wf. cbn. repeat split; try lia;
      apply Z.mod_pos_bound; lia. }
  assert (Eav' : AudioBuf.available b' = AudioBuf.available b - n).
  { rewrite (proj1 (available_wf b' Hwf')). cbn.
    rewrite Zminus_mod_idemp_r.
    replace (AudioBuf.writePtr b - (AudioBuf.readPtr b + n))
      with ((AudioBuf.writePtr b - AudioBuf.readPtr b) - n) by lia.
    rewrite <- Zminus_mod_idemp_l, <- Eav. apply Z.mod_small. lia. }
  exists b'. split.
  { rewrite E. do 3 f_equal. apply byte_list_ext.
    - apply Nat2Z.inj. rewrite Lo, length_firstn. lia.
    - intros i Hi. rewrite Lo in Hi. rewrite Ho by lia.
      unfold byte_at at 2. rewrite nth_firstn.
      assert (E1 : (Z.to_nat i <? Z.to_nat n)%nat = true)
        by (apply Nat.ltb_lt; lia).
      rewrite E1. fold (byte_at (unread b) i). rewrite Hu by lia. reflexivity. }
  split; [exact Hwf'|]. do 4 (split; [reflexivity|]). split; [exact Eav'|].
  destruct (unread_wf b' Hwf') as [Lu' Hu'].
  apply byte_list_ext.
  { apply Nat2Z.inj. rewrite Lu', length_skipn. lia. }
  intros i Hi. rewrite Lu', Eav' in Hi. rewrite Hu' by lia.
  unfold b'; cbn [AudioBuf.data AudioBuf.readPtr AudioBuf.size AudioBuf.writePtr].
  unfold byte_at at 2. rewrite nth_skipn.
  replace (Z.to_nat n + Z.to_nat i)%nat with (Z.to_nat (n + i)) by lia.
  fold (byte_at (unread b) (n + i)). rewrite Hu by lia.
  f_equal. rewrite Zplus_mod_idemp_l. f_equal. lia.
Qed.

(* ------------------------------------------------------------------------- *)
(** ** The ring buffer as a queue: theorems *)

(** [Write] accepts every input no longer than the buffer and keeps the
    buffer well formed: the write pointer advances modulo the size and the
    read pointer stays.  Nothing is refused or reported when the input is
    larger than the free space: the number of unread bytes wraps around, so
    the reader is left with [size] bytes fewer than were stored. *)
Theorem Write_wraps_silently (b : AudioBuf.t) (input : list byte) :
  AudioBuf.wf b -> Z.of_nat (length input) <= AudioBuf.size b ->
  exists b', AudioBuf.Write b input = Some b' /\ AudioBuf.wf b' /\
    AudioBuf.size b' = AudioBuf.size b /\
    AudioBuf.readPtr b' = AudioBuf.readPtr b /\
    AudioBuf.writePtr b' =
      (AudioBuf.writePtr b + Z.of_nat (length input)) mod AudioBuf.size b /\
    AudioBuf.available b' =
      (if AudioBuf.available b + Z.of_nat (length input) <? AudioBuf.size b
       then AudioBuf.available b + Z.of_nat (length input)
       else AudioBuf.available b + Z.of_nat (length input) - AudioBuf.size b).
Proof.
  intros Hwf Hlen. pose proof Hwf as (Hs & Hd & Hr & Hw).
  destruct (available_wf b Hwf) as [Eav Hav].
  destruct (Write_wf b input Hwf Hlen) as (d' & E & Ld' & _).
  eexists. split; [exact E|].
  match goal with |- AudioBuf.wf ?x /\ _ => set (b' := x) end.
  assert (Hwf' : AudioBuf.wf b').
  { unfold AudioBuf.wf, b'. cbn. repeat split; try lia;
      apply Z.mod_pos_bound; lia. }
  split; [exact Hwf'|]. do 3 (split; [reflexivity|]).
  rewrite (proj1 (available_wf b' Hwf')). unfold b'.
  cbn [AudioBuf.writePtr AudioBuf.readPtr AudioBuf.size].
  rewrite Zminus_mod_idemp_l.
  replace (AudioBuf.writePtr b + Z.of_nat (length input) - AudioBuf.readPtr b)
    with ((AudioBuf.writePtr b - AudioBuf.readPtr b) + Z.of_nat (length input))
    by lia.
  rewrite <- Zplus_mod_idemp_l, <- Eav. apply mod_wrap; lia.
Qed.

(** First in, first out, writing: a [Write] that fits into the free space
    (one byte is always kept free) leaves the unread bytes followed by the
    input as the unread bytes. *)
Theorem Write_appends_to_unread (b : AudioBuf.t) (input : list byte) :
  AudioBuf.wf b ->
  AudioBuf.available b + Z.of_nat (length input) < AudioBuf.size b ->
  exists b', AudioBuf.Write b input = Some b' /\ AudioBuf.wf b' /\
    unread b' = unread b ++ input /\
    AudioBuf.available b' = AudioBuf.available b + Z.of_nat (length input).
Proof.
  intros Hwf Hfree.
  destruct (Write_appends b input Hwf Hfree) as (b' & E & Hwf' & _ & _ & Ea & Eu).
  exists b'. repeat split; auto; apply Hwf'.
Qed.

(** First in, first out, reading.  On a well-formed buffer [Read] returns
    [min len available] and copies out that many bytes: byte [i] of the
    output is the byte stored at offset [(readPtr + i) mod size], so the
    output is the oldest unread bytes in their order.  The read pointer
    advances by that number modulo the size; the bytes left unread are the
    stored ones that follow, in their order; the stored bytes and the write
    pointer are not touched. *)
Theorem Read_takes_oldest_first (b : AudioBuf.t) (len : Z) :
  AudioBuf.wf b -> 0 <= len ->
  exists (n : Z) (out : list byte) (b' : AudioBuf.t),
    AudioBuf.Read b len = Some (n, out, b') /\
    n = Z.min len (AudioBuf.available b) /\
    Z.of_nat (length out) = n /\
    (forall i, 0 <= i < n ->
       byte_at out i =
       byte_at (AudioBuf.data b)
         ((AudioBuf.readPtr b + i) mod AudioBuf.size b)) /\
    Z.of_nat (length (unread b')) = AudioBuf.available b - n /\
    (forall i, 0 <= i < AudioBuf.available b - n ->
       byte_at (unread b') i =
       byte_at (AudioBuf.data b)
         ((AudioBuf.readPtr b + n + i) mod AudioBuf.size b)) /\
    out = firstn (Z.to_nat n) (unread b) /\
    unread b' = skipn (Z.to_nat n) (unread b) /\
    unread b = out ++ unread b' /\
    AudioBuf.wf b' /\ AudioBuf.size b' = AudioBuf.size b /\
    AudioBuf.data b' = AudioBuf.data b /\
    AudioBuf.writePtr b' = AudioBuf.writePtr b /\
    AudioBuf.readPtr b' = (AudioBuf.readPtr b + n) mod AudioBuf.size b.
Proof.
  intros Hwf Hlen. pose proof Hwf as (Hs & _).
  destruct (available_wf b Hwf) as [_ Hav].
  destruct (Read_takes b len Hwf Hlen)
    as (b1 & E & Hwf1 & Es & Ed & Ew & Er & Ea & Eu).
  destruct (Read_wf b len Hwf Hlen) as (out & E' & Lo & Ho).
  cbv zeta in E, E', Lo, Ho, Er, Ea, Eu.
  set (n := Z.min len (AudioBuf.available b)) in *.
  assert (Hn : 0 <= n <= AudioBuf.available b) by (subst n; lia).
  assert (Eo : out = firstn (Z.to_nat n) (unread b)) by congruence.
  destruct (unread_wf b1 Hwf1) as [Lu1 Hu1].
  exists n, out, b1. split; [rewrite E, Eo; reflexivity|].
  split; [reflexivity|]. split; [exact Lo|]. split; [exact Ho|].
  split; [rewrite Lu1; exact Ea|]. split.
  { intros i Hi. rewrite Hu1 by lia. rewrite Ed, Er, Es.
    rewrite Zplus_mod_idemp_l. reflexivity. }
  split; [exact Eo|]. split; [exact Eu|].
  split; [rewrite Eo, Eu; symmetry; apply firstn_skipn|].
  split; [exact Hwf1|]. split; [exact Es|]. split; [exact Ed|].
  split; [exact Ew | exact Er].
Qed.

(** Round trip: bytes written to an empty buffer (fewer than its size) are
    read back unchanged, and the buffer is empty again afterwards. *)
Theorem Write_then_Read_round_trip (b : AudioBuf.t) (input : list byte) :
  AudioBuf.wf b -> AudioBuf.writePtr b = AudioBuf.readPtr b ->
  Z.of_nat (length input) < AudioBuf.size b ->
  exists b1 b2,
    AudioBuf.Write b input = Some b1 /\
    AudioBuf.Read b1 (Z.of_nat (length input))
      = Some (Z.of_nat (length input), input, b2) /\
    AudioBuf.writePtr b2 = AudioBuf.readPtr b2 /\ AudioBuf.wf b2.
Proof.
  intros Hwf Hempty Hlen. pose proof Hwf as (Hs & _).
  assert (Hav : AudioBuf.available b = 0).
  { rewrite (proj1 (available_wf b Hwf)), Hempty, Z.sub_diag.
    apply Z.mod_0_l. lia. }
  assert (Hu : unread b = []).
  { destruct (unread_wf b Hwf) as [Lu _]. rewrite Hav in Lu.
    destruct (unread b); [reflexivity | cbn in Lu; lia]. }
  destruct (Write_appends b input Hwf) as (b1 & E1 & Hwf1 & Es & Er & Ea & Eu);
    [lia|].
  rewrite Hu in Eu. cbn [app] in Eu. rewrite Hav, Z.add_0_l in Ea.
  destruct (Read_takes b1 (Z.of_nat (length input)) Hwf1)
    as (b2 & E2 & Hwf2 & Es2 & _ & Ew2 & Er2 & Ea2 & _); [lia|].
  cbv zeta in E2, Ea2, Er2. rewrite Ea, Z.min_id in E2, Ea2, Er2.
  rewrite Eu, Nat2Z.id, firstn_all in E2.
  exists b1, b2. split; [exact E1|]. split; [exact E2|].
  split; [|exact Hwf2].
  rewrite Z.sub_diag in Ea2.
  rewrite (proj1 (available_wf b2 Hwf2)) in Ea2.
  destruct Hwf2 as (Hs2 & _ & Hr2 & Hw2).
  rewrite mod_wrap_neg in Ea2 by lia.
  destruct (AudioBuf.writePtr b2 - AudioBuf.readPtr b2 <? 0) eqn:G; bool_hyps;
    lia.
Qed.

(** Reads compose: two consecutive reads of [m] and [n] bytes return, one
    after the other, what a single read of [m + n] bytes returns, and leave
    the same buffer. *)
Theorem Read_then_Read (b : AudioBuf.t) (m n : Z) :
  AudioBuf.wf b -> 0 <= m -> 0 <= n ->
  exists (k1 k2 : Z) (out1 out2 : list byte) (b1 b2 : AudioBuf.t),
    AudioBuf.Read b m = Some (k1, out1, b1) /\
    AudioBuf.Read b1 n = Some (k2, out2, b2) /\
    AudioBuf.Read b (m + n) = Some (k1 + k2, out1 ++ out2, b2).
Proof.
  intros Hwf Hm Hn. pose proof Hwf as (Hs & _).
  destruct (available_wf b Hwf) as [_ Hav].
  destruct (Read_takes b m Hwf Hm)
    as (b1 & E1 & Hwf1 & Es1 & Ed1 & Ew1 & Er1 & Ea1 & Eu1).
  destruct (Read_takes b1 n Hwf1 Hn)
    as (b2 & E2 & Hwf2 & Es2 & Ed2 & Ew2 & Er2 & Ea2 & Eu2).
  destruct (Read_takes b (m + n) Hwf)
    as (b3 & E3 & Hwf3 & Es3 & Ed3 & Ew3 & Er3 & Ea3 & Eu3); [lia|].
  cbv zeta in *.
  set (k1 := Z.min m (AudioBuf.available b)) in *.
  set (k2 := Z.min n (AudioBuf.available b1)) in *.
  assert (Hk : Z.min (m + n) (AudioBuf.available b) = k1 + k2)
    by (subst k1 k2; lia).
  rewrite Hk in *.
  assert (Hk1 : 0 <= k1) by (subst k1; lia).
  assert (Hk2 : 0 <= k2) by (subst k2; lia).
  exists k1, k2, (firstn (Z.to_nat k1) (unread b)),
    (firstn (Z.to_nat k2) (unread b1)), b1, b2.
  split; [exact E1|]. split; [exact E2|]. rewrite E3.
  do 2 f_equal; [f_equal|].
  - rewrite Eu1. rewrite Z2Nat.inj_add by lia.
    rewrite firstn_plus. reflexivity.
  - destruct b2 as [s2 d2 r2 w2], b3 as [s3 d3 r3 w3]. cbn in *.
    f_equal; try congruence.
    rewrite Er3, Er2, Er1, Es1. rewrite Zplus_mod_idemp_l. f_equal. lia.
Qed.

(* ------------------------------------------------------------------------- *)
(** ** The voice recorder *)

(** [GetRecordedData] never returns more than was asked for, and may
    consume part of a sample.  With a buffer allocated, [nSamples] and the
    sample size positive and their product an [int], the call copies out
    [min (nSamples * size) available] bytes, the oldest unread ones, and
    returns their number divided by the sample size: at most [nSamples].
    The bytes of a last, incomplete sample are copied and consumed but not
    counted; there are none when the unread bytes are whole samples.
    Without a buffer, or for [nSamples] 0, the call returns 0 and changes
    nothing. *)
Theorem GetRecordedData_counts_whole_samples :
  (forall (nSamples : Z) (v : VoiceRecord_SDL.t) (b : AudioBuf.t),
      VoiceRecord_SDL.m_AudioBuffer v = Some b -> AudioBuf.wf b ->
      0 < nSamples -> 0 < VoiceRecord_SDL.m_BytesPerSample v ->
      nSamples * VoiceRecord_SDL.m_BytesPerSample v <= F32.INT_MAX ->
      let size := VoiceRecord_SDL.m_BytesPerSample v in
      let copied := Z.min (nSamples * size) (AudioBuf.available b) in
      exists k out b',
        VoiceRecord_SDL.GetRecordedData nSamples v
          = Some (k, out, VoiceRecord_SDL.set_m_AudioBuffer (Some b') v) /\
        k = copied / size /\ 0 <= k <= nSamples /\
        out = firstn (Z.to_nat copied) (unread b) /\
        unread b' = skipn (Z.to_nat copied) (unread b) /\
        Z.of_nat (length out) = k * size + copied mod size /\
        ((size | AudioBuf.available b) -> Z.of_nat (length out) = k * size)) /\
  (forall (nSamples : Z) (v : VoiceRecord_SDL.t),
      VoiceRecord_SDL.m_AudioBuffer v = None \/ nSamples = 0 ->
      VoiceRecord_SDL.GetRecordedData nSamples v = Some (0, [], v)).
Proof.
  split.
  - intros nSamples v b Hb Hwf Hn Hs Hmax. cbv zeta.
    set (size := VoiceRecord_SDL.m_BytesPerSample v) in *.
    destruct (available_wf b Hwf) as [_ Hav].
    destruct (unread_wf b Hwf) as [Lu _].
    destruct (Read_takes b (nSamples * size) Hwf)
      as (b' & E & _ & _ & _ & _ & _ & _ & Eu); [nia|].
    cbv zeta in E, Eu.
    set (copied := Z.min (nSamples * size) (AudioBuf.available b)) in *.
    assert (Hc : 0 <= copied <= nSamples * size) by (subst copied; nia).
    exists (copied / size), (firstn (Z.to_nat copied) (unread b)), b'.
    split.
    { unfold VoiceRecord_SDL.GetRecordedData. rewrite Hb.
      assert (E0 : (nSamples =? 0) = false) by (apply Z.eqb_neq; lia).
      rewrite E0. fold size.
      assert (E1 : VoiceRecord_SDL.in_int (nSamples * size) = true).
      { unfold VoiceRecord_SDL.in_int. apply andb_true_iff.
        split; apply Z.leb_le; [unfold F32.INT_MIN; nia | exact Hmax]. }
      rewrite E1. cbn [negb].
      assert (E3 : (size =? 0) = false) by (apply Z.eqb_neq; lia).
      rewrite E, E3.
      rewrite Z.quot_div_nonneg by lia. reflexivity. }
    split; [reflexivity|].
    assert (Hk : 0 <= copied / size <= nSamples).
    { split; [apply Z.div_pos; lia|].
      apply Z.div_le_upper_bound; [lia | nia]. }
    split; [exact Hk|]. split; [reflexivity|]. split; [exact Eu|].
    assert (Hl : Z.of_nat (length (firstn (Z.to_nat copied) (unread b))) = copied).
    { rewrite length_firstn. subst copied. lia. }
    split.
    + rewrite Hl. rewrite (Z.div_mod copied size) at 1 by lia. lia.
    + intros [q Hq]. rewrite Hl.
      assert (Hm : copied mod size = 0).
      { subst copied. destruct (Z.min_spec (nSamples * size) (AudioBuf.available b))
          as [[_ ->] | [_ ->]].
        - apply Z.mod_mul. lia.
        - rewrite Hq. apply Z.mod_mul. lia. }
      rewrite (Z.div_mod copied size) at 1 by lia. lia.
  - intros nSamples v [Hnone | Hz]; unfold VoiceRecord_SDL.GetRecordedData.
    + rewrite Hnone. reflexivity.
    + subst nSamples. destruct (VoiceRecord_SDL.m_AudioBuffer v); reflexivity.
Qed.

Lemma byte_at_repeat (n : nat) (i : Z) : byte_at (repeat x00 n) i = x00.
Proof. unfold byte_at. apply nth_repeat. Qed.

Lemma firstn_zeros (k m : nat) :
  (k <= m)%nat -> firstn k (repeat x00 m) = repeat x00 k.
Proof.
  intros Hk. apply byte_list_ext.
  - rewrite length_firstn, !repeat_length. lia.
  - intros i Hi. rewrite byte_at_repeat. unfold byte_at.
    rewrite nth_firstn, nth_repeat. now destruct (_ <? _)%nat.
Qed.

(** A buffer just set up by [InitalizeInterfaces]: zeroed, read pointer at
    the start, write pointer [ofs] bytes further. *)
Lemma unread_of_zeroed (size ofs : Z) :
  0 <= ofs < size ->
  let b := AudioBuf.mk size (repeat x00 (Z.to_nat size)) 0 ofs in
  AudioBuf.wf b /\ unread b = repeat x00 (Z.to_nat ofs).
Proof.
  intros Ho. cbv zeta.
  set (b := AudioBuf.mk size (repeat x00 (Z.to_nat size)) 0 ofs).
  assert (Hwf : AudioBuf.wf b).
  { unfold AudioBuf.wf, b. cbn. rewrite repeat_length. lia. }
  split; [exact Hwf|].
  destruct (unread_wf b Hwf) as [Lu Hu].
  assert (Ea : AudioBuf.available b = ofs).
  { rewrite (proj1 (available_wf b Hwf)). cbn. rewrite Z.sub_0_r.
    apply Z.mod_small. lia. }
  apply byte_list_ext.
  - apply Nat2Z.inj. rewrite Lu, Ea, repeat_length. lia.
  - intros i Hi. rewrite Lu in Hi. rewrite Hu by exact Hi. unfold b.
    cbn [AudioBuf.data]. now rewrite !byte_at_repeat.
Qed.

(** Recording starts with silence.  For a received format with a positive
    sample size and a rate of more than 4096/3 samples a second (the sizes
    computed are [int]s), stopping a recorder and starting it again with a
    device that opens leaves a zeroed buffer whose unread bytes are
    [2 * SAMPLE_COUNT] samples of zeros, whatever was unread before; the
    next [GetRecordedData] for up to that many samples returns them.  The
    same holds for the first start, when no buffer is allocated yet. *)
Theorem RecordStart_begins_with_silence (device : Z) (v : VoiceRecord_SDL.t) :
  let spec := VoiceRecord_SDL.m_ReceivedRecordingSpec v in
  let size := VoiceRecord_SDL.channels spec
              * (VoiceRecord_SDL.SDL_AUDIO_BITSIZE (VoiceRecord_SDL.format spec) / 8) in
  let total := VoiceRecord_SDL.RECORDING_BUFFER_SECONDS
               * (VoiceRecord_SDL.freq spec * size) in
  let cushion := 2 * VoiceRecord_SDL.SAMPLE_COUNT in
  0 < size -> cushion * size < total -> total <= F32.INT_MAX ->
  device <> 0 ->
  (VoiceRecord_SDL.m_AudioBuffer v = None \/
   exists b0, VoiceRecord_SDL.m_AudioBuffer v = Some b0 /\
              Z.of_nat (length (AudioBuf.data b0)) = total) ->
  let v0 := VoiceRecord_SDL.RecordStop v in
  VoiceRecord_SDL.m_Device v0 = 0 /\
  VoiceRecord_SDL.m_AudioBuffer v0 = VoiceRecord_SDL.m_AudioBuffer v /\
  exists v1 b,
    VoiceRecord_SDL.RecordStart device v0 = Some (true, v1) /\
    VoiceRecord_SDL.m_Device v1 = device /\
    VoiceRecord_SDL.m_BytesPerSample v1 = size /\
    VoiceRecord_SDL.m_AudioBuffer v1 = Some b /\
    AudioBuf.wf b /\ AudioBuf.size b = total /\
    unread b = repeat x00 (Z.to_nat (cushion * size)) /\
    (forall n, 0 < n <= cushion ->
       exists v2, VoiceRecord_SDL.GetRecordedData n v1
                  = Some (n, repeat x00 (Z.to_nat (n * size)), v2)).
Proof.
  cbv zeta. intros Hsize Hcush Hmax Hdev Hbuf.
  set (spec := VoiceRecord_SDL.m_ReceivedRecordingSpec v) in *.
  set (size := VoiceRecord_SDL.channels spec
               * (VoiceRecord_SDL.SDL_AUDIO_BITSIZE (VoiceRecord_SDL.format spec) / 8)) in *.
  set (total := VoiceRecord_SDL.RECORDING_BUFFER_SECONDS
                * (VoiceRecord_SDL.freq spec * size)) in *.
  unfold VoiceRecord_SDL.SAMPLE_COUNT in *.
  unfold F32.INT_MAX in Hmax.
  set (v0 := VoiceRecord_SDL.RecordStop v).
  assert (Hd0 : VoiceRecord_SDL.m_Device v0 = 0).
  { unfold v0, VoiceRecord_SDL.RecordStop, VoiceRecord_SDL.ReleaseInterfaces.
    reflexivity. }
  assert (Hb0 : VoiceRecord_SDL.m_AudioBuffer v0 = VoiceRecord_SDL.m_AudioBuffer v).
  { unfold v0, VoiceRecord_SDL.RecordStop, VoiceRecord_SDL.ReleaseInterfaces.
    destruct (negb (VoiceRecord_SDL.m_Device v =? 0)); cbn;
      match goal with
      | |- context [if ?c then _ else _] => destruct c
      end; reflexivity. }
  assert (Hs0 : VoiceRecord_SDL.m_ReceivedRecordingSpec v0 = spec).
  { unfold v0, VoiceRecord_SDL.RecordStop, VoiceRecord_SDL.ReleaseInterfaces.
    destruct (negb (VoiceRecord_SDL.m_Device v =? 0)); cbn;
      match goal with
      | |- context [if ?c then _ else _] => destruct c
      end; reflexivity. }
  split; [exact Hd0|]. split; [exact Hb0|].
  assert (Hfreq : 0 < VoiceRecord_SDL.freq spec).
  { unfold total, VoiceRecord_SDL.RECORDING_BUFFER_SECONDS in Hcush. nia. }
  assert (Hbps : VoiceRecord_SDL.to_int32 size = size).
  { unfold VoiceRecord_SDL.to_int32.
    unfold total, VoiceRecord_SDL.RECORDING_BUFFER_SECONDS in Hmax.
    rewrite Z.mod_small; [lia|]. split; [lia|].
    change (2 ^ 32) with 4294967296. change (2 ^ 31) with 2147483648.
    change (2 ^ 31 - 1) with 2147483647 in Hmax. nia. }
  assert (Hlen : exists d, Z.of_nat (length d) = total /\
            match VoiceRecord_SDL.m_AudioBuffer v0 with
            | Some b => Some (AudioBuf.data b)
            | None => if 0 <? total then Some (repeat x00 (Z.to_nat total))
                      else None
            end = Some d).
  { rewrite Hb0. destruct Hbuf as [-> | (b0 & -> & Hl)].
    - assert (E : (0 <? total) = true) by (apply Z.ltb_lt; lia).
      rewrite E. eexists. split; [|reflexivity]. rewrite repeat_length. lia.
    - eauto. }
  destruct Hlen as (d & Ld & Ealloc).
  assert (Hz : VoiceRecord_SDL.zero_fill d total = repeat x00 (Z.to_nat total)).
  { unfold VoiceRecord_SDL.zero_fill. rewrite skipn_all2 by lia.
    apply app_nil_r. }
  set (b := AudioBuf.mk total (repeat x00 (Z.to_nat total)) 0 (4096 * size)).
  destruct (unread_of_zeroed total (4096 * size)) as [Hwf Hun]; [lia|].
  fold b in Hwf, Hun.
  assert (Einit : VoiceRecord_SDL.InitalizeInterfaces device v0 =
            Some (true,
                  VoiceRecord_SDL.set_m_AudioBuffer (Some b)
                    (VoiceRecord_SDL.set_m_BytesPerSample size
                       (VoiceRecord_SDL.set_m_Device device
                          (VoiceRecord_SDL.call
                             (VoiceRecord_SDL.SDL_OpenAudioDeviceStream device)
                             v0))))).
  { unfold VoiceRecord_SDL.InitalizeInterfaces.
    apply Z.eqb_neq in Hdev. rewrite Hdev. cbn [negb].
    cbn [VoiceRecord_SDL.m_ReceivedRecordingSpec VoiceRecord_SDL.set_m_Device
         VoiceRecord_SDL.call VoiceRecord_SDL.set_m_BytesPerSample
         VoiceRecord_SDL.m_AudioBuffer].
    rewrite Hs0. fold size. rewrite Hbps. fold total.
    unfold VoiceRecord_SDL.SAMPLE_COUNT.
    assert (Ein : VoiceRecord_SDL.in_int (VoiceRecord_SDL.freq spec * size)
                  && VoiceRecord_SDL.in_int total
                  && VoiceRecord_SDL.in_int (2048 * size)
                  && VoiceRecord_SDL.in_int (2048 * size * 2) = true).
    { unfold VoiceRecord_SDL.in_int, F32.INT_MIN, F32.INT_MAX.
      unfold total, VoiceRecord_SDL.RECORDING_BUFFER_SECONDS in *.
      change (2 ^ 31) with 2147483648.
      change (2 ^ 31 - 1) with 2147483647 in Hmax.
      repeat (apply andb_true_iff; split); apply Z.leb_le; nia. }
    rewrite Ein, Ealloc.
    assert (Echk : (0 <=? total) && (total <=? Z.of_nat (length d))
                   && (0 <=? 2048 * size * 2)
                   && (2048 * size * 2 <=? Z.of_nat (length d)) = true).
    { repeat (apply andb_true_iff; split); apply Z.leb_le; lia. }
    rewrite Echk, Hz. unfold b.
    replace (2048 * size * 2) with (4096 * size) by lia. reflexivity. }
  eexists _, b. split.
  { unfold VoiceRecord_SDL.RecordStart. rewrite Hd0, Z.eqb_refl, Einit.
    cbn [VoiceRecord_SDL.m_Device VoiceRecord_SDL.set_m_AudioBuffer
         VoiceRecord_SDL.set_m_BytesPerSample VoiceRecord_SDL.set_m_Device].
    apply Z.eqb_neq in Hdev. rewrite Hdev. reflexivity. }
  cbn. do 3 (split; [reflexivity|]). split; [exact Hwf|].
  split; [reflexivity|]. split.
  { rewrite Hun. f_equal. }
  intros n Hn.
  destruct (available_wf b Hwf) as [Ea _].
  assert (Eav : AudioBuf.available b = 4096 * size).
  { rewrite Ea. unfold b.
    cbn [AudioBuf.writePtr AudioBuf.readPtr AudioBuf.size].
    rewrite Z.sub_0_r. apply Z.mod_small. lia. }
  assert (Hns : 0 <= n * size <= 4096 * size).
  { split; [apply Z.mul_nonneg_nonneg; lia
           | apply Z.mul_le_mono_nonneg_r; lia]. }
  destruct (Read_takes b (n * size) Hwf) as (b' & E & _); [lia|].
  cbv zeta in E. rewrite Eav in E.
  rewrite Z.min_l in E by lia.
  rewrite Hun, firstn_zeros in E by lia.
  eexists. unfold VoiceRecord_SDL.GetRecordedData.
  cbn [VoiceRecord_SDL.m_AudioBuffer VoiceRecord_SDL.set_m_AudioBuffer
       VoiceRecord_SDL.m_BytesPerSample VoiceRecord_SDL.set_m_BytesPerSample].
  assert (E0 : (n =? 0) = false) by (apply Z.eqb_neq; lia).
  rewrite E0.
  assert (E1 : VoiceRecord_SDL.in_int (n * size) = true).
  { unfold VoiceRecord_SDL.in_int, F32.INT_MIN, F32.INT_MAX.
    change (2 ^ 31) with 2147483648.
    change (2 ^ 31 - 1) with 2147483647 in Hmax.
    apply andb_true_iff. split; apply Z.leb_le; lia. }
  rewrite E1. cbn [negb].
  assert (E3 : (size =? 0) = false) by (apply Z.eqb_neq; lia).
  rewrite E, E3.
  rewrite Z.quot_mul by lia. reflexivity.
Qed.

(* ------------------------------------------------------------------------- *)
(** ** The life cycle of a recorder *)

Section RecorderInvariant.
Import VoiceRecord_SDL.
Variable spec : SDL_AudioSpec.
Hypothesis Hsize : 0 < sample_bytes spec.
Hypothesis Hcush : 2 * SAMPLE_COUNT * sample_bytes spec < buffer_bytes spec.
Hypothesis Hmax : buffer_bytes spec <= F32.INT_MAX.

Lemma sample_bytes_int : to_int32 (sample_bytes spec) = sample_bytes spec.
Proof.
  unfold to_int32. unfold buffer_bytes, RECORDING_BUFFER_SECONDS, SAMPLE_COUNT,
    F32.INT_MAX in *.
  change (2 ^ 31 - 1) with 2147483647 in Hmax.
  change (2 ^ 32) with 4294967296. change (2 ^ 31) with 2147483648.
  rewrite Z.mod_small; [lia|]. nia.
Qed.

Ltac inv_goals :=
  unfold recorder_inv; cbn [m_ReceivedRecordingSpec m_BytesPerSample
    m_nSampleRate m_Device m_AudioBuffer audio_calls set_m_BytesPerSample
    set_m_nSampleRate set_m_Device set_m_AudioBuffer call current_device
    device_calls_ok];
  split; [|split; [|split; [|split]]].

Lemma recorder_inv_release (v : t) :
  recorder_inv spec v ->
  recorder_inv spec (ReleaseInterfaces v) /\ m_Device (ReleaseInterfaces v) = 0.
Proof.
  intros (Hs & Hc & Hok & Hd & Hb). unfold ReleaseInterfaces.
  destruct (m_Device v =? 0) eqn:E; cbn [negb]; (split; [|reflexivity]).
  - apply Z.eqb_eq in E. inv_goals; auto; try lia.
  - apply Z.eqb_neq in E. inv_goals; auto; try lia.
Qed.

Lemma recorder_inv_stop (v : t) : recorder_inv spec v -> recorder_inv spec (RecordStop v).
Proof.
  intros Hinv. unfold RecordStop.
  destruct (m_Device v =? 0) eqn:E; cbn [negb].
  - now apply recorder_inv_release.
  - apply recorder_inv_release.
    destruct Hinv as (Hs & Hc & Hok & Hd & Hb). apply Z.eqb_neq in E.
    inv_goals; auto.
Qed.

Lemma recorder_inv_init (sampleRate : Z) (v : t) :
  recorder_inv spec v -> recorder_inv spec (snd (Init sampleRate v)).
Proof.
  intros (Hs & Hc & Hok & Hd & Hb). unfold Init. cbn [snd].
  apply recorder_inv_release. inv_goals; auto.
Qed.

Lemma recorder_inv_initialize (device : Z) (v : t) :
  recorder_inv spec v -> m_Device v = 0 ->
  exists r v', InitalizeInterfaces device v = Some (r, v') /\
    recorder_inv spec v' /\ m_Device v' = device.
Proof.
  intros (Hs & Hc & Hok & Hd & Hb) Hz. unfold InitalizeInterfaces.
  destruct (device =? 0) eqn:E; cbn [negb].
  - apply Z.eqb_eq in E. subst device. eexists _, _. split; [reflexivity|].
    split; [|reflexivity]. inv_goals; auto; try lia.
    split; [lia | exact Hok].
  - apply Z.eqb_neq in E.
    cbn [m_ReceivedRecordingSpec set_m_Device call set_m_BytesPerSample
         m_AudioBuffer].
    rewrite Hs. fold (sample_bytes spec). rewrite sample_bytes_int.
    fold (buffer_bytes spec).
    assert (Ein : in_int (freq spec * sample_bytes spec)
                  && in_int (buffer_bytes spec)
                  && in_int (SAMPLE_COUNT * sample_bytes spec)
                  && in_int (SAMPLE_COUNT * sample_bytes spec * 2) = true).
    { unfold in_int, F32.INT_MIN, F32.INT_MAX, buffer_bytes,
        RECORDING_BUFFER_SECONDS, SAMPLE_COUNT in *.
      change (2 ^ 31) with 2147483648.
      change (2 ^ 31 - 1) with 2147483647 in Hmax.
      repeat (apply andb_true_iff; split); apply Z.leb_le; nia. }
    rewrite Ein.
    assert (Hlen : exists d, Z.of_nat (length d) = buffer_bytes spec /\
              match m_AudioBuffer v with
              | Some b => Some (AudioBuf.data b)
              | None => if 0 <? buffer_bytes spec
                        then Some (repeat x00 (Z.to_nat (buffer_bytes spec)))
                        else None
              end = Some d).
    { destruct (m_AudioBuffer v) as [b0|] eqn:Eb.
      - destruct (Hb b0 eq_refl) as ((_ & Hl & _) & Hsz & _).
        exists (AudioBuf.data b0). split; [lia | reflexivity].
      - assert (E0 : (0 <? buffer_bytes spec) = true).
        { apply Z.ltb_lt. unfold SAMPLE_COUNT in Hcush. lia. }
        rewrite E0. eexists. split; [|reflexivity]. rewrite repeat_length.
        unfold SAMPLE_COUNT in Hcush. lia. }
    destruct Hlen as (d & Ld & Ealloc). rewrite Ealloc.
    assert (Echk : (0 <=? buffer_bytes spec)
                   && (buffer_bytes spec <=? Z.of_nat (length d))
                   && (0 <=? SAMPLE_COUNT * sample_bytes spec * 2)
                   && (SAMPLE_COUNT * sample_bytes spec * 2
                         <=? Z.of_nat (length d)) = true).
    { unfold SAMPLE_COUNT in *.
      repeat (apply andb_true_iff; split); apply Z.leb_le; lia. }
    rewrite Echk.
    set (b1 := AudioBuf.mk (buffer_bytes spec)
                 (zero_fill d (buffer_bytes spec)) 0
                 (SAMPLE_COUNT * sample_bytes spec * 2)).
    assert (Hwf : AudioBuf.wf b1).
    { unfold AudioBuf.wf, b1, zero_fill.
      cbn [AudioBuf.size AudioBuf.data AudioBuf.readPtr AudioBuf.writePtr].
      rewrite length_app, repeat_length, length_skipn.
      unfold SAMPLE_COUNT in *. lia. }
    exists true,
      (set_m_AudioBuffer (Some b1)
         (set_m_BytesPerSample (sample_bytes spec)
            (set_m_Device device (call (SDL_OpenAudioDeviceStream device) v)))).
    split; [reflexivity|].
    split; [|reflexivity]. inv_goals; auto; try discriminate.
    + split; [lia | exact Hok].
    + intros b Eb. replace b with b1 by congruence.
      split; [exact Hwf | split; reflexivity].
Qed.

Lemma recorder_inv_start (device : Z) (v : t) :
  recorder_inv spec v ->
  exists r v', RecordStart device v = Some (r, v') /\ recorder_inv spec v'.
Proof.
  intros Hinv. unfold RecordStart.
  destruct (m_Device v =? 0) eqn:E.
  - apply Z.eqb_eq in E.
    destruct (recorder_inv_initialize device v Hinv E)
      as (r & v' & Ei & Hinv' & Hd').
    rewrite Ei. destruct (m_Device v' =? 0) eqn:E'.
    + eexists _, _. split; [reflexivity | exact Hinv'].
    + eexists _, _. split; [reflexivity|].
      destruct Hinv' as (Hs & Hc & Hok & Hd & Hb). apply Z.eqb_neq in E'.
      inv_goals; auto.
  - rewrite E. eexists _, _. split; [reflexivity|].
    destruct Hinv as (Hs & Hc & Hok & Hd & Hb). apply Z.eqb_neq in E.
    inv_goals; auto.
Qed.

Lemma wf_moved (b : AudioBuf.t) (d : list byte) (r w : Z) :
  AudioBuf.wf b -> Z.of_nat (length d) = AudioBuf.size b ->
  AudioBuf.wf (AudioBuf.mk (AudioBuf.size b) d (r mod AudioBuf.size b)
                 (w mod AudioBuf.size b)).
Proof.
  intros (H1 & H2 & H3 & H4) Hl. unfold AudioBuf.wf.
  cbn [AudioBuf.size AudioBuf.data AudioBuf.readPtr AudioBuf.writePtr].
  split; [exact H1|]. split; [exact Hl|].
  split; apply Z.mod_pos_bound; lia.
Qed.

Lemma recorder_inv_render (pszBuf : list byte) (v : t) :
  recorder_inv spec v -> m_Device v <> 0 ->
  Z.of_nat (length pszBuf) <= buffer_bytes spec ->
  exists v', RenderBuffer pszBuf v = Some v' /\ recorder_inv spec v'.
Proof.
  intros (Hs & Hc & Hok & Hd & Hb) Hdev Hlen. unfold RenderBuffer.
  destruct (m_AudioBuffer v) as [b|] eqn:Eb; [|now elim (Hd Hdev)].
  destruct (Hb b eq_refl) as (Hwf & Hsz & Hbps).
  destruct (Write_wf b pszBuf Hwf) as (d' & Ew & Ld & _); [lia|].
  rewrite Ew. eexists. split; [reflexivity|].
  inv_goals; auto; try discriminate.
  intros b' Eb'. injection Eb' as <-. cbn [AudioBuf.size].
  split; [|split; assumption].
  pose proof (wf_moved b d' (AudioBuf.readPtr b)
                (AudioBuf.writePtr b + Z.of_nat (length pszBuf)) Hwf Ld) as W.
  rewrite (Z.mod_small (AudioBuf.readPtr b)) in W
    by (destruct Hwf as (_ & _ & H3 & _); exact H3).
  exact W.
Qed.

Lemma recorder_inv_get (nSamples : Z) (v : t) :
  recorder_inv spec v -> 0 <= nSamples ->
  nSamples * sample_bytes spec <= F32.INT_MAX ->
  exists k out v', GetRecordedData nSamples v = Some (k, out, v') /\
    recorder_inv spec v'.
Proof.
  intros Hinv Hn Hm. pose proof Hinv as (Hs & Hc & Hok & Hd & Hb).
  unfold GetRecordedData.
  destruct (m_AudioBuffer v) as [b|] eqn:Eb;
    [|eexists _, _, _; split; [reflexivity | exact Hinv]].
  destruct (nSamples =? 0) eqn:E0;
    [eexists _, _, _; split; [reflexivity | exact Hinv]|].
  apply Z.eqb_neq in E0.
  destruct (Hb b eq_refl) as (Hwf & Hsz & Hbps). rewrite Hbps.
  assert (Hpos : 0 <= nSamples * sample_bytes spec)
    by (apply Z.mul_nonneg_nonneg; lia).
  assert (E1 : in_int (nSamples * sample_bytes spec) = true).
  { unfold in_int, F32.INT_MIN. apply andb_true_iff.
    split; apply Z.leb_le; [|exact Hm].
    change (2 ^ 31) with 2147483648. lia. }
  rewrite E1. cbn [negb].
  assert (E3 : (sample_bytes spec =? 0) = false) by (apply Z.eqb_neq; lia).
  destruct (Read_wf b (nSamples * sample_bytes spec) Hwf Hpos)
    as (out & Er & _).
  cbv zeta in Er. rewrite Er, E3. eexists _, _, _. split; [reflexivity|].
  inv_goals; auto; try discriminate.
  intros b' Eb'. injection Eb' as <-. cbn [AudioBuf.size].
  split; [|split; assumption].
  pose proof (wf_moved b (AudioBuf.data b)
                (AudioBuf.readPtr b
                 + Z.min (nSamples * sample_bytes spec) (AudioBuf.available b))
                (AudioBuf.writePtr b) Hwf
                (proj1 (proj2 Hwf))) as W.
  rewrite (Z.mod_small (AudioBuf.writePtr b)) in W
    by (destruct Hwf as (_ & _ & _ & H4); exact H4).
  exact W.
Qed.

Lemma recorder_inv_call (c : RecorderCall) (v : t) :
  recorder_inv spec v -> recorder_call_valid spec c = true ->
  exists v', recorder_call c v = Some v' /\ recorder_inv spec v'.
Proof.
  intros Hinv Hv. destruct c as [r | d | | buf | n]; cbn [recorder_call].
  - eexists. split; [reflexivity|]. now apply recorder_inv_init.
  - destruct (recorder_inv_start d v Hinv) as (r & v' & E & H). rewrite E.
    eauto.
  - eexists. split; [reflexivity|]. now apply recorder_inv_stop.
  - destruct (m_Device v =? 0) eqn:E; [eauto|].
    apply Z.eqb_neq in E. cbn in Hv. apply Z.leb_le in Hv.
    now apply recorder_inv_render.
  - cbn in Hv. apply andb_true_iff in Hv. destruct Hv as [H0 H1].
    apply Z.leb_le in H0, H1.
    destruct (recorder_inv_get n v Hinv H0 H1) as (k & out & v' & E & H).
    rewrite E. eauto.
Qed.

Lemma recorder_inv_calls (cs : list RecorderCall) (v : t) :
  recorder_inv spec v -> forallb (recorder_call_valid spec) cs = true ->
  exists v', recorder_calls cs v = Some v' /\ recorder_inv spec v'.
Proof.
  revert v. induction cs as [|c cs IH]; intros v Hinv Hv; cbn.
  - eauto.
  - cbn in Hv. apply andb_true_iff in Hv. destruct Hv as [Hc Hcs].
    destruct (recorder_inv_call c v Hinv Hc) as (v1 & E & H1). rewrite E.
    now apply IH.
Qed.

End RecorderInvariant.

(** The life cycle of a recorder, for a format that gives a buffer.  No code
    of the file writes [m_ReceivedRecordingSpec]; suppose the format it
    holds has a positive sample size and a buffer size that is an [int] and
    larger than the cushion of [2 * SAMPLE_COUNT] samples.  Take a recorder
    with no device, no buffer and nothing called yet, as the constructor
    leaves it.  Let [Init], [RecordStart], [RecordStop], the stream callback
    and [GetRecordedData] follow in any order and number, the callback
    running only while a device is open and delivering no more than the
    buffer holds, the reader asking for a number of samples that is not
    negative and whose byte size is an [int].  Then every call returns.  A
    stream is opened only while no device is open; a device is resumed,
    paused and closed only while it is the open one; and the device that is
    open at the end is the one the recorder holds.  While a device is open
    the buffer is allocated, and once allocated it is a well-formed ring of
    the size computed from the format. *)
Theorem recorder_life_cycle (cs : list VoiceRecord_SDL.RecorderCall)
    (v : VoiceRecord_SDL.t) :
  let spec := VoiceRecord_SDL.m_ReceivedRecordingSpec v in
  0 < VoiceRecord_SDL.sample_bytes spec ->
  2 * VoiceRecord_SDL.SAMPLE_COUNT * VoiceRecord_SDL.sample_bytes spec
    < VoiceRecord_SDL.buffer_bytes spec ->
  VoiceRecord_SDL.buffer_bytes spec <= F32.INT_MAX ->
  VoiceRecord_SDL.m_Device v = 0 -> VoiceRecord_SDL.m_AudioBuffer v = None ->
  VoiceRecord_SDL.audio_calls v = [] ->
  forallb (VoiceRecord_SDL.recorder_call_valid spec) cs = true ->
  exists v',
    VoiceRecord_SDL.recorder_calls cs v = Some v' /\
    VoiceRecord_SDL.device_calls_ok (VoiceRecord_SDL.audio_calls v') /\
    VoiceRecord_SDL.current_device (VoiceRecord_SDL.audio_calls v')
      = VoiceRecord_SDL.m_Device v' /\
    (VoiceRecord_SDL.m_Device v' <> 0 ->
     VoiceRecord_SDL.m_AudioBuffer v' <> None) /\
    (forall b, VoiceRecord_SDL.m_AudioBuffer v' = Some b ->
       AudioBuf.wf b /\ AudioBuf.size b = VoiceRecord_SDL.buffer_bytes spec).
Proof.
  cbv zeta. intros Hsize Hcush Hmax Hd Hb Hc Hv.
  assert (Hinv : VoiceRecord_SDL.recorder_inv
                   (VoiceRecord_SDL.m_ReceivedRecordingSpec v) v).
  { unfold VoiceRecord_SDL.recorder_inv. rewrite Hd, Hb, Hc. cbn.
    repeat split; auto; discriminate. }
  destruct (recorder_inv_calls _ Hsize Hcush Hmax cs v Hinv Hv)
    as (v' & E & _ & Hc' & Hok' & Hd' & Hb').
  exists v'. split; [exact E|]. split; [exact Hok'|]. split; [exact Hc'|].
  split; [exact Hd'|]. intros b Eb. destruct (Hb' b Eb) as (H1 & H2 & _).
  auto.
Qed.

(* ------------------------------------------------------------------------- *)
(** ** The further theorems at concrete inputs *)

Lemma entry_points_keep_one_session_witness :
  (info_reset (info (fresh_state (-1))) /\ trace (fresh_state (-1)) = [] /\
   forallb input_call_layer_valid sample_input_calls = true) /\
  (exists st',
     input_calls (enums := sdk_enums) (convar := sdk_convar) 3
       sample_input_calls (fresh_state (-1)) = Some st' /\
     single_session (trace st') /\
     (m_pDevice (info st') = None <-> m_nDeviceId (info st') = -1) /\
     live (trace st')
       = match m_pDevice (info st') with Some _ => 1 | None => 0 end).
Proof.
  assert (H1 : info_reset (info (fresh_state (-1)))) by (repeat split).
  assert (H3 : forallb input_call_layer_valid sample_input_calls = true)
    by reflexivity.
  split; [repeat split; auto|].
  exact (entry_points_keep_one_session (enums := sdk_enums)
           (convar := sdk_convar) 0 sample_input_calls (fresh_state (-1))
           H1 eq_refl H3).
Defined.

Lemma rumble_commands_reach_open_handles_witness :
  (info_reset (info (fresh_state (-1))) /\ trace (fresh_state (-1)) = [] /\
   forallb input_call_layer_valid sample_input_calls = true) /\
  (exists st',
     input_calls (enums := sdk_enums) (convar := sdk_convar) 3
       sample_input_calls (fresh_state (-1)) = Some st' /\
     rumble_safe (trace st') /\
     forall h, m_pHaptic (info st') = Some h ->
               haptic_open (trace st') h = true).
Proof.
  assert (H1 : info_reset (info (fresh_state (-1)))) by (repeat split).
  assert (H3 : forallb input_call_layer_valid sample_input_calls = true)
    by reflexivity.
  split; [repeat split; auto|].
  exact (rumble_commands_reach_open_handles (enums := sdk_enums)
           (convar := sdk_convar) 0 sample_input_calls (fresh_state (-1))
           H1 eq_refl H3).
Defined.


Lemma trigger_presses_once_per_crossing_witness :
  (trigger_codes_ok (enums := sdk_enums) /\
   is_trigger_axis SDL_GAMEPAD_AXIS_LEFT_TRIGGER /\
   m_nDeviceId (info (active_state 1)) = 1 /\
   0 <= m_appXKeys (active_state 1) 0 /\
   m_appXKeys (active_state 1) 0 + Z.of_nat (length trigger_samples)
     <= F32.INT_MAX) /\
  (exists new,
     button_events
       (axis_samples (enums := sdk_enums) 1 SDL_GAMEPAD_AXIS_LEFT_TRIGGER
          trigger_samples (active_state 1))
       = button_events (active_state 1) ++ new /\
     count_pressed 154 new = 1%nat /\ count_released 154 new = 4%nat /\
     no_double_press 154 false new = true).
Proof.
  assert (Hok : trigger_codes_ok (enums := sdk_enums))
    by (unfold trigger_codes_ok; cbn; lia).
  assert (Hax : is_trigger_axis SDL_GAMEPAD_AXIS_LEFT_TRIGGER)
    by (left; reflexivity).
  assert (H0 : 0 <= m_appXKeys (active_state 1) 0) by (cbn; lia).
  assert (Hmax : m_appXKeys (active_state 1) 0
                 + Z.of_nat (length trigger_samples) <= F32.INT_MAX)
    by (vm_compute; discriminate).
  split; [repeat split; auto; try (cbn; lia); apply Hok|].
  destruct (trigger_presses_once_per_crossing (enums := sdk_enums) 1
              SDL_GAMEPAD_AXIS_LEFT_TRIGGER trigger_samples Hok Hax
              (active_state 1) eq_refl H0 Hmax)
    as (new & E & _ & Hp & Hr & Hnd).
  exists new. split; [exact E|]. split; [exact Hp|]. split; [exact Hr|].
  exact Hnd.
Defined.

Lemma unknown_axis_only_warns_witness :
  (m_nDeviceId (info (active_state 1)) = 1 /\ ~ In 6 axis_table_keys) /\
  ControllerAxisToAnalogCode (enums := sdk_enums) 6 = -1 /\
  JoystickAxisMotion (enums := sdk_enums) 1 6 12345 (active_state 1)
    = emit (Warning (InvalidAxisCode 6)) (active_state 1).
Proof.
  assert (Hn : ~ In 6 axis_table_keys).
  { cbn. intros H. repeat (destruct H as [H|H]; [discriminate|]). exact H. }
  split; [split; [reflexivity | exact Hn]|].
  exact (unknown_axis_only_warns (enums := sdk_enums) 1 6 12345
           (active_state 1) eq_refl Hn).
Defined.

Lemma axis_sample_writes_one_channel_witness :
  (m_nDeviceId (info (active_state 1)) = 1 /\
   ControllerAxisToAnalogCode (enums := sdk_enums) SDL_GAMEPAD_AXIS_LEFTX
     <> ANALOG_CODE_INVALID (InputEnums := sdk_enums)) /\
  (let st' := JoystickAxisMotion (enums := sdk_enums) 1 SDL_GAMEPAD_AXIS_LEFTX
                20000 (active_state 1) in
   m_pAnalogValue (current_input st') 4 = 20000 /\
   m_pAnalogDelta (current_input st') 4 = 20000 /\
   analog_events_rev (trace st') = [(4, 20000)] /\
   (forall c, c <> 4 ->
      m_pAnalogValue (current_input st') c = 0 /\
      m_pAnalogDelta (current_input st') c = 0)).
Proof.
  assert (Hc : ControllerAxisToAnalogCode (enums := sdk_enums)
                 SDL_GAMEPAD_AXIS_LEFTX
               <> ANALOG_CODE_INVALID (InputEnums := sdk_enums))
    by (cbn; lia).
  split; [split; [reflexivity | exact Hc]|].
  destruct (axis_sample_writes_one_channel (enums := sdk_enums) 1
              SDL_GAMEPAD_AXIS_LEFTX 20000 (active_state 1) eq_refl Hc)
    as (Hv & Hd & He & Hf & _).
  cbv zeta. split; [exact Hv|]. split; [exact Hd|]. split; [exact He|].
  exact Hf.
Defined.

Lemma dead_zone_jitter_is_silent_witness :
  (ControllerAxisToAnalogCode (enums := sdk_enums) SDL_GAMEPAD_AXIS_LEFTX
     <> ANALOG_CODE_INVALID (InputEnums := sdk_enums) /\
   m_nDeviceId (info (active_state 1)) = 1 /\
   Forall (fun v => Z.abs v < dead_zone_min (active_state 1))
     [100; -200; 6552] /\
   m_pAnalogValue (current_input (active_state 1)) 4 = 0) /\
  (let st' := axis_samples (enums := sdk_enums) 1 SDL_GAMEPAD_AXIS_LEFTX
                [100; -200; 6552] (active_state 1) in
   analog_events_rev (trace st') = [] /\
   m_pAnalogValue (current_input st') 4 = 0 /\
   m_pAnalogDelta (current_input st') 4 = 0).
Proof.
  assert (Hc : ControllerAxisToAnalogCode (enums := sdk_enums)
                 SDL_GAMEPAD_AXIS_LEFTX
               <> ANALOG_CODE_INVALID (InputEnums := sdk_enums))
    by (cbn; lia).
  assert (Hall : Forall (fun v => Z.abs v < dead_zone_min (active_state 1))
                   [100; -200; 6552])
    by (repeat constructor).
  split; [repeat split; auto|].
  exact (dead_zone_jitter_is_silent (enums := sdk_enums) 1
           SDL_GAMEPAD_AXIS_LEFTX [100; -200; 6552] Hc (active_state 1)
           eq_refl Hall eq_refl).
Defined.

Lemma rumble_stop_is_sent_once_witness :
  (0 <= m_nDeviceId (info (rumbling_state 1 (F32.lit 1 2))) /\
   m_pHaptic (info (rumbling_state 1 (F32.lit 1 2))) = Some (mkHaptic 1) /\
   should_stop (rumbling_state 1 (F32.lit 1 2)) (F32.of_int 0) (F32.of_int 0)
     = true) /\
  (let st1 := SetXDeviceRumble [pad 1] (F32.of_int 0) (F32.of_int 0) 0
                (rumbling_state 1 (F32.lit 1 2)) in
   trace st1 = E_StopHapticRumble (mkHaptic 1)
               :: trace (rumbling_state 1 (F32.lit 1 2)) /\
   m_bRumbleEnabled (info st1) = false /\
   SetXDeviceRumble [pad 1] (F32.of_int 0) (F32.of_int 0) 0 st1 = st1).
Proof.
  assert (H0 : 0 <= m_nDeviceId (info (rumbling_state 1 (F32.lit 1 2))))
    by (cbn; lia).
  assert (Hs : should_stop (rumbling_state 1 (F32.lit 1 2)) (F32.of_int 0)
                 (F32.of_int 0) = true) by (vm_compute; reflexivity).
  split; [split; [exact H0 | split; [reflexivity | exact Hs]]|].
  destruct (rumble_stop_is_sent_once [pad 1] (F32.of_int 0) (F32.of_int 0) 0
              (rumbling_state 1 (F32.lit 1 2)) (mkHaptic 1) H0 eq_refl Hs)
    as (_ & Hoff & Hon & _ & Hagain).
  cbv zeta. split; [exact (proj1 (Hon eq_refl))|]. split; [exact Hoff|].
  exact (Hagain [pad 1] (F32.of_int 0) (F32.of_int 0) 0 Hs).
Defined.

Lemma failed_rumble_init_leaves_haptic_open_witness :
  (find_device [pad_without_rumble 1] 1 = Some (pad_without_rumble 1) /\
   dev_rumble_init (pad_without_rumble 1) <> 0 /\
   m_nDeviceId (info (fresh_state (-1))) = -1 /\
   joy_active (fresh_state (-1)) < 0) /\
  (exists st1,
     JoystickHotplugAdded (enums := sdk_enums) (convar := sdk_convar) 3
       [pad_without_rumble 1] 1 (fresh_state (-1)) = Some st1 /\
     m_pHaptic (info st1) = None /\
     haptic_open (trace st1) (mkHaptic 1) = true /\
     haptic_open (trace (JoystickHotplugRemoved 1 st1)) (mkHaptic 1) = true).
Proof.
  assert (Hr : dev_rumble_init (pad_without_rumble 1) <> 0) by (cbn; lia).
  assert (Hid : 1 <> -1) by lia.
  assert (Hj : joy_active (fresh_state (-1)) < 0) by (cbn; lia).
  split; [repeat split; auto|].
  destruct (failed_rumble_init_leaves_haptic_open (enums := sdk_enums)
              (convar := sdk_convar) 0 [pad_without_rumble 1] 1
              (pad_without_rumble 1) (fresh_state (-1)) eq_refl eq_refl
              eq_refl eq_refl eq_refl Hr Hid eq_refl Hj)
    as (st1 & E & _ & _ & Hh & Ho & _ & Hrem).
  exists st1. split; [exact E|]. split; [exact Hh|]. split; [exact Ho|].
  exact (proj2 Hrem).
Defined.

Lemma joy_active_selects_attached_joystick_witness :
  (0 <= 2 /\ In 2 (SDL_GetJoysticks [pad 1; pad 2]) /\
   opens_as_gamepad [pad 1; pad 2] 2 = true /\
   change_callback_runs (ConVarImpl := sdk_convar)
     (joy_active (active_state 1)) 2 = true) /\
  (exists st',
     joy_active_set (enums := sdk_enums) (convar := sdk_convar) 3
       [pad 1; pad 2] 2 (active_state 1) = Some st' /\
     m_nDeviceId (info st') = 2 /\
     m_pDevice (info st') = Some (mkGamepad 2) /\ joy_active st' = -1).
Proof.
  assert (H0 : 0 <= 2) by lia.
  assert (Hin : In 2 (SDL_GetJoysticks [pad 1; pad 2]))
    by (right; left; reflexivity).
  split; [repeat split; auto|].
  destruct (joy_active_selects_attached_joystick (enums := sdk_enums)
              (convar := sdk_convar) 0 [pad 1; pad 2] 2 (active_state 1)
              H0 Hin eq_refl eq_refl)
    as (st' & E & Hid & Hother).
  assert (Hne : m_nDeviceId (info (active_state 1)) <> 2) by (cbn; lia).
  exists st'. split; [exact E|]. split; [exact Hid|]. exact (Hother Hne).
Defined.

Lemma search_leaves_probed_joysticks_open_witness :
  0 <= joy_active switching_state /\
  (exists st' new,
     SearchForDevice (enums := sdk_enums) (convar := sdk_convar) 3
       [pad 1; pad 2] switching_state = Some st' /\
     trace st' = new ++ trace switching_state /\
     joystick_handles new = 2).
Proof.
  assert (H0 : 0 <= joy_active switching_state) by (cbn; lia).
  split; [exact H0|].
  exact (proj2 (search_leaves_probed_joysticks_open (enums := sdk_enums)
                  (convar := sdk_convar) 0 [pad 1; pad 2])
           switching_state H0).
Defined.


Lemma InitializeJoysticks_opens_first_available_witness :
  (nojoy sample_platform = false /\ init_result sample_platform = 0 /\
   layer_ids_valid (devices sample_platform) = true /\
   joy_active (core (fresh_system String.EmptyString)) < 0) /\
  (exists sys',
     InitializeJoysticks (enums := sdk_enums) (convar := sdk_convar) 3
       sample_platform (fresh_system String.EmptyString) = Some sys' /\
     m_bJoystickInitialized sys' = true /\
     m_nDeviceId (info (core sys')) = 7 /\
     m_pDevice (info (core sys')) = Some (mkGamepad 7) /\
     m_nJoystickCount (core sys') = 1).
Proof.
  assert (Hj : joy_active (core (fresh_system String.EmptyString)) < 0)
    by (cbn; lia).
  split; [repeat split; auto|].
  destruct (InitializeJoysticks_opens_first_available (enums := sdk_enums)
              (convar := sdk_convar) 0 sample_platform
              (fresh_system String.EmptyString) eq_refl eq_refl eq_refl Hj)
    as (sys' & E & Hi & Hid & Hsome & _).
  assert (Hne : first_available (devices sample_platform) <> -1)
    by (vm_compute; discriminate).
  destruct (Hsome Hne) as (Hd & Hc & _).
  exists sys'. split; [exact E|]. split; [exact Hi|]. split; [exact Hid|].
  split; [exact Hd | exact Hc].
Defined.

Lemma InitializeJoysticks_stops_early_witness :
  (nojoy nojoy_platform = true \/ init_result nojoy_platform <> 0) /\
  (exists sys',
     InitializeJoysticks (enums := sdk_enums) (convar := sdk_convar) 3
       nojoy_platform (fresh_system String.EmptyString) = Some sys' /\
     m_bJoystickInitialized sys' = false /\
     info (core sys') = cleared_info /\
     subsystem_log sys' = [] /\
     ShutdownJoysticks sys' = sys').
Proof.
  assert (H : nojoy nojoy_platform = true \/ init_result nojoy_platform <> 0)
    by (left; reflexivity).
  split; [exact H|].
  destruct (InitializeJoysticks_stops_early (enums := sdk_enums)
              (convar := sdk_convar) 3 nojoy_platform
              (fresh_system String.EmptyString) H)
    as (sys' & added & E & Hi & Hinfo & _ & _ & Hlog & _ & Hnone & Hsh).
  exists sys'. split; [exact E|]. split; [exact Hi|]. split; [exact Hinfo|].
  split; [|exact Hsh].
  rewrite Hlog, (Hnone eq_refl). reflexivity.
Defined.

Lemma config_change_restarts_joysticks_witness :
  ((exists s, Some sample_config = Some s /\ s <> String.EmptyString) \/
   joy_gamecontroller_config (fresh_system String.EmptyString)
     <> String.EmptyString) /\
  (exists sys' msgs,
     joy_gamecontroller_config_changed_f (enums := sdk_enums)
       (convar := sdk_convar) 3 sample_platform true (Some sample_config)
       (fresh_system String.EmptyString) = Some sys' /\
     Forall is_no_configuration_msg msgs /\
     subsystem_log sys' = msgs ++ [SDL_AddEventWatch; SDL_InitSubSystem 0] /\
     m_bJoystickInitialized sys' = true /\
     Forall (fun c => ~ is_set_hint c) (subsystem_log sys')).
Proof.
  assert (Hs : sample_config <> String.EmptyString)
    by (vm_compute; discriminate).
  assert (Hrun : (exists s, Some sample_config = Some s
                            /\ s <> String.EmptyString) \/
                 joy_gamecontroller_config (fresh_system String.EmptyString)
                   <> String.EmptyString)
    by (left; exists sample_config; split; [reflexivity | exact Hs]).
  split; [exact Hrun|].
  destruct (proj2 (config_change_restarts_joysticks (enums := sdk_enums)
                     (convar := sdk_convar) 0 sample_platform
                     (Some sample_config)
                     (fresh_system String.EmptyString)) Hrun)
    as (sys' & added & E & _ & _ & Hlog & _ & _ & _ & _ & Hok & Hnone).
  destruct (Hok eq_refl eq_refl) as (msgs & Hm & Ha & Hi).
  exists sys', msgs. split; [exact E|]. split; [exact Hm|].
  assert (El : subsystem_log sys' = added).
  { rewrite Hlog. apply app_nil_r. }
  split; [rewrite El, Ha; reflexivity|]. split; [exact Hi|].
  rewrite El. exact (Hnone eq_refl).
Defined.

Lemma console_variables_follow_the_session_witness :
  (layer_ids_valid [pad 1] = true /\ opens_as_gamepad [pad 1] 1 = true /\
   m_nDeviceId (info (fresh_state (-1))) = -1 /\
   joy_active (fresh_state (-1)) < 0) /\
  (exists st1,
     JoystickHotplugAdded (enums := sdk_enums) (convar := sdk_convar) 3
       [pad 1] 1 (fresh_state (-1)) = Some st1 /\
     xcontrollerVar st1 = Some true /\ joystickVar st1 = Some true /\
     xcontrollerVar (JoystickHotplugRemoved 1 st1) = Some false /\
     joystickVar (JoystickHotplugRemoved 1 st1) = Some true).
Proof.
  assert (Hj : joy_active (fresh_state (-1)) < 0) by (cbn; lia).
  split; [repeat split; auto|].
  destruct (console_variables_follow_the_session (enums := sdk_enums)
              (convar := sdk_convar) 0 [pad 1] 1 (fresh_state (-1))
              eq_refl eq_refl eq_refl Hj)
    as (st1 & E & _ & Hx & Hjv & Hx' & Hjv').
  exists st1. split; [exact E|]. split; [exact Hx|]. split; [exact Hjv|].
  split; [exact Hx'|]. rewrite Hjv'. exact Hjv.
Defined.

Lemma Write_wraps_silently_witness :
  (AudioBuf.wf wrapped_buffer /\
   Z.of_nat (length [x01; x02; x03]) <= AudioBuf.size wrapped_buffer) /\
  (exists b', AudioBuf.Write wrapped_buffer [x01; x02; x03] = Some b' /\
     AudioBuf.available wrapped_buffer = 2 /\ AudioBuf.available b' = 1).
Proof.
  assert (Hwf : AudioBuf.wf wrapped_buffer)
    by (unfold AudioBuf.wf; cbn; repeat split; lia).
  assert (Hlen : Z.of_nat (length [x01; x02; x03])
                 <= AudioBuf.size wrapped_buffer) by (cbn; lia).
  split; [split; [exact Hwf | exact Hlen]|].
  destruct (Write_wraps_silently wrapped_buffer [x01; x02; x03] Hwf Hlen)
    as (b' & E & _ & _ & _ & _ & Ha).
  exists b'. split; [exact E|]. split; [reflexivity|]. exact Ha.
Defined.

Lemma Write_appends_to_unread_witness :
  (AudioBuf.wf wrapped_buffer /\
   AudioBuf.available wrapped_buffer + Z.of_nat (length [x01])
     < AudioBuf.size wrapped_buffer) /\
  (exists b', AudioBuf.Write wrapped_buffer [x01] = Some b' /\
     unread b' = [x0d; x0a; x01]).
Proof.
  assert (Hwf : AudioBuf.wf wrapped_buffer)
    by (unfold AudioBuf.wf; cbn; repeat split; lia).
  assert (Hlen : AudioBuf.available wrapped_buffer + Z.of_nat (length [x01])
                 < AudioBuf.size wrapped_buffer) by (vm_compute; reflexivity).
  split; [split; [exact Hwf | exact Hlen]|].
  destruct (Write_appends_to_unread wrapped_buffer [x01] Hwf Hlen)
    as (b' & E & _ & Hu & _).
  exists b'. split; [exact E|]. exact Hu.
Defined.

Lemma Read_takes_oldest_first_witness :
  (AudioBuf.wf wrapped_buffer /\ 0 <= 1) /\
  (exists b',
     AudioBuf.Read wrapped_buffer 1 = Some (1, [x0d], b') /\
     byte_at [x0d] 0
       = byte_at (AudioBuf.data wrapped_buffer)
           ((AudioBuf.readPtr wrapped_buffer + 0)
              mod AudioBuf.size wrapped_buffer) /\
     unread b' = [x0a] /\ AudioBuf.readPtr b' = 0).
Proof.
  assert (Hwf : AudioBuf.wf wrapped_buffer)
    by (unfold AudioBuf.wf; cbn; repeat split; lia).
  assert (H0 : 0 <= 1) by lia.
  split; [split; [exact Hwf | exact H0]|].
  destruct (Read_takes_oldest_first wrapped_buffer 1 Hwf H0)
    as (n & out & b' & E & En & _ & Hb & _ & _ & Eo & Eu & _ & _ & _ & _ & _ & Er).
  assert (En' : n = 1) by (rewrite En; reflexivity).
  assert (Eo' : out = [x0d]) by (rewrite Eo, En'; reflexivity).
  exists b'. split; [rewrite E, En', Eo'; reflexivity|].
  split; [rewrite <- Eo'; apply Hb; lia|].
  split; [rewrite Eu, En'; reflexivity|].
  rewrite Er, En'. reflexivity.
Defined.

Lemma Write_then_Read_round_trip_witness :
  (AudioBuf.wf sample_buffer /\
   AudioBuf.writePtr sample_buffer = AudioBuf.readPtr sample_buffer /\
   Z.of_nat (length [x01; x02; x03]) < AudioBuf.size sample_buffer) /\
  (exists b1 b2,
     AudioBuf.Write sample_buffer [x01; x02; x03] = Some b1 /\
     AudioBuf.Read b1 3 = Some (3, [x01; x02; x03], b2) /\
     AudioBuf.writePtr b2 = AudioBuf.readPtr b2).
Proof.
  assert (Hwf : AudioBuf.wf sample_buffer)
    by (unfold AudioBuf.wf; cbn; repeat split; lia).
  assert (Hlen : Z.of_nat (length [x01; x02; x03])
                 < AudioBuf.size sample_buffer) by (cbn; lia).
  split; [split; [exact Hwf | split; [reflexivity | exact Hlen]]|].
  destruct (Write_then_Read_round_trip sample_buffer [x01; x02; x03] Hwf
              eq_refl Hlen)
    as (b1 & b2 & E1 & E2 & Hp & _).
  exists b1, b2. split; [exact E1|]. split; [exact E2 | exact Hp].
Defined.

Lemma Read_then_Read_witness :
  (AudioBuf.wf wrapped_buffer /\ 0 <= 1 /\ 0 <= 5) /\
  (exists (k1 k2 : Z) (out1 out2 : list byte) (b1 b2 : AudioBuf.t),
     AudioBuf.Read wrapped_buffer 1 = Some (k1, out1, b1) /\
     AudioBuf.Read b1 5 = Some (k2, out2, b2) /\
     AudioBuf.Read wrapped_buffer (1 + 5) = Some (k1 + k2, out1 ++ out2, b2)) /\
  AudioBuf.Read wrapped_buffer (1 + 5)
    = Some (2, [x0d; x0a], AudioBuf.mk 4 [x0a; x0b; x0c; x0d] 1 1).
Proof.
  assert (Hwf : AudioBuf.wf wrapped_buffer)
    by (unfold AudioBuf.wf; cbn; repeat split; lia).
  assert (H1 : 0 <= 1) by lia.
  assert (H5 : 0 <= 5) by lia.
  split; [split; [exact Hwf | split; [exact H1 | exact H5]]|].
  split; [exact (Read_then_Read wrapped_buffer 1 5 Hwf H1 H5) | reflexivity].
Defined.

Lemma GetRecordedData_counts_whole_samples_witness :
  (VoiceRecord_SDL.m_AudioBuffer odd_recorder = Some odd_buffer /\
   AudioBuf.wf odd_buffer /\ 0 < 2 /\
   0 < VoiceRecord_SDL.m_BytesPerSample odd_recorder /\
   2 * VoiceRecord_SDL.m_BytesPerSample odd_recorder <= F32.INT_MAX) /\
  (exists k out b',
     VoiceRecord_SDL.GetRecordedData 2 odd_recorder
       = Some (k, out, VoiceRecord_SDL.set_m_AudioBuffer (Some b') odd_recorder) /\
     k = 1 /\ out = [x07; x08; x01] /\ unread b' = []).
Proof.
  assert (Hwf : AudioBuf.wf odd_buffer)
    by (unfold AudioBuf.wf; cbn; repeat split; lia).
  assert (H2 : 0 < 2) by lia.
  assert (Hs : 0 < VoiceRecord_SDL.m_BytesPerSample odd_recorder)
    by (cbn; lia).
  assert (Hm : 2 * VoiceRecord_SDL.m_BytesPerSample odd_recorder
               <= F32.INT_MAX) by (vm_compute; discriminate).
  split; [repeat split; auto; apply Hwf|].
  destruct (proj1 GetRecordedData_counts_whole_samples 2 odd_recorder
              odd_buffer eq_refl Hwf H2 Hs Hm)
    as (k & out & b' & E & Hk & _ & Ho & Hu & _).
  exists k, out, b'. split; [exact E|]. split; [exact Hk|].
  split; [exact Ho | exact Hu].
Defined.

Lemma RecordStart_begins_with_silence_witness :
  (0 < 1 * (VoiceRecord_SDL.SDL_AUDIO_BITSIZE 32784 / 8) /\
   2 <> 0 /\ VoiceRecord_SDL.m_AudioBuffer new_recorder = None) /\
  (exists v1 b,
     VoiceRecord_SDL.RecordStart 2 (VoiceRecord_SDL.RecordStop new_recorder)
       = Some (true, v1) /\
     VoiceRecord_SDL.m_Device v1 = 2 /\
     VoiceRecord_SDL.m_BytesPerSample v1 = 2 /\
     VoiceRecord_SDL.m_AudioBuffer v1 = Some b /\
     AudioBuf.size b = 264600 /\
     unread b = repeat x00 (Z.to_nat 8192) /\
     exists v2, VoiceRecord_SDL.GetRecordedData 3 v1
                = Some (3, repeat x00 6, v2)).
Proof.
  assert (Hs : 0 < 1 * (VoiceRecord_SDL.SDL_AUDIO_BITSIZE 32784 / 8))
    by (vm_compute; reflexivity).
  assert (Hc : 2 * VoiceRecord_SDL.SAMPLE_COUNT
               * (1 * (VoiceRecord_SDL.SDL_AUDIO_BITSIZE 32784 / 8))
               < VoiceRecord_SDL.RECORDING_BUFFER_SECONDS
                 * (44100 * (1 * (VoiceRecord_SDL.SDL_AUDIO_BITSIZE 32784 / 8))))
    by (vm_compute; reflexivity).
  assert (Hm : VoiceRecord_SDL.RECORDING_BUFFER_SECONDS
               * (44100 * (1 * (VoiceRecord_SDL.SDL_AUDIO_BITSIZE 32784 / 8)))
               <= F32.INT_MAX)
    by (vm_compute; discriminate).
  assert (Hd : 2 <> 0) by lia.
  split; [split; [exact Hs | split; [exact Hd | reflexivity]]|].
  destruct (RecordStart_begins_with_silence 2 new_recorder Hs Hc Hm Hd
              (or_introl eq_refl))
    as (_ & _ & v1 & b & E & Hdev & Hbps & Hbuf & _ & Hsz & Hu & Hget).
  exists v1, b. split; [exact E|]. split; [exact Hdev|].
  split; [exact Hbps|]. split; [exact Hbuf|]. split; [exact Hsz|].
  split; [exact Hu|].
  assert (H3 : 0 < 3 <= 2 * VoiceRecord_SDL.SAMPLE_COUNT)
    by (unfold VoiceRecord_SDL.SAMPLE_COUNT; lia).
  exact (Hget 3 H3).
Defined.

Lemma recorder_life_cycle_witness :
  (0 < VoiceRecord_SDL.sample_bytes
         (VoiceRecord_SDL.m_ReceivedRecordingSpec new_recorder) /\
   VoiceRecord_SDL.buffer_bytes
     (VoiceRecord_SDL.m_ReceivedRecordingSpec new_recorder) = 264600 /\
   forallb (VoiceRecord_SDL.recorder_call_valid
              (VoiceRecord_SDL.m_ReceivedRecordingSpec new_recorder))
     sample_recorder_calls = true) /\
  (exists v',
     VoiceRecord_SDL.recorder_calls sample_recorder_calls new_recorder
       = Some v' /\
     VoiceRecord_SDL.device_calls_ok (VoiceRecord_SDL.audio_calls v') /\
     VoiceRecord_SDL.current_device (VoiceRecord_SDL.audio_calls v')
       = VoiceRecord_SDL.m_Device v').
Proof.
  assert (Hs : 0 < VoiceRecord_SDL.sample_bytes
                     (VoiceRecord_SDL.m_ReceivedRecordingSpec new_recorder))
    by (vm_compute; reflexivity).
  assert (Hc : 2 * VoiceRecord_SDL.SAMPLE_COUNT
               * VoiceRecord_SDL.sample_bytes
                   (VoiceRecord_SDL.m_ReceivedRecordingSpec new_recorder)
               < VoiceRecord_SDL.buffer_bytes
                   (VoiceRecord_SDL.m_ReceivedRecordingSpec new_recorder))
    by (vm_compute; reflexivity).
  assert (Hm : VoiceRecord_SDL.buffer_bytes
                 (VoiceRecord_SDL.m_ReceivedRecordingSpec new_recorder)
               <= F32.INT_MAX)
    by (vm_compute; discriminate).
  assert (Hv : forallb (VoiceRecord_SDL.recorder_call_valid
                          (VoiceRecord_SDL.m_ReceivedRecordingSpec new_recorder))
                 sample_recorder_calls = true)
    by (vm_compute; reflexivity).
  split; [split; [exact Hs | split; [reflexivity | exact Hv]]|].
  destruct (recorder_life_cycle sample_recorder_calls new_recorder Hs Hc Hm
              eq_refl eq_refl eq_refl Hv)
    as (v' & E & Hok & Hcur & _).
  exists v'. split; [exact E|]. split; [exact Hok | exact Hcur].
Defined.

Lemma guide_is_reported_as_back_witness :
  (NoDup (button_codes (enums := sdk_enums)) /\
   ~ In (BUTTON_CODE_NONE (InputEnums := sdk_enums))
        (button_codes (enums := sdk_enums))) /\
  JoystickButtonPress (enums := sdk_enums) 1 SDL_GAMEPAD_BUTTON_GUIDE
    (active_state 1)
    = JoystickButtonPress (enums := sdk_enums) 1 SDL_GAMEPAD_BUTTON_BACK
        (active_state 1) /\
  (ControllerButtonToButtonCode (enums := sdk_enums) SDL_GAMEPAD_BUTTON_MISC1
     = BUTTON_CODE_NONE (InputEnums := sdk_enums) <->
   ~ In SDL_GAMEPAD_BUTTON_MISC1 button_table_keys).
Proof.
  assert (Hnd : NoDup (button_codes (enums := sdk_enums))).
  { unfold button_codes. cbn.
    repeat (apply NoDup_cons; [cbn; intuition discriminate|]).
    apply NoDup_nil. }
  assert (Hn : ~ In (BUTTON_CODE_NONE (InputEnums := sdk_enums))
                    (button_codes (enums := sdk_enums)))
    by (cbn; intuition discriminate).
  split; [split; [exact Hnd | exact Hn]|].
  destruct (guide_is_reported_as_back (enums := sdk_enums))
    as (Hsame & _ & Hnone).
  split; [exact (proj1 (Hsame 1 (active_state 1)))|].
  exact (Hnone Hn SDL_GAMEPAD_BUTTON_MISC1).
Defined.
